(** * The s2n alert layer: error types, error-to-alert translation and
    the inbound/outbound alert engine.

    Shallow embedding of [error/s2n_errno.h] and [tls/s2n_alerts.c].
    C integers are [Z]; a function that returns [-1] after setting
    [s2n_errno] returns [S2N_FAILURE errno]; state reached through a
    pointer is passed in and handed back. *)

From Stdlib Require Import ZArith List Bool Lia.
Import ListNotations.
Open Scope Z_scope.

(** ** Return conventions *)

(** An [int]-returning function: [S2N_SUCCESS] is the return value 0,
    [S2N_FAILURE e] is the return value -1 with [s2n_errno] set to [e]. *)
Inductive posix_return : Type :=
| S2N_SUCCESS
| S2N_FAILURE (s2n_errno : Z).

(** An [S2N_RESULT]-returning function, with the same convention. *)
Inductive s2n_result : Type :=
| S2N_RESULT_OK
| S2N_RESULT_ERROR (s2n_errno : Z).

(** Modelled from the spec: the raise-and-return macros of
    utils/s2n_safety_macros.h are not among the sources; in the spec's idiom
    a failed check raises its error and the function returns at once.
    [POSIX_GUARD_RESULT] hands the failure of an [S2N_RESULT] callee to an
    [int]-returning caller. *)
Definition POSIX_GUARD_RESULT (r : s2n_result) : posix_return :=
  match r with
  | S2N_RESULT_OK => S2N_SUCCESS
  | S2N_RESULT_ERROR e => S2N_FAILURE e
  end.

(** ** error/s2n_errno.h *)

Definition S2N_ERR_NUM_VALUE_BITS : Z := 26.

(** Modelled from the spec: the error types are the enumeration
    [s2n_error_type] of api/s2n.h, which is not among the sources; the spec
    lists the eight categories in ascending order: OK, IO, CLOSED, BLOCKED,
    ALERT, PROTOCOL, INTERNAL, USAGE. *)
Definition S2N_ERR_T_OK : Z := 0.
(** Modelled from the spec: second category of api/s2n.h's [s2n_error_type]. *)
Definition S2N_ERR_T_IO : Z := 1.
(** Modelled from the spec: third category of api/s2n.h's [s2n_error_type]. *)
Definition S2N_ERR_T_CLOSED : Z := 2.
(** Modelled from the spec: fourth category of api/s2n.h's [s2n_error_type]. *)
Definition S2N_ERR_T_BLOCKED : Z := 3.
(** Modelled from the spec: fifth category of api/s2n.h's [s2n_error_type]. *)
Definition S2N_ERR_T_ALERT : Z := 4.
(** Modelled from the spec: sixth category of api/s2n.h's [s2n_error_type]. *)
Definition S2N_ERR_T_PROTO : Z := 5.
(** Modelled from the spec: seventh category of api/s2n.h's [s2n_error_type]. *)
Definition S2N_ERR_T_INTERNAL : Z := 6.
(** Modelled from the spec: eighth category of api/s2n.h's [s2n_error_type]. *)
Definition S2N_ERR_T_USAGE : Z := 7.

(** Start value for each error type. *)
Definition S2N_ERR_T_OK_START : Z := Z.shiftl S2N_ERR_T_OK S2N_ERR_NUM_VALUE_BITS.
Definition S2N_ERR_T_IO_START : Z := Z.shiftl S2N_ERR_T_IO S2N_ERR_NUM_VALUE_BITS.
Definition S2N_ERR_T_CLOSED_START : Z := Z.shiftl S2N_ERR_T_CLOSED S2N_ERR_NUM_VALUE_BITS.
Definition S2N_ERR_T_BLOCKED_START : Z := Z.shiftl S2N_ERR_T_BLOCKED S2N_ERR_NUM_VALUE_BITS.
Definition S2N_ERR_T_ALERT_START : Z := Z.shiftl S2N_ERR_T_ALERT S2N_ERR_NUM_VALUE_BITS.
Definition S2N_ERR_T_PROTO_START : Z := Z.shiftl S2N_ERR_T_PROTO S2N_ERR_NUM_VALUE_BITS.
Definition S2N_ERR_T_INTERNAL_START : Z := Z.shiftl S2N_ERR_T_INTERNAL S2N_ERR_NUM_VALUE_BITS.
Definition S2N_ERR_T_USAGE_START : Z := Z.shiftl S2N_ERR_T_USAGE S2N_ERR_NUM_VALUE_BITS.

(** The enumeration [s2n_error], in declaration order: an enumerator
    without an initialiser is its predecessor plus one. *)
Definition S2N_ERR_OK : Z := S2N_ERR_T_OK_START.
Definition S2N_ERR_T_OK_END : Z := S2N_ERR_OK + 1.
Definition S2N_ERR_IO : Z := S2N_ERR_T_IO_START.
Definition S2N_ERR_T_IO_END : Z := S2N_ERR_IO + 1.
Definition S2N_ERR_CLOSED : Z := S2N_ERR_T_CLOSED_START.
Definition S2N_ERR_T_CLOSED_END : Z := S2N_ERR_CLOSED + 1.
Definition S2N_ERR_IO_BLOCKED : Z := S2N_ERR_T_BLOCKED_START.
Definition S2N_ERR_ASYNC_BLOCKED : Z := S2N_ERR_IO_BLOCKED + 1.
Definition S2N_ERR_EARLY_DATA_BLOCKED : Z := S2N_ERR_ASYNC_BLOCKED + 1.
Definition S2N_ERR_APP_DATA_BLOCKED : Z := S2N_ERR_EARLY_DATA_BLOCKED + 1.
Definition S2N_ERR_T_BLOCKED_END : Z := S2N_ERR_APP_DATA_BLOCKED + 1.
Definition S2N_ERR_ALERT : Z := S2N_ERR_T_ALERT_START.
Definition S2N_ERR_T_ALERT_END : Z := S2N_ERR_ALERT + 1.
Definition S2N_ERR_ENCRYPT : Z := S2N_ERR_T_PROTO_START.
Definition S2N_ERR_DECRYPT : Z := S2N_ERR_ENCRYPT + 1.
Definition S2N_ERR_BAD_MESSAGE : Z := S2N_ERR_DECRYPT + 1.
Definition S2N_ERR_UNEXPECTED_CERT_REQUEST : Z := S2N_ERR_BAD_MESSAGE + 1.
Definition S2N_ERR_KEY_INIT : Z := S2N_ERR_UNEXPECTED_CERT_REQUEST + 1.
Definition S2N_ERR_KEY_DESTROY : Z := S2N_ERR_KEY_INIT + 1.
Definition S2N_ERR_DH_SERIALIZING : Z := S2N_ERR_KEY_DESTROY + 1.
Definition S2N_ERR_DH_SHARED_SECRET : Z := S2N_ERR_DH_SERIALIZING + 1.
Definition S2N_ERR_DH_WRITING_PUBLIC_KEY : Z := S2N_ERR_DH_SHARED_SECRET + 1.
Definition S2N_ERR_DH_FAILED_SIGNING : Z := S2N_ERR_DH_WRITING_PUBLIC_KEY + 1.
Definition S2N_ERR_DH_COPYING_PARAMETERS : Z := S2N_ERR_DH_FAILED_SIGNING + 1.
Definition S2N_ERR_DH_GENERATING_PARAMETERS : Z := S2N_ERR_DH_COPYING_PARAMETERS + 1.
Definition S2N_ERR_CIPHER_NOT_SUPPORTED : Z := S2N_ERR_DH_GENERATING_PARAMETERS + 1.
Definition S2N_ERR_NO_APPLICATION_PROTOCOL : Z := S2N_ERR_CIPHER_NOT_SUPPORTED + 1.
Definition S2N_ERR_FALLBACK_DETECTED : Z := S2N_ERR_NO_APPLICATION_PROTOCOL + 1.
Definition S2N_ERR_HASH_DIGEST_FAILED : Z := S2N_ERR_FALLBACK_DETECTED + 1.
Definition S2N_ERR_HASH_INIT_FAILED : Z := S2N_ERR_HASH_DIGEST_FAILED + 1.
Definition S2N_ERR_HASH_UPDATE_FAILED : Z := S2N_ERR_HASH_INIT_FAILED + 1.
Definition S2N_ERR_HASH_COPY_FAILED : Z := S2N_ERR_HASH_UPDATE_FAILED + 1.
Definition S2N_ERR_HASH_WIPE_FAILED : Z := S2N_ERR_HASH_COPY_FAILED + 1.
Definition S2N_ERR_HASH_NOT_READY : Z := S2N_ERR_HASH_WIPE_FAILED + 1.
Definition S2N_ERR_ALLOW_MD5_FOR_FIPS_FAILED : Z := S2N_ERR_HASH_NOT_READY + 1.
Definition S2N_ERR_DECODE_CERTIFICATE : Z := S2N_ERR_ALLOW_MD5_FOR_FIPS_FAILED + 1.
Definition S2N_ERR_DECODE_PRIVATE_KEY : Z := S2N_ERR_DECODE_CERTIFICATE + 1.
Definition S2N_ERR_INVALID_HELLO_RETRY : Z := S2N_ERR_DECODE_PRIVATE_KEY + 1.
Definition S2N_ERR_INVALID_SIGNATURE_ALGORITHM : Z := S2N_ERR_INVALID_HELLO_RETRY + 1.
Definition S2N_ERR_INVALID_SIGNATURE_SCHEME : Z := S2N_ERR_INVALID_SIGNATURE_ALGORITHM + 1.
Definition S2N_ERR_NO_VALID_SIGNATURE_SCHEME : Z := S2N_ERR_INVALID_SIGNATURE_SCHEME + 1.
Definition S2N_ERR_CBC_VERIFY : Z := S2N_ERR_NO_VALID_SIGNATURE_SCHEME + 1.
Definition S2N_ERR_DH_COPYING_PUBLIC_KEY : Z := S2N_ERR_CBC_VERIFY + 1.
Definition S2N_ERR_SIGN : Z := S2N_ERR_DH_COPYING_PUBLIC_KEY + 1.
Definition S2N_ERR_VERIFY_SIGNATURE : Z := S2N_ERR_SIGN + 1.
Definition S2N_ERR_ECDHE_GEN_KEY : Z := S2N_ERR_VERIFY_SIGNATURE + 1.
Definition S2N_ERR_ECDHE_SHARED_SECRET : Z := S2N_ERR_ECDHE_GEN_KEY + 1.
Definition S2N_ERR_ECDHE_UNSUPPORTED_CURVE : Z := S2N_ERR_ECDHE_SHARED_SECRET + 1.
Definition S2N_ERR_ECDSA_UNSUPPORTED_CURVE : Z := S2N_ERR_ECDHE_UNSUPPORTED_CURVE + 1.
Definition S2N_ERR_ECDHE_SERIALIZING : Z := S2N_ERR_ECDSA_UNSUPPORTED_CURVE + 1.
Definition S2N_ERR_KEM_UNSUPPORTED_PARAMS : Z := S2N_ERR_ECDHE_SERIALIZING + 1.
Definition S2N_ERR_SHUTDOWN_RECORD_TYPE : Z := S2N_ERR_KEM_UNSUPPORTED_PARAMS + 1.
Definition S2N_ERR_SHUTDOWN_CLOSED : Z := S2N_ERR_SHUTDOWN_RECORD_TYPE + 1.
Definition S2N_ERR_NON_EMPTY_RENEGOTIATION_INFO : Z := S2N_ERR_SHUTDOWN_CLOSED + 1.
Definition S2N_ERR_RECORD_LIMIT : Z := S2N_ERR_NON_EMPTY_RENEGOTIATION_INFO + 1.
Definition S2N_ERR_CERT_UNTRUSTED : Z := S2N_ERR_RECORD_LIMIT + 1.
Definition S2N_ERR_CERT_REVOKED : Z := S2N_ERR_CERT_UNTRUSTED + 1.
Definition S2N_ERR_CERT_NOT_YET_VALID : Z := S2N_ERR_CERT_REVOKED + 1.
Definition S2N_ERR_CERT_EXPIRED : Z := S2N_ERR_CERT_NOT_YET_VALID + 1.
Definition S2N_ERR_CERT_TYPE_UNSUPPORTED : Z := S2N_ERR_CERT_EXPIRED + 1.
Definition S2N_ERR_CERT_INVALID : Z := S2N_ERR_CERT_TYPE_UNSUPPORTED + 1.
Definition S2N_ERR_CERT_MAX_CHAIN_DEPTH_EXCEEDED : Z := S2N_ERR_CERT_INVALID + 1.
Definition S2N_ERR_CERT_REJECTED : Z := S2N_ERR_CERT_MAX_CHAIN_DEPTH_EXCEEDED + 1.
Definition S2N_ERR_CRL_LOOKUP_FAILED : Z := S2N_ERR_CERT_REJECTED + 1.
Definition S2N_ERR_CRL_SIGNATURE : Z := S2N_ERR_CRL_LOOKUP_FAILED + 1.
Definition S2N_ERR_CRL_ISSUER : Z := S2N_ERR_CRL_SIGNATURE + 1.
Definition S2N_ERR_CRL_UNHANDLED_CRITICAL_EXTENSION : Z := S2N_ERR_CRL_ISSUER + 1.
Definition S2N_ERR_CRL_INVALID_THIS_UPDATE : Z := S2N_ERR_CRL_UNHANDLED_CRITICAL_EXTENSION + 1.
Definition S2N_ERR_CRL_INVALID_NEXT_UPDATE : Z := S2N_ERR_CRL_INVALID_THIS_UPDATE + 1.
Definition S2N_ERR_CRL_NOT_YET_VALID : Z := S2N_ERR_CRL_INVALID_NEXT_UPDATE + 1.
Definition S2N_ERR_CRL_EXPIRED : Z := S2N_ERR_CRL_NOT_YET_VALID + 1.
Definition S2N_ERR_INVALID_MAX_FRAG_LEN : Z := S2N_ERR_CRL_EXPIRED + 1.
Definition S2N_ERR_MAX_FRAG_LEN_MISMATCH : Z := S2N_ERR_INVALID_MAX_FRAG_LEN + 1.
Definition S2N_ERR_PROTOCOL_VERSION_UNSUPPORTED : Z := S2N_ERR_MAX_FRAG_LEN_MISMATCH + 1.
Definition S2N_ERR_BAD_KEY_SHARE : Z := S2N_ERR_PROTOCOL_VERSION_UNSUPPORTED + 1.
Definition S2N_ERR_CANCELLED : Z := S2N_ERR_BAD_KEY_SHARE + 1.
Definition S2N_ERR_PROTOCOL_DOWNGRADE_DETECTED : Z := S2N_ERR_CANCELLED + 1.
Definition S2N_ERR_MAX_INNER_PLAINTEXT_SIZE : Z := S2N_ERR_PROTOCOL_DOWNGRADE_DETECTED + 1.
Definition S2N_ERR_RECORD_STUFFER_SIZE : Z := S2N_ERR_MAX_INNER_PLAINTEXT_SIZE + 1.
Definition S2N_ERR_FRAGMENT_LENGTH_TOO_LARGE : Z := S2N_ERR_RECORD_STUFFER_SIZE + 1.
Definition S2N_ERR_FRAGMENT_LENGTH_TOO_SMALL : Z := S2N_ERR_FRAGMENT_LENGTH_TOO_LARGE + 1.
Definition S2N_ERR_RECORD_STUFFER_NEEDS_DRAINING : Z := S2N_ERR_FRAGMENT_LENGTH_TOO_SMALL + 1.
Definition S2N_ERR_MISSING_EXTENSION : Z := S2N_ERR_RECORD_STUFFER_NEEDS_DRAINING + 1.
Definition S2N_ERR_UNSUPPORTED_EXTENSION : Z := S2N_ERR_MISSING_EXTENSION + 1.
Definition S2N_ERR_DUPLICATE_EXTENSION : Z := S2N_ERR_UNSUPPORTED_EXTENSION + 1.
Definition S2N_ERR_MAX_EARLY_DATA_SIZE : Z := S2N_ERR_DUPLICATE_EXTENSION + 1.
Definition S2N_ERR_EARLY_DATA_TRIAL_DECRYPT : Z := S2N_ERR_MAX_EARLY_DATA_SIZE + 1.
Definition S2N_ERR_NO_RENEGOTIATION : Z := S2N_ERR_EARLY_DATA_TRIAL_DECRYPT + 1.
Definition S2N_ERR_KTLS_KEYUPDATE : Z := S2N_ERR_NO_RENEGOTIATION + 1.
Definition S2N_ERR_T_PROTO_END : Z := S2N_ERR_KTLS_KEYUPDATE + 1.
Definition S2N_ERR_MADVISE : Z := S2N_ERR_T_INTERNAL_START.
Definition S2N_ERR_ALLOC : Z := S2N_ERR_MADVISE + 1.
Definition S2N_ERR_MLOCK : Z := S2N_ERR_ALLOC + 1.
Definition S2N_ERR_MUNLOCK : Z := S2N_ERR_MLOCK + 1.
Definition S2N_ERR_FSTAT : Z := S2N_ERR_MUNLOCK + 1.
Definition S2N_ERR_OPEN : Z := S2N_ERR_FSTAT + 1.
Definition S2N_ERR_MMAP : Z := S2N_ERR_OPEN + 1.
Definition S2N_ERR_ATEXIT : Z := S2N_ERR_MMAP + 1.
Definition S2N_ERR_NOMEM : Z := S2N_ERR_ATEXIT + 1.
Definition S2N_ERR_NULL : Z := S2N_ERR_NOMEM + 1.
Definition S2N_ERR_SAFETY : Z := S2N_ERR_NULL + 1.
Definition S2N_ERR_INITIALIZED : Z := S2N_ERR_SAFETY + 1.
Definition S2N_ERR_NOT_INITIALIZED : Z := S2N_ERR_INITIALIZED + 1.
Definition S2N_ERR_RANDOM_UNINITIALIZED : Z := S2N_ERR_NOT_INITIALIZED + 1.
Definition S2N_ERR_OPEN_RANDOM : Z := S2N_ERR_RANDOM_UNINITIALIZED + 1.
Definition S2N_ERR_RESIZE_STATIC_STUFFER : Z := S2N_ERR_OPEN_RANDOM + 1.
Definition S2N_ERR_RESIZE_TAINTED_STUFFER : Z := S2N_ERR_RESIZE_STATIC_STUFFER + 1.
Definition S2N_ERR_STUFFER_OUT_OF_DATA : Z := S2N_ERR_RESIZE_TAINTED_STUFFER + 1.
Definition S2N_ERR_STUFFER_IS_FULL : Z := S2N_ERR_STUFFER_OUT_OF_DATA + 1.
Definition S2N_ERR_STUFFER_NOT_FOUND : Z := S2N_ERR_STUFFER_IS_FULL + 1.
Definition S2N_ERR_STUFFER_HAS_UNPROCESSED_DATA : Z := S2N_ERR_STUFFER_NOT_FOUND + 1.
Definition S2N_ERR_HASH_INVALID_ALGORITHM : Z := S2N_ERR_STUFFER_HAS_UNPROCESSED_DATA + 1.
Definition S2N_ERR_PRF_INVALID_ALGORITHM : Z := S2N_ERR_HASH_INVALID_ALGORITHM + 1.
Definition S2N_ERR_PRF_INVALID_SEED : Z := S2N_ERR_PRF_INVALID_ALGORITHM + 1.
Definition S2N_ERR_PRF_DERIVE : Z := S2N_ERR_PRF_INVALID_SEED + 1.
Definition S2N_ERR_P_HASH_INVALID_ALGORITHM : Z := S2N_ERR_PRF_DERIVE + 1.
Definition S2N_ERR_P_HASH_INIT_FAILED : Z := S2N_ERR_P_HASH_INVALID_ALGORITHM + 1.
Definition S2N_ERR_P_HASH_UPDATE_FAILED : Z := S2N_ERR_P_HASH_INIT_FAILED + 1.
Definition S2N_ERR_P_HASH_FINAL_FAILED : Z := S2N_ERR_P_HASH_UPDATE_FAILED + 1.
Definition S2N_ERR_P_HASH_WIPE_FAILED : Z := S2N_ERR_P_HASH_FINAL_FAILED + 1.
Definition S2N_ERR_HMAC_INVALID_ALGORITHM : Z := S2N_ERR_P_HASH_WIPE_FAILED + 1.
Definition S2N_ERR_HKDF_OUTPUT_SIZE : Z := S2N_ERR_HMAC_INVALID_ALGORITHM + 1.
Definition S2N_ERR_HKDF : Z := S2N_ERR_HKDF_OUTPUT_SIZE + 1.
Definition S2N_ERR_ALERT_PRESENT : Z := S2N_ERR_HKDF + 1.
Definition S2N_ERR_HANDSHAKE_STATE : Z := S2N_ERR_ALERT_PRESENT + 1.
Definition S2N_ERR_SHUTDOWN_PAUSED : Z := S2N_ERR_HANDSHAKE_STATE + 1.
Definition S2N_ERR_SIZE_MISMATCH : Z := S2N_ERR_SHUTDOWN_PAUSED + 1.
Definition S2N_ERR_DRBG : Z := S2N_ERR_SIZE_MISMATCH + 1.
Definition S2N_ERR_DRBG_REQUEST_SIZE : Z := S2N_ERR_DRBG + 1.
Definition S2N_ERR_KEY_CHECK : Z := S2N_ERR_DRBG_REQUEST_SIZE + 1.
Definition S2N_ERR_CIPHER_TYPE : Z := S2N_ERR_KEY_CHECK + 1.
Definition S2N_ERR_MAP_DUPLICATE : Z := S2N_ERR_CIPHER_TYPE + 1.
Definition S2N_ERR_MAP_IMMUTABLE : Z := S2N_ERR_MAP_DUPLICATE + 1.
Definition S2N_ERR_MAP_MUTABLE : Z := S2N_ERR_MAP_IMMUTABLE + 1.
Definition S2N_ERR_MAP_INVALID_MAP_SIZE : Z := S2N_ERR_MAP_MUTABLE + 1.
Definition S2N_ERR_INITIAL_HMAC : Z := S2N_ERR_MAP_INVALID_MAP_SIZE + 1.
Definition S2N_ERR_INVALID_NONCE_TYPE : Z := S2N_ERR_INITIAL_HMAC + 1.
Definition S2N_ERR_UNIMPLEMENTED : Z := S2N_ERR_INVALID_NONCE_TYPE + 1.
Definition S2N_ERR_HANDSHAKE_UNREACHABLE : Z := S2N_ERR_UNIMPLEMENTED + 1.
Definition S2N_ERR_READ : Z := S2N_ERR_HANDSHAKE_UNREACHABLE + 1.
Definition S2N_ERR_WRITE : Z := S2N_ERR_READ + 1.
Definition S2N_ERR_BAD_FD : Z := S2N_ERR_WRITE + 1.
Definition S2N_ERR_RDRAND_FAILED : Z := S2N_ERR_BAD_FD + 1.
Definition S2N_ERR_FAILED_CACHE_RETRIEVAL : Z := S2N_ERR_RDRAND_FAILED + 1.
Definition S2N_ERR_X509_TRUST_STORE : Z := S2N_ERR_FAILED_CACHE_RETRIEVAL + 1.
Definition S2N_ERR_UNKNOWN_PROTOCOL_VERSION : Z := S2N_ERR_X509_TRUST_STORE + 1.
Definition S2N_ERR_NULL_CN_NAME : Z := S2N_ERR_UNKNOWN_PROTOCOL_VERSION + 1.
Definition S2N_ERR_NULL_SANS : Z := S2N_ERR_NULL_CN_NAME + 1.
Definition S2N_ERR_CLIENT_HELLO_VERSION : Z := S2N_ERR_NULL_SANS + 1.
Definition S2N_ERR_CLIENT_PROTOCOL_VERSION : Z := S2N_ERR_CLIENT_HELLO_VERSION + 1.
Definition S2N_ERR_SERVER_PROTOCOL_VERSION : Z := S2N_ERR_CLIENT_PROTOCOL_VERSION + 1.
Definition S2N_ERR_ACTUAL_PROTOCOL_VERSION : Z := S2N_ERR_SERVER_PROTOCOL_VERSION + 1.
Definition S2N_ERR_POLLING_FROM_SOCKET : Z := S2N_ERR_ACTUAL_PROTOCOL_VERSION + 1.
Definition S2N_ERR_RECV_STUFFER_FROM_CONN : Z := S2N_ERR_POLLING_FROM_SOCKET + 1.
Definition S2N_ERR_SEND_STUFFER_TO_CONN : Z := S2N_ERR_RECV_STUFFER_FROM_CONN + 1.
Definition S2N_ERR_PRECONDITION_VIOLATION : Z := S2N_ERR_SEND_STUFFER_TO_CONN + 1.
Definition S2N_ERR_POSTCONDITION_VIOLATION : Z := S2N_ERR_PRECONDITION_VIOLATION + 1.
Definition S2N_ERR_INTEGER_OVERFLOW : Z := S2N_ERR_POSTCONDITION_VIOLATION + 1.
Definition S2N_ERR_ARRAY_INDEX_OOB : Z := S2N_ERR_INTEGER_OVERFLOW + 1.
Definition S2N_ERR_FREE_STATIC_BLOB : Z := S2N_ERR_ARRAY_INDEX_OOB + 1.
Definition S2N_ERR_RESIZE_STATIC_BLOB : Z := S2N_ERR_FREE_STATIC_BLOB + 1.
Definition S2N_ERR_NO_SUPPORTED_LIBCRYPTO_API : Z := S2N_ERR_RESIZE_STATIC_BLOB + 1.
Definition S2N_ERR_RECORD_LENGTH_TOO_LARGE : Z := S2N_ERR_NO_SUPPORTED_LIBCRYPTO_API + 1.
Definition S2N_ERR_SET_DUPLICATE_VALUE : Z := S2N_ERR_RECORD_LENGTH_TOO_LARGE + 1.
Definition S2N_ERR_INVALID_PARSED_EXTENSIONS : Z := S2N_ERR_SET_DUPLICATE_VALUE + 1.
Definition S2N_ERR_ASYNC_CALLBACK_FAILED : Z := S2N_ERR_INVALID_PARSED_EXTENSIONS + 1.
Definition S2N_ERR_ASYNC_MORE_THAN_ONE : Z := S2N_ERR_ASYNC_CALLBACK_FAILED + 1.
Definition S2N_ERR_PQ_CRYPTO : Z := S2N_ERR_ASYNC_MORE_THAN_ONE + 1.
Definition S2N_ERR_INVALID_CERT_STATE : Z := S2N_ERR_PQ_CRYPTO + 1.
Definition S2N_ERR_INVALID_EARLY_DATA_STATE : Z := S2N_ERR_INVALID_CERT_STATE + 1.
Definition S2N_ERR_PKEY_CTX_INIT : Z := S2N_ERR_INVALID_EARLY_DATA_STATE + 1.
Definition S2N_ERR_FORK_DETECTION_INIT : Z := S2N_ERR_PKEY_CTX_INIT + 1.
Definition S2N_ERR_RETRIEVE_FORK_GENERATION_NUMBER : Z := S2N_ERR_FORK_DETECTION_INIT + 1.
Definition S2N_ERR_LIBCRYPTO_VERSION_NUMBER_MISMATCH : Z := S2N_ERR_RETRIEVE_FORK_GENERATION_NUMBER + 1.
Definition S2N_ERR_LIBCRYPTO_VERSION_NAME_MISMATCH : Z := S2N_ERR_LIBCRYPTO_VERSION_NUMBER_MISMATCH + 1.
Definition S2N_ERR_OSSL_PROVIDER : Z := S2N_ERR_LIBCRYPTO_VERSION_NAME_MISMATCH + 1.
Definition S2N_ERR_TEST_ASSERTION : Z := S2N_ERR_OSSL_PROVIDER + 1.
Definition S2N_ERR_T_INTERNAL_END : Z := S2N_ERR_TEST_ASSERTION + 1.
Definition S2N_ERR_NO_ALERT : Z := S2N_ERR_T_USAGE_START.
Definition S2N_ERR_SERVER_MODE : Z := S2N_ERR_NO_ALERT + 1.
Definition S2N_ERR_CLIENT_MODE : Z := S2N_ERR_SERVER_MODE + 1.
Definition S2N_ERR_CLIENT_MODE_DISABLED : Z := S2N_ERR_CLIENT_MODE + 1.
Definition S2N_ERR_TOO_MANY_CERTIFICATES : Z := S2N_ERR_CLIENT_MODE_DISABLED + 1.
Definition S2N_ERR_TOO_MANY_SIGNATURE_SCHEMES : Z := S2N_ERR_TOO_MANY_CERTIFICATES + 1.
Definition S2N_ERR_CLIENT_AUTH_NOT_SUPPORTED_IN_FIPS_MODE : Z := S2N_ERR_TOO_MANY_SIGNATURE_SCHEMES + 1.
Definition S2N_ERR_INVALID_BASE64 : Z := S2N_ERR_CLIENT_AUTH_NOT_SUPPORTED_IN_FIPS_MODE + 1.
Definition S2N_ERR_INVALID_HEX : Z := S2N_ERR_INVALID_BASE64 + 1.
Definition S2N_ERR_INVALID_PEM : Z := S2N_ERR_INVALID_HEX + 1.
Definition S2N_ERR_DH_PARAMS_CREATE : Z := S2N_ERR_INVALID_PEM + 1.
Definition S2N_ERR_DH_TOO_SMALL : Z := S2N_ERR_DH_PARAMS_CREATE + 1.
Definition S2N_ERR_DH_PARAMETER_CHECK : Z := S2N_ERR_DH_TOO_SMALL + 1.
Definition S2N_ERR_INVALID_PKCS3 : Z := S2N_ERR_DH_PARAMETER_CHECK + 1.
Definition S2N_ERR_NO_CERTIFICATE_IN_PEM : Z := S2N_ERR_INVALID_PKCS3 + 1.
Definition S2N_ERR_SERVER_NAME_TOO_LONG : Z := S2N_ERR_NO_CERTIFICATE_IN_PEM + 1.
Definition S2N_ERR_NUM_DEFAULT_CERTIFICATES : Z := S2N_ERR_SERVER_NAME_TOO_LONG + 1.
Definition S2N_ERR_MULTIPLE_DEFAULT_CERTIFICATES_PER_AUTH_TYPE : Z := S2N_ERR_NUM_DEFAULT_CERTIFICATES + 1.
Definition S2N_ERR_INVALID_CIPHER_PREFERENCES : Z := S2N_ERR_MULTIPLE_DEFAULT_CERTIFICATES_PER_AUTH_TYPE + 1.
Definition S2N_ERR_INVALID_APPLICATION_PROTOCOL : Z := S2N_ERR_INVALID_CIPHER_PREFERENCES + 1.
Definition S2N_ERR_KEY_MISMATCH : Z := S2N_ERR_INVALID_APPLICATION_PROTOCOL + 1.
Definition S2N_ERR_SEND_SIZE : Z := S2N_ERR_KEY_MISMATCH + 1.
Definition S2N_ERR_CORK_SET_ON_UNMANAGED : Z := S2N_ERR_SEND_SIZE + 1.
Definition S2N_ERR_UNRECOGNIZED_EXTENSION : Z := S2N_ERR_CORK_SET_ON_UNMANAGED + 1.
Definition S2N_ERR_EXTENSION_NOT_RECEIVED : Z := S2N_ERR_UNRECOGNIZED_EXTENSION + 1.
Definition S2N_ERR_INVALID_SCT_LIST : Z := S2N_ERR_EXTENSION_NOT_RECEIVED + 1.
Definition S2N_ERR_INVALID_OCSP_RESPONSE : Z := S2N_ERR_INVALID_SCT_LIST + 1.
Definition S2N_ERR_UPDATING_EXTENSION : Z := S2N_ERR_INVALID_OCSP_RESPONSE + 1.
Definition S2N_ERR_INVALID_SERIALIZED_SESSION_STATE : Z := S2N_ERR_UPDATING_EXTENSION + 1.
Definition S2N_ERR_SERIALIZED_SESSION_STATE_TOO_LONG : Z := S2N_ERR_INVALID_SERIALIZED_SESSION_STATE + 1.
Definition S2N_ERR_SESSION_ID_TOO_LONG : Z := S2N_ERR_SERIALIZED_SESSION_STATE_TOO_LONG + 1.
Definition S2N_ERR_CLIENT_AUTH_NOT_SUPPORTED_IN_SESSION_RESUMPTION_MODE : Z := S2N_ERR_SESSION_ID_TOO_LONG + 1.
Definition S2N_ERR_INVALID_TICKET_KEY_LENGTH : Z := S2N_ERR_CLIENT_AUTH_NOT_SUPPORTED_IN_SESSION_RESUMPTION_MODE + 1.
Definition S2N_ERR_INVALID_TICKET_KEY_NAME_OR_NAME_LENGTH : Z := S2N_ERR_INVALID_TICKET_KEY_LENGTH + 1.
Definition S2N_ERR_TICKET_KEY_NOT_UNIQUE : Z := S2N_ERR_INVALID_TICKET_KEY_NAME_OR_NAME_LENGTH + 1.
Definition S2N_ERR_TICKET_KEY_LIMIT : Z := S2N_ERR_TICKET_KEY_NOT_UNIQUE + 1.
Definition S2N_ERR_NO_TICKET_ENCRYPT_DECRYPT_KEY : Z := S2N_ERR_TICKET_KEY_LIMIT + 1.
Definition S2N_ERR_ENCRYPT_DECRYPT_KEY_SELECTION_FAILED : Z := S2N_ERR_NO_TICKET_ENCRYPT_DECRYPT_KEY + 1.
Definition S2N_ERR_KEY_USED_IN_SESSION_TICKET_NOT_FOUND : Z := S2N_ERR_ENCRYPT_DECRYPT_KEY_SELECTION_FAILED + 1.
Definition S2N_ERR_SENDING_NST : Z := S2N_ERR_KEY_USED_IN_SESSION_TICKET_NOT_FOUND + 1.
Definition S2N_ERR_INVALID_DYNAMIC_THRESHOLD : Z := S2N_ERR_SENDING_NST + 1.
Definition S2N_ERR_INVALID_ARGUMENT : Z := S2N_ERR_INVALID_DYNAMIC_THRESHOLD + 1.
Definition S2N_ERR_NOT_IN_UNIT_TEST : Z := S2N_ERR_INVALID_ARGUMENT + 1.
Definition S2N_ERR_NOT_IN_TEST : Z := S2N_ERR_NOT_IN_UNIT_TEST + 1.
Definition S2N_ERR_UNSUPPORTED_CPU : Z := S2N_ERR_NOT_IN_TEST + 1.
Definition S2N_ERR_SESSION_ID_TOO_SHORT : Z := S2N_ERR_UNSUPPORTED_CPU + 1.
Definition S2N_ERR_CONNECTION_CACHING_DISALLOWED : Z := S2N_ERR_SESSION_ID_TOO_SHORT + 1.
Definition S2N_ERR_SESSION_TICKET_NOT_SUPPORTED : Z := S2N_ERR_CONNECTION_CACHING_DISALLOWED + 1.
Definition S2N_ERR_OCSP_NOT_SUPPORTED : Z := S2N_ERR_SESSION_TICKET_NOT_SUPPORTED + 1.
Definition S2N_ERR_INVALID_SIGNATURE_ALGORITHMS_PREFERENCES : Z := S2N_ERR_OCSP_NOT_SUPPORTED + 1.
Definition S2N_ERR_RSA_PSS_NOT_SUPPORTED : Z := S2N_ERR_INVALID_SIGNATURE_ALGORITHMS_PREFERENCES + 1.
Definition S2N_ERR_INVALID_ECC_PREFERENCES : Z := S2N_ERR_RSA_PSS_NOT_SUPPORTED + 1.
Definition S2N_ERR_INVALID_SECURITY_POLICY : Z := S2N_ERR_INVALID_ECC_PREFERENCES + 1.
Definition S2N_ERR_INVALID_KEM_PREFERENCES : Z := S2N_ERR_INVALID_SECURITY_POLICY + 1.
Definition S2N_ERR_ASYNC_ALREADY_PERFORMED : Z := S2N_ERR_INVALID_KEM_PREFERENCES + 1.
Definition S2N_ERR_ASYNC_NOT_PERFORMED : Z := S2N_ERR_ASYNC_ALREADY_PERFORMED + 1.
Definition S2N_ERR_ASYNC_WRONG_CONNECTION : Z := S2N_ERR_ASYNC_NOT_PERFORMED + 1.
Definition S2N_ERR_ASYNC_ALREADY_APPLIED : Z := S2N_ERR_ASYNC_WRONG_CONNECTION + 1.
Definition S2N_ERR_UNSUPPORTED_WITH_QUIC : Z := S2N_ERR_ASYNC_ALREADY_APPLIED + 1.
Definition S2N_ERR_DUPLICATE_PSK_IDENTITIES : Z := S2N_ERR_UNSUPPORTED_WITH_QUIC + 1.
Definition S2N_ERR_OFFERED_PSKS_TOO_LONG : Z := S2N_ERR_DUPLICATE_PSK_IDENTITIES + 1.
Definition S2N_ERR_INVALID_SESSION_TICKET : Z := S2N_ERR_OFFERED_PSKS_TOO_LONG + 1.
Definition S2N_ERR_REENTRANCY : Z := S2N_ERR_INVALID_SESSION_TICKET + 1.
Definition S2N_ERR_INVALID_STATE : Z := S2N_ERR_REENTRANCY + 1.
Definition S2N_ERR_EARLY_DATA_NOT_ALLOWED : Z := S2N_ERR_INVALID_STATE + 1.
Definition S2N_ERR_NO_CERT_FOUND : Z := S2N_ERR_EARLY_DATA_NOT_ALLOWED + 1.
Definition S2N_ERR_CERT_NOT_VALIDATED : Z := S2N_ERR_NO_CERT_FOUND + 1.
Definition S2N_ERR_NO_PRIVATE_KEY : Z := S2N_ERR_CERT_NOT_VALIDATED + 1.
Definition S2N_ERR_PSK_MODE : Z := S2N_ERR_NO_PRIVATE_KEY + 1.
Definition S2N_ERR_X509_EXTENSION_VALUE_NOT_FOUND : Z := S2N_ERR_PSK_MODE + 1.
Definition S2N_ERR_INVALID_X509_EXTENSION_TYPE : Z := S2N_ERR_X509_EXTENSION_VALUE_NOT_FOUND + 1.
Definition S2N_ERR_INSUFFICIENT_MEM_SIZE : Z := S2N_ERR_INVALID_X509_EXTENSION_TYPE + 1.
Definition S2N_ERR_KEYING_MATERIAL_EXPIRED : Z := S2N_ERR_INSUFFICIENT_MEM_SIZE + 1.
Definition S2N_ERR_SECRET_SCHEDULE_STATE : Z := S2N_ERR_KEYING_MATERIAL_EXPIRED + 1.
Definition S2N_ERR_CERT_OWNERSHIP : Z := S2N_ERR_SECRET_SCHEDULE_STATE + 1.
Definition S2N_ERR_INTERNAL_LIBCRYPTO_ERROR : Z := S2N_ERR_CERT_OWNERSHIP + 1.
Definition S2N_ERR_HANDSHAKE_NOT_COMPLETE : Z := S2N_ERR_INTERNAL_LIBCRYPTO_ERROR + 1.
Definition S2N_ERR_KTLS_MANAGED_IO : Z := S2N_ERR_HANDSHAKE_NOT_COMPLETE + 1.
Definition S2N_ERR_KTLS_UNSUPPORTED_PLATFORM : Z := S2N_ERR_KTLS_MANAGED_IO + 1.
Definition S2N_ERR_KTLS_UNSUPPORTED_CONN : Z := S2N_ERR_KTLS_UNSUPPORTED_PLATFORM + 1.
Definition S2N_ERR_KTLS_ENABLE : Z := S2N_ERR_KTLS_UNSUPPORTED_CONN + 1.
Definition S2N_ERR_KTLS_BAD_CMSG : Z := S2N_ERR_KTLS_ENABLE + 1.
Definition S2N_ERR_KTLS_RENEG : Z := S2N_ERR_KTLS_BAD_CMSG + 1.
Definition S2N_ERR_ATOMIC : Z := S2N_ERR_KTLS_RENEG + 1.
Definition S2N_ERR_KTLS_KEY_LIMIT : Z := S2N_ERR_ATOMIC + 1.
Definition S2N_ERR_SECURITY_POLICY_INCOMPATIBLE_CERT : Z := S2N_ERR_KTLS_KEY_LIMIT + 1.
Definition S2N_ERR_T_USAGE_END : Z := S2N_ERR_SECURITY_POLICY_INCOMPATIBLE_CERT + 1.

(** Modelled from the spec: [s2n_error_get_type] is defined in
    error/s2n_errno.c, which is not among the sources; the spec has it
    extract the type bits that sit above the [S2N_ERR_NUM_VALUE_BITS] value
    bits. The shift is arithmetic, as for a C [int]. *)
Definition s2n_error_get_type (error : Z) : Z :=
  Z.shiftr error S2N_ERR_NUM_VALUE_BITS.

(** Modelled from the spec: utils/s2n_safety_macros.h, the check that a
    pointer is not NULL; [x] is [None] for NULL. It raises [S2N_ERR_NULL]. *)
Definition RESULT_ENSURE_REF {A : Type} (x : option A) : s2n_result :=
  match x with
  | Some _ => S2N_RESULT_OK
  | None => S2N_RESULT_ERROR S2N_ERR_NULL
  end.

(** Modelled from the spec: utils/s2n_safety_macros.h, the check that two
    values are equal. The spec does not name its error; in s2n's safety
    macros it raises [S2N_ERR_SAFETY]. *)
Definition RESULT_ENSURE_EQ (a b : Z) : s2n_result :=
  if a =? b then S2N_RESULT_OK else S2N_RESULT_ERROR S2N_ERR_SAFETY.

(** ** Alert levels and descriptions *)

Definition S2N_TLS_ALERT_LEVEL_WARNING : Z := 1.
Definition S2N_TLS_ALERT_LEVEL_FATAL : Z := 2.

(** Modelled from the spec: the alert descriptions are declared in
    tls/s2n_alerts.h, which is not among the sources; the values are those
    of the spec's AlertMessage data model (close_notify=0). *)
Definition S2N_TLS_ALERT_CLOSE_NOTIFY : Z := 0.
(** Modelled from the spec: tls/s2n_alerts.h, unexpected_message=10. *)
Definition S2N_TLS_ALERT_UNEXPECTED_MESSAGE : Z := 10.
(** Modelled from the spec: tls/s2n_alerts.h, handshake_failure=40. *)
Definition S2N_TLS_ALERT_HANDSHAKE_FAILURE : Z := 40.
(** Modelled from the spec: tls/s2n_alerts.h, internal_error=80 in the
    spec's AlertMessage data model (the value RFC 8446 assigns). *)
Definition S2N_TLS_ALERT_INTERNAL_ERROR : Z := 80.
(** Modelled from the spec: tls/s2n_alerts.h, user_canceled=90. *)
Definition S2N_TLS_ALERT_USER_CANCELED : Z := 90.
(** Modelled from the spec: tls/s2n_alerts.h, no_renegotiation=100. *)
Definition S2N_TLS_ALERT_NO_RENEGOTIATION : Z := 100.
(** Modelled from the spec: tls/s2n_alerts.h, missing_extension=109. *)
Definition S2N_TLS_ALERT_MISSING_EXTENSION : Z := 109.
(** Modelled from the spec: tls/s2n_alerts.h, an alert is exactly 2 bytes. *)
Definition S2N_ALERT_LENGTH : Z := 2.

(** ** tls/s2n_alerts.c: error-to-alert translation *)

(** One arm of the [switch] of [s2n_translate_protocol_error_to_alert],
    named after the macro that writes it. *)
Inductive switch_arm : Type :=
| S2N_ALERT_CASE (error alert_code : Z)
| S2N_NO_ALERT (error : Z).

(** The arms of the switch, in source order. *)
Definition protocol_error_arms : list switch_arm :=
  [
    S2N_ALERT_CASE S2N_ERR_MISSING_EXTENSION S2N_TLS_ALERT_MISSING_EXTENSION;
    S2N_ALERT_CASE S2N_ERR_BAD_MESSAGE S2N_TLS_ALERT_UNEXPECTED_MESSAGE;
    S2N_ALERT_CASE S2N_ERR_NO_RENEGOTIATION S2N_TLS_ALERT_HANDSHAKE_FAILURE;
    S2N_NO_ALERT S2N_ERR_ENCRYPT;
    S2N_NO_ALERT S2N_ERR_DECRYPT;
    S2N_NO_ALERT S2N_ERR_KEY_INIT;
    S2N_NO_ALERT S2N_ERR_KEY_DESTROY;
    S2N_NO_ALERT S2N_ERR_DH_SERIALIZING;
    S2N_NO_ALERT S2N_ERR_DH_SHARED_SECRET;
    S2N_NO_ALERT S2N_ERR_DH_WRITING_PUBLIC_KEY;
    S2N_NO_ALERT S2N_ERR_DH_FAILED_SIGNING;
    S2N_NO_ALERT S2N_ERR_DH_COPYING_PARAMETERS;
    S2N_NO_ALERT S2N_ERR_DH_GENERATING_PARAMETERS;
    S2N_NO_ALERT S2N_ERR_CIPHER_NOT_SUPPORTED;
    S2N_NO_ALERT S2N_ERR_NO_APPLICATION_PROTOCOL;
    S2N_NO_ALERT S2N_ERR_FALLBACK_DETECTED;
    S2N_NO_ALERT S2N_ERR_HASH_DIGEST_FAILED;
    S2N_NO_ALERT S2N_ERR_HASH_INIT_FAILED;
    S2N_NO_ALERT S2N_ERR_HASH_UPDATE_FAILED;
    S2N_NO_ALERT S2N_ERR_HASH_COPY_FAILED;
    S2N_NO_ALERT S2N_ERR_HASH_WIPE_FAILED;
    S2N_NO_ALERT S2N_ERR_HASH_NOT_READY;
    S2N_NO_ALERT S2N_ERR_ALLOW_MD5_FOR_FIPS_FAILED;
    S2N_NO_ALERT S2N_ERR_DECODE_CERTIFICATE;
    S2N_NO_ALERT S2N_ERR_DECODE_PRIVATE_KEY;
    S2N_NO_ALERT S2N_ERR_INVALID_HELLO_RETRY;
    S2N_NO_ALERT S2N_ERR_INVALID_SIGNATURE_ALGORITHM;
    S2N_NO_ALERT S2N_ERR_INVALID_SIGNATURE_SCHEME;
    S2N_NO_ALERT S2N_ERR_CBC_VERIFY;
    S2N_NO_ALERT S2N_ERR_DH_COPYING_PUBLIC_KEY;
    S2N_NO_ALERT S2N_ERR_SIGN;
    S2N_NO_ALERT S2N_ERR_VERIFY_SIGNATURE;
    S2N_NO_ALERT S2N_ERR_ECDHE_GEN_KEY;
    S2N_NO_ALERT S2N_ERR_ECDHE_SHARED_SECRET;
    S2N_NO_ALERT S2N_ERR_ECDHE_UNSUPPORTED_CURVE;
    S2N_NO_ALERT S2N_ERR_ECDSA_UNSUPPORTED_CURVE;
    S2N_NO_ALERT S2N_ERR_ECDHE_SERIALIZING;
    S2N_NO_ALERT S2N_ERR_KEM_UNSUPPORTED_PARAMS;
    S2N_NO_ALERT S2N_ERR_SHUTDOWN_RECORD_TYPE;
    S2N_NO_ALERT S2N_ERR_SHUTDOWN_CLOSED;
    S2N_NO_ALERT S2N_ERR_NON_EMPTY_RENEGOTIATION_INFO;
    S2N_NO_ALERT S2N_ERR_RECORD_LIMIT;
    S2N_NO_ALERT S2N_ERR_CERT_UNTRUSTED;
    S2N_NO_ALERT S2N_ERR_CERT_REVOKED;
    S2N_NO_ALERT S2N_ERR_CERT_EXPIRED;
    S2N_NO_ALERT S2N_ERR_CERT_TYPE_UNSUPPORTED;
    S2N_NO_ALERT S2N_ERR_CERT_INVALID;
    S2N_NO_ALERT S2N_ERR_CERT_MAX_CHAIN_DEPTH_EXCEEDED;
    S2N_NO_ALERT S2N_ERR_CRL_LOOKUP_FAILED;
    S2N_NO_ALERT S2N_ERR_CRL_SIGNATURE;
    S2N_NO_ALERT S2N_ERR_CRL_ISSUER;
    S2N_NO_ALERT S2N_ERR_CRL_UNHANDLED_CRITICAL_EXTENSION;
    S2N_NO_ALERT S2N_ERR_INVALID_MAX_FRAG_LEN;
    S2N_NO_ALERT S2N_ERR_MAX_FRAG_LEN_MISMATCH;
    S2N_NO_ALERT S2N_ERR_PROTOCOL_VERSION_UNSUPPORTED;
    S2N_NO_ALERT S2N_ERR_BAD_KEY_SHARE;
    S2N_NO_ALERT S2N_ERR_CANCELLED;
    S2N_NO_ALERT S2N_ERR_PROTOCOL_DOWNGRADE_DETECTED;
    S2N_NO_ALERT S2N_ERR_MAX_INNER_PLAINTEXT_SIZE;
    S2N_NO_ALERT S2N_ERR_RECORD_STUFFER_SIZE;
    S2N_NO_ALERT S2N_ERR_FRAGMENT_LENGTH_TOO_LARGE;
    S2N_NO_ALERT S2N_ERR_FRAGMENT_LENGTH_TOO_SMALL;
    S2N_NO_ALERT S2N_ERR_RECORD_STUFFER_NEEDS_DRAINING;
    S2N_NO_ALERT S2N_ERR_UNSUPPORTED_EXTENSION;
    S2N_NO_ALERT S2N_ERR_DUPLICATE_EXTENSION;
    S2N_NO_ALERT S2N_ERR_MAX_EARLY_DATA_SIZE;
    S2N_NO_ALERT S2N_ERR_EARLY_DATA_TRIAL_DECRYPT
  ].

(** Running the switch on [error_code] with the output cell holding
    [alert]: the arm whose label equals [error_code] runs; with no such arm
    control leaves the switch and reaches [RESULT_BAIL(S2N_ERR_UNIMPLEMENTED)]. *)
Fixpoint run_switch (arms : list switch_arm) (error_code alert : Z)
  : s2n_result * Z :=
  match arms with
  | [] => (S2N_RESULT_ERROR S2N_ERR_UNIMPLEMENTED, alert)
  | S2N_ALERT_CASE error alert_code :: rest =>
      if error_code =? error then (S2N_RESULT_OK, alert_code)
      else run_switch rest error_code alert
  | S2N_NO_ALERT error :: rest =>
      if error_code =? error then (S2N_RESULT_ERROR S2N_ERR_NO_ALERT, alert)
      else run_switch rest error_code alert
  end.

(** The output pointer [alert] is [None] when NULL and [Some a] when it
    points to a byte holding [a]; the function hands back the byte. *)
Definition s2n_translate_protocol_error_to_alert (error_code : Z) (alert : option Z)
  : s2n_result * option Z :=
  match alert with
  | None => (RESULT_ENSURE_REF alert, alert)
  | Some a =>
      let (r, a') := run_switch protocol_error_arms error_code a in (r, Some a')
  end.

Definition s2n_error_get_alert (error : Z) (alert : option Z)
  : posix_return * option Z :=
  let error_type := s2n_error_get_type error in
  match alert with
  | None => (POSIX_GUARD_RESULT (RESULT_ENSURE_REF alert), alert)
  | Some _ =>
      if (error_type =? S2N_ERR_T_OK) || (error_type =? S2N_ERR_T_CLOSED)
         || (error_type =? S2N_ERR_T_BLOCKED) || (error_type =? S2N_ERR_T_USAGE)
         || (error_type =? S2N_ERR_T_ALERT)
      then (S2N_FAILURE S2N_ERR_NO_ALERT, alert)
      else if error_type =? S2N_ERR_T_PROTO
      then
        match s2n_translate_protocol_error_to_alert error alert with
        | (S2N_RESULT_OK, alert') => (S2N_SUCCESS, alert')
        | (S2N_RESULT_ERROR e, alert') => (S2N_FAILURE e, alert')
        end
      else if (error_type =? S2N_ERR_T_IO) || (error_type =? S2N_ERR_T_INTERNAL)
      then (S2N_SUCCESS, Some S2N_TLS_ALERT_INTERNAL_ERROR)
      else (S2N_SUCCESS, alert)
  end.

(** ** Collaborators of the alert engine *)

(** Modelled from the spec: [struct s2n_stuffer] and its functions
    (stuffer/s2n_stuffer.h) are not among the sources; the spec's
    byte-buffer abstraction is a buffer of the bytes written and not yet
    read, oldest first. *)
Definition s2n_stuffer : Type := list Z.

(** Modelled from the spec: [struct s2n_blob] (utils/s2n_blob.h) is not
    among the sources; a byte array with its size, as the 2-byte alert
    message is handed around. *)
Record s2n_blob : Type := { data : list Z; size : Z }.

(** Modelled from the spec: stuffer/s2n_stuffer.h, the number of bytes
    available for reading. *)
Definition s2n_stuffer_data_available (stuffer : s2n_stuffer) : nat :=
  length stuffer.

(** Modelled from the spec: stuffer/s2n_stuffer.c, move [len] bytes from
    the front of [from] to the end of [to]; asking for more than [from]
    holds fails and moves nothing. The result is the return value with the
    two stuffers [from] and [to]. *)
Definition s2n_stuffer_copy (from to : s2n_stuffer) (len : nat)
  : posix_return * s2n_stuffer * s2n_stuffer :=
  if (s2n_stuffer_data_available from <? len)%nat
  then (S2N_FAILURE S2N_ERR_STUFFER_OUT_OF_DATA, from, to)
  else (S2N_SUCCESS, skipn len from, to ++ firstn len from).

(** Modelled from the spec: stuffer/s2n_stuffer.c, wiping a stuffer leaves
    it empty. *)
Definition s2n_stuffer_wipe (stuffer : s2n_stuffer) : posix_return * s2n_stuffer :=
  (S2N_SUCCESS, []).

(** Modelled from the spec: stuffer/s2n_stuffer.c, writing a blob appends
    its [size] bytes. *)
Definition s2n_stuffer_write (stuffer : s2n_stuffer) (out : s2n_blob)
  : posix_return * s2n_stuffer :=
  (S2N_SUCCESS, stuffer ++ firstn (Z.to_nat (size out)) (data out)).

(** Modelled from the spec: [s2n_alert_behavior] of api/s2n.h, the spec's
    alert_behavior() -> {Default, IgnoreWarnings}. *)
Inductive s2n_alert_behavior : Type :=
| S2N_ALERT_FAIL_ON_WARNINGS
| S2N_ALERT_IGNORE_WARNINGS.

Definition s2n_alert_behavior_eqb (a b : s2n_alert_behavior) : bool :=
  match a, b with
  | S2N_ALERT_FAIL_ON_WARNINGS, S2N_ALERT_FAIL_ON_WARNINGS => true
  | S2N_ALERT_IGNORE_WARNINGS, S2N_ALERT_IGNORE_WARNINGS => true
  | _, _ => false
  end.

(** Modelled from the spec: the protocol versions are declared in
    api/s2n.h, which is not among the sources; a version is encoded as ten
    times its major wire number plus its minor one, TLS 1.3 being 3.4. *)
Definition S2N_TLS13 : Z := 34.

(** Modelled from the spec: [struct s2n_config] (tls/s2n_config.h) is not
    among the sources; these are the fields the alert engine reaches.
    [cache] is the state of the session cache behind the pointer
    [cache_delete_data]. The callback [cache_delete] receives that state,
    the key and the key size, and gives its return value and the state it
    leaves; it is also handed the connection, which it is taken not to
    change. *)
Record s2n_config (cache : Type) : Type := {
  alert_behavior : s2n_alert_behavior;
  cache_delete : cache -> list Z -> Z -> Z * cache;
  cache_delete_data : cache
}.
Arguments alert_behavior {cache} _.
Arguments cache_delete {cache} _ _ _ _.
Arguments cache_delete_data {cache} _.

(** Modelled from the spec: [struct s2n_connection] (tls/s2n_connection.h)
    is not among the sources; these are the fields the alert engine
    reaches. [conn_in] is the field [in]. [alert_in] is the stuffer laid
    over the array [alert_in_data]. [quic_enabled], [actual_protocol_version]
    and [allowed_to_cache] are what the spec's is_quic_mode(),
    protocol_version() and caching_allowed() report. *)
Record s2n_connection (cache : Type) : Type := {
  config : s2n_config cache;
  quic_enabled : bool;
  actual_protocol_version : Z;
  allowed_to_cache : bool;
  conn_in : s2n_stuffer;
  alert_in : s2n_stuffer;
  writer_alert_out : s2n_stuffer;
  closed : bool;
  closing : bool;
  close_notify_received : bool;
  close_notify_queued : bool;
  session_id : list Z;
  session_id_len : Z
}.
Arguments config {cache} _.
Arguments quic_enabled {cache} _.
Arguments actual_protocol_version {cache} _.
Arguments allowed_to_cache {cache} _.
Arguments conn_in {cache} _.
Arguments alert_in {cache} _.
Arguments writer_alert_out {cache} _.
Arguments closed {cache} _.
Arguments closing {cache} _.
Arguments close_notify_received {cache} _.
Arguments close_notify_queued {cache} _.
Arguments session_id {cache} _.
Arguments session_id_len {cache} _.

(** Assignments to single fields of the connection. *)

(** [conn->in] after a stuffer call on it. *)
Definition set_in {cache : Type} (v : s2n_stuffer) (conn : s2n_connection cache)
  : s2n_connection cache :=
  {| config := config conn;
     quic_enabled := quic_enabled conn;
     actual_protocol_version := actual_protocol_version conn;
     allowed_to_cache := allowed_to_cache conn;
     conn_in := v;
     alert_in := alert_in conn;
     writer_alert_out := writer_alert_out conn;
     closed := closed conn;
     closing := closing conn;
     close_notify_received := close_notify_received conn;
     close_notify_queued := close_notify_queued conn;
     session_id := session_id conn;
     session_id_len := session_id_len conn |}.

(** [conn->alert_in] after a stuffer call on it. *)
Definition set_alert_in {cache : Type} (v : s2n_stuffer) (conn : s2n_connection cache)
  : s2n_connection cache :=
  {| config := config conn;
     quic_enabled := quic_enabled conn;
     actual_protocol_version := actual_protocol_version conn;
     allowed_to_cache := allowed_to_cache conn;
     conn_in := conn_in conn;
     alert_in := v;
     writer_alert_out := writer_alert_out conn;
     closed := closed conn;
     closing := closing conn;
     close_notify_received := close_notify_received conn;
     close_notify_queued := close_notify_queued conn;
     session_id := session_id conn;
     session_id_len := session_id_len conn |}.

(** [conn->writer_alert_out] after a stuffer call on it. *)
Definition set_writer_alert_out {cache : Type} (v : s2n_stuffer) (conn : s2n_connection cache)
  : s2n_connection cache :=
  {| config := config conn;
     quic_enabled := quic_enabled conn;
     actual_protocol_version := actual_protocol_version conn;
     allowed_to_cache := allowed_to_cache conn;
     conn_in := conn_in conn;
     alert_in := alert_in conn;
     writer_alert_out := v;
     closed := closed conn;
     closing := closing conn;
     close_notify_received := close_notify_received conn;
     close_notify_queued := close_notify_queued conn;
     session_id := session_id conn;
     session_id_len := session_id_len conn |}.

(** [conn->closed = v] *)
Definition set_closed {cache : Type} (v : bool) (conn : s2n_connection cache)
  : s2n_connection cache :=
  {| config := config conn;
     quic_enabled := quic_enabled conn;
     actual_protocol_version := actual_protocol_version conn;
     allowed_to_cache := allowed_to_cache conn;
     conn_in := conn_in conn;
     alert_in := alert_in conn;
     writer_alert_out := writer_alert_out conn;
     closed := v;
     closing := closing conn;
     close_notify_received := close_notify_received conn;
     close_notify_queued := close_notify_queued conn;
     session_id := session_id conn;
     session_id_len := session_id_len conn |}.

(** [conn->closing = v] *)
Definition set_closing {cache : Type} (v : bool) (conn : s2n_connection cache)
  : s2n_connection cache :=
  {| config := config conn;
     quic_enabled := quic_enabled conn;
     actual_protocol_version := actual_protocol_version conn;
     allowed_to_cache := allowed_to_cache conn;
     conn_in := conn_in conn;
     alert_in := alert_in conn;
     writer_alert_out := writer_alert_out conn;
     closed := closed conn;
     closing := v;
     close_notify_received := close_notify_received conn;
     close_notify_queued := close_notify_queued conn;
     session_id := session_id conn;
     session_id_len := session_id_len conn |}.

(** [conn->close_notify_received = v] *)
Definition set_close_notify_received {cache : Type} (v : bool) (conn : s2n_connection cache)
  : s2n_connection cache :=
  {| config := config conn;
     quic_enabled := quic_enabled conn;
     actual_protocol_version := actual_protocol_version conn;
     allowed_to_cache := allowed_to_cache conn;
     conn_in := conn_in conn;
     alert_in := alert_in conn;
     writer_alert_out := writer_alert_out conn;
     closed := closed conn;
     closing := closing conn;
     close_notify_received := v;
     close_notify_queued := close_notify_queued conn;
     session_id := session_id conn;
     session_id_len := session_id_len conn |}.

(** [conn->close_notify_queued = v] *)
Definition set_close_notify_queued {cache : Type} (v : bool) (conn : s2n_connection cache)
  : s2n_connection cache :=
  {| config := config conn;
     quic_enabled := quic_enabled conn;
     actual_protocol_version := actual_protocol_version conn;
     allowed_to_cache := allowed_to_cache conn;
     conn_in := conn_in conn;
     alert_in := alert_in conn;
     writer_alert_out := writer_alert_out conn;
     closed := closed conn;
     closing := closing conn;
     close_notify_received := close_notify_received conn;
     close_notify_queued := v;
     session_id := session_id conn;
     session_id_len := session_id_len conn |}.

(** [conn->config] with its pointees. *)
Definition set_config {cache : Type} (v : s2n_config cache) (conn : s2n_connection cache)
  : s2n_connection cache :=
  {| config := v;
     quic_enabled := quic_enabled conn;
     actual_protocol_version := actual_protocol_version conn;
     allowed_to_cache := allowed_to_cache conn;
     conn_in := conn_in conn;
     alert_in := alert_in conn;
     writer_alert_out := writer_alert_out conn;
     closed := closed conn;
     closing := closing conn;
     close_notify_received := close_notify_received conn;
     close_notify_queued := close_notify_queued conn;
     session_id := session_id conn;
     session_id_len := session_id_len conn |}.

(** The session cache behind [conn->config->cache_delete_data] after a
    callback ran on it. *)
Definition set_cache_delete_data {cache : Type} (v : cache) (conn : s2n_connection cache)
  : s2n_connection cache :=
  set_config
    {| alert_behavior := alert_behavior (config conn);
       cache_delete := cache_delete (config conn);
       cache_delete_data := v |} conn.

(** [conn->alert_in_data[i]]: the array under [conn->alert_in]. *)
Definition alert_in_data {cache : Type} (conn : s2n_connection cache) (i : nat) : Z :=
  nth i (alert_in conn) 0.

(** Modelled from the spec: tls/s2n_quic_support.c, is_quic_mode(). *)
Definition s2n_connection_is_quic_enabled {cache : Type} (conn : s2n_connection cache)
  : bool := quic_enabled conn.

(** Modelled from the spec: tls/s2n_connection.c, protocol_version(). *)
Definition s2n_connection_get_protocol_version {cache : Type}
  (conn : s2n_connection cache) : Z := actual_protocol_version conn.

(** Modelled from the spec: tls/s2n_resume.c, caching_allowed(). *)
Definition s2n_allowed_to_cache_connection {cache : Type}
  (conn : s2n_connection cache) : bool := allowed_to_cache conn.

(** ** tls/s2n_alerts.c: the alert engine

    A connection argument is a reference to a live connection, so the
    [POSIX_ENSURE_REF(conn)] that opens a function always passes. *)

Definition s2n_alerts_supported {cache : Type} (conn : s2n_connection cache) : bool :=
  negb (s2n_connection_is_quic_enabled conn).

Definition s2n_process_as_warning {cache : Type} (conn : s2n_connection cache)
  (level type : Z) : bool :=
  if s2n_connection_get_protocol_version conn <? S2N_TLS13
  then (level =? S2N_TLS_ALERT_LEVEL_WARNING)
       && s2n_alert_behavior_eqb (alert_behavior (config conn)) S2N_ALERT_IGNORE_WARNINGS
  else type =? S2N_TLS_ALERT_USER_CANCELED.

(** The blob pointer [alert] is [None] when NULL. *)
Definition s2n_alerts_close_if_fatal {cache : Type} (conn : s2n_connection cache)
  (alert : option s2n_blob) : s2n_result * s2n_connection cache :=
  match alert with
  | None => (RESULT_ENSURE_REF alert, conn)
  | Some blob =>
      match RESULT_ENSURE_EQ (size blob) S2N_ALERT_LENGTH with
      | S2N_RESULT_ERROR e => (S2N_RESULT_ERROR e, conn)
      | S2N_RESULT_OK =>
          if nth 1 (data blob) 0 =? S2N_TLS_ALERT_NO_RENEGOTIATION
          then (RESULT_ENSURE_EQ (nth 0 (data blob) 0) S2N_TLS_ALERT_LEVEL_WARNING, conn)
          else (S2N_RESULT_OK, set_closing true conn)
      end
  end.

(** The block of [s2n_process_alert_fragment] guarded by
    [s2n_stuffer_data_available(&conn->alert_in) == 2]: a complete alert is
    in [alert_in_data] and every path returns. The return value of the
    [cache_delete] callback is dropped. *)
Definition process_complete_alert {cache : Type} (conn : s2n_connection cache)
  : posix_return * s2n_connection cache :=
  if alert_in_data conn 1 =? S2N_TLS_ALERT_CLOSE_NOTIFY
  then (S2N_SUCCESS, set_close_notify_received true (set_closed true conn))
  else if s2n_process_as_warning conn (alert_in_data conn 0) (alert_in_data conn 1)
  then
    match s2n_stuffer_wipe (alert_in conn) with
    | (S2N_FAILURE e, _) => (S2N_FAILURE e, conn)
    | (S2N_SUCCESS, wiped) => (S2N_SUCCESS, set_alert_in wiped conn)
    end
  else
    let conn :=
      if s2n_allowed_to_cache_connection conn && negb (session_id_len conn =? 0)
      then
        let (_, cache') :=
          cache_delete (config conn) (cache_delete_data (config conn))
            (session_id conn) (session_id_len conn) in
        set_cache_delete_data cache' conn
      else conn in
    (S2N_FAILURE S2N_ERR_ALERT, set_closed true conn).

(** The [while] loop of [s2n_process_alert_fragment]. The condition is
    tested first; [fuel] bounds the number of iterations and [None] means it
    ran out. *)
Fixpoint process_alert_fragment_loop {cache : Type} (fuel : nat)
  (conn : s2n_connection cache) : option (posix_return * s2n_connection cache) :=
  if (s2n_stuffer_data_available (conn_in conn) =? 0)%nat
  then Some (S2N_SUCCESS, conn)
  else
    match fuel with
    | O => None
    | S fuel' =>
        let bytes_required :=
          if (s2n_stuffer_data_available (alert_in conn) =? 1)%nat then 1%nat else 2%nat in
        let bytes_to_read :=
          Nat.min bytes_required (s2n_stuffer_data_available (conn_in conn)) in
        match s2n_stuffer_copy (conn_in conn) (alert_in conn) bytes_to_read with
        | (S2N_FAILURE e, _, _) => Some (S2N_FAILURE e, conn)
        | (S2N_SUCCESS, from, to) =>
            let conn := set_alert_in to (set_in from conn) in
            if (s2n_stuffer_data_available (alert_in conn) =? 2)%nat
            then Some (process_complete_alert conn)
            else process_alert_fragment_loop fuel' conn
        end
    end.

(** Every iteration that does not return takes at least one byte from
    [conn->in], so the bytes available on entry bound the iterations. *)
Definition s2n_process_alert_fragment {cache : Type} (conn : s2n_connection cache)
  : option (posix_return * s2n_connection cache) :=
  if (s2n_stuffer_data_available (conn_in conn) =? 0)%nat
  then Some (S2N_FAILURE S2N_ERR_BAD_MESSAGE, conn)
  else if (s2n_stuffer_data_available (alert_in conn) =? 2)%nat
  then Some (S2N_FAILURE S2N_ERR_ALERT_PRESENT, conn)
  else if negb (s2n_alerts_supported conn)
  then Some (S2N_FAILURE S2N_ERR_BAD_MESSAGE, conn)
  else process_alert_fragment_loop (s2n_stuffer_data_available (conn_in conn)) conn.

Definition s2n_queue_writer_close_alert_warning {cache : Type}
  (conn : s2n_connection cache) : posix_return * s2n_connection cache :=
  let alert := [S2N_TLS_ALERT_LEVEL_WARNING; S2N_TLS_ALERT_CLOSE_NOTIFY] in
  let out := {| data := alert; size := Z.of_nat (length alert) |} in
  if negb (s2n_stuffer_data_available (writer_alert_out conn) =? 0)%nat
     || close_notify_queued conn
  then (S2N_SUCCESS, conn)
  else if negb (s2n_alerts_supported conn)
  then (S2N_SUCCESS, conn)
  else
    match s2n_stuffer_write (writer_alert_out conn) out with
    | (S2N_FAILURE e, _) => (S2N_FAILURE e, conn)
    | (S2N_SUCCESS, written) =>
        (S2N_SUCCESS, set_close_notify_queued true (set_writer_alert_out written conn))
    end.

(** ** Scenarios *)

(** The record layer has made exactly [bytes] available in [conn->in]. *)
Definition with_input {cache : Type} (bytes : list Z) (conn : s2n_connection cache)
  : s2n_connection cache := set_in bytes conn.

(** A session cache seen through its evictions: the callback records the
    evicted session id and returns [ret]. *)
Definition recording_cache_delete (ret : Z) (evicted : list (list Z))
  (key : list Z) (key_size : Z) : Z * list (list Z) :=
  (ret, evicted ++ [firstn (Z.to_nat key_size) key]).

(** A connection with a session id, nothing buffered and nothing evicted;
    its cache callback fails. *)
Definition sample_conn (version : Z) (behavior : s2n_alert_behavior)
  : s2n_connection (list (list Z)) :=
  {| config := {| alert_behavior := behavior;
                  cache_delete := recording_cache_delete (-1);
                  cache_delete_data := [] |};
     quic_enabled := false;
     actual_protocol_version := version;
     allowed_to_cache := true;
     conn_in := [];
     alert_in := [];
     writer_alert_out := [];
     closed := false;
     closing := false;
     close_notify_received := false;
     close_notify_queued := false;
     session_id := [7; 7; 7; 0];
     session_id_len := 3 |}.

(** What a caller observes of a call: the return value, then the fields of
    the connection. *)
Definition returned {cache : Type} (r : option (posix_return * s2n_connection cache))
  : option posix_return := option_map fst r.

Definition after {cache A : Type} (field : s2n_connection cache -> A)
  (r : option (posix_return * s2n_connection cache)) : option A :=
  option_map (fun rc => field (snd rc)) r.


(** The bytes [level], [type] complete an alert on [conn]: either both
    arrive in [conn->in], or [level] was buffered by an earlier call and
    [type] arrives. [rest] is what follows them in [conn->in]. *)
Definition completes {cache : Type} (conn : s2n_connection cache)
  (level type : Z) (rest : list Z) : Prop :=
  (alert_in conn = [] /\ conn_in conn = level :: type :: rest)
  \/ (alert_in conn = [level] /\ conn_in conn = type :: rest).

(** The connection when the alert has been moved into [alert_in]. *)
Definition buffered {cache : Type} (level type : Z) (rest : list Z)
  (conn : s2n_connection cache) : s2n_connection cache :=
  set_alert_in [level; type] (set_in rest conn).

(** An inbound alert was tolerated: the call succeeded, the reassembly
    buffer is empty again and the closed flag is as it was. *)
Definition alert_tolerated {cache : Type} (conn : s2n_connection cache)
  (r : option (posix_return * s2n_connection cache)) : Prop :=
  returned r = Some S2N_SUCCESS
  /\ after alert_in r = Some []
  /\ after closed r = Some (closed conn).

(** The writer slot takes a close_notify: it is empty, none was queued
    before and alerts are supported. *)
Definition writer_close_alert_due {cache : Type} (conn : s2n_connection cache) : bool :=
  (s2n_stuffer_data_available (writer_alert_out conn) =? 0)%nat
  && negb (close_notify_queued conn)
  && s2n_alerts_supported conn.

(** The labels of a switch. *)
Definition arm_label (arm : switch_arm) : Z :=
  match arm with
  | S2N_ALERT_CASE error _ => error
  | S2N_NO_ALERT error => error
  end.

(** One call with both bytes of an alert available. *)
Definition one_call {cache : Type} (b0 b1 : Z) (conn : s2n_connection cache)
  : option (posix_return * s2n_connection cache) :=
  s2n_process_alert_fragment (with_input [b0; b1] conn).

(** Two calls, the first with only [b0] available and the second, on the
    connection the first one leaves, with only [b1] available: the return
    value of the first call, the return value of the second and the
    connection the second leaves. *)
Definition two_calls {cache : Type} (b0 b1 : Z) (conn : s2n_connection cache)
  : option (posix_return * posix_return * s2n_connection cache) :=
  match s2n_process_alert_fragment (with_input [b0] conn) with
  | Some (first, conn1) =>
      match s2n_process_alert_fragment (with_input [b1] conn1) with
      | Some (second, conn2) => Some (first, second, conn2)
      | None => None
      end
  | None => None
  end.

(** No two of the numbers in a list are equal. *)
Fixpoint distinct (l : list Z) : bool :=
  match l with
  | [] => true
  | x :: rest => negb (existsb (Z.eqb x) rest) && distinct rest
  end.

(** The eight error types. *)
Definition error_types : list Z :=
  [S2N_ERR_T_OK; S2N_ERR_T_IO; S2N_ERR_T_CLOSED; S2N_ERR_T_BLOCKED;
   S2N_ERR_T_ALERT; S2N_ERR_T_PROTO; S2N_ERR_T_INTERNAL; S2N_ERR_T_USAGE].

(** ** error/s2n_errno.h: the macros *)

Definition S2N_ERROR_IS_BLOCKING (x : Z) : bool :=
  s2n_error_get_type x =? S2N_ERR_T_BLOCKED.

(** The error types with the first value of each and the sentinel that
    closes its enumerators. *)
Definition error_type_ranges : list (Z * Z * Z) :=
  [(S2N_ERR_T_OK, S2N_ERR_T_OK_START, S2N_ERR_T_OK_END);
   (S2N_ERR_T_IO, S2N_ERR_T_IO_START, S2N_ERR_T_IO_END);
   (S2N_ERR_T_CLOSED, S2N_ERR_T_CLOSED_START, S2N_ERR_T_CLOSED_END);
   (S2N_ERR_T_BLOCKED, S2N_ERR_T_BLOCKED_START, S2N_ERR_T_BLOCKED_END);
   (S2N_ERR_T_ALERT, S2N_ERR_T_ALERT_START, S2N_ERR_T_ALERT_END);
   (S2N_ERR_T_PROTO, S2N_ERR_T_PROTO_START, S2N_ERR_T_PROTO_END);
   (S2N_ERR_T_INTERNAL, S2N_ERR_T_INTERNAL_START, S2N_ERR_T_INTERNAL_END);
   (S2N_ERR_T_USAGE, S2N_ERR_T_USAGE_START, S2N_ERR_T_USAGE_END)].

From Stdlib Require Ascii String.

(** The debug line of [_S2N_ERROR]. C strings are lists of characters
    without the terminator; a pointer into a string is the suffix it
    points to. *)
Module DebugLine.
Import Ascii String.
#[local] Open Scope char_scope.

(** [strrchr] of the C library: the suffix that starts at the last
    occurrence of [c], [None] for NULL when there is none. *)
Fixpoint strrchr (s : list ascii) (c : ascii) : option (list ascii) :=
  match s with
  | [] => None
  | x :: rest =>
      match strrchr rest c with
      | Some found => Some found
      | None => if Ascii.eqb x c then Some s else None
      end
  end.

(** [strrchr((subject), c) ? strrchr((subject), c) + 1 : (subject)] *)
Definition _S2N_RSPLIT (subject : list ascii) (c : ascii) : list ascii :=
  match strrchr subject c with
  | Some found => List.tl found
  | None => subject
  end.

Definition _S2N_DEBUG_LINE_PREFIX : list ascii :=
  list_ascii_of_string "Error encountered in ".

(** [(path) + strlen(_S2N_DEBUG_LINE_PREFIX)] is the suffix of [path] past
    as many characters as the prefix has. *)
Definition _S2N_EXTRACT_BASENAME (path : list ascii) : list ascii :=
  _S2N_RSPLIT (List.skipn (List.length _S2N_DEBUG_LINE_PREFIX) path) "/".

(** [_S2N_DEBUG_LINE_PREFIX __FILE__ ":" STRING__LINE__], with the file
    name and the line number the compiler fills in. *)
Definition _S2N_DEBUG_LINE (file line : list ascii) : list ascii :=
  _S2N_DEBUG_LINE_PREFIX ++ file ++ ":" :: line.

End DebugLine.

(** ** tls/s2n_alerts.c: the reader's outgoing alerts *)

(** Modelled from the spec: the protocol versions are declared in
    api/s2n.h, which is not among the sources; SSLv3 is version 3.0 in the
    encoding of [S2N_TLS13]. *)
Definition S2N_SSLv3 : Z := 30.

(** Modelled from the spec: utils/s2n_safety_macros.h, the failure of an
    [int]-returning callee handed to an [S2N_RESULT]-returning caller. *)
Definition RESULT_GUARD_POSIX (r : posix_return) : s2n_result :=
  match r with
  | S2N_SUCCESS => S2N_RESULT_OK
  | S2N_FAILURE e => S2N_RESULT_ERROR e
  end.

(** Modelled from the spec: [struct s2n_connection] has a second outgoing
    slot, the stuffer [reader_alert_out], for the alerts this endpoint
    raises while reading; [connection] holds the fields gathered in
    [s2n_connection]. *)
Record s2n_connection_reader (cache : Type) : Type := {
  connection : s2n_connection cache;
  reader_alert_out : s2n_stuffer
}.
Arguments connection {cache} _.
Arguments reader_alert_out {cache} _.

(** [conn->reader_alert_out] after a stuffer call on it. *)
Definition set_reader_alert_out {cache : Type} (v : s2n_stuffer)
  (conn : s2n_connection_reader cache) : s2n_connection_reader cache :=
  {| connection := connection conn; reader_alert_out := v |}.

Definition s2n_queue_reader_alert {cache : Type} (conn : s2n_connection_reader cache)
  (level error_code : Z) : posix_return * s2n_connection_reader cache :=
  let alert := [level; error_code] in
  let out := {| data := alert; size := Z.of_nat (length alert) |} in
  if negb (s2n_stuffer_data_available (reader_alert_out conn) =? 0)%nat
  then (S2N_SUCCESS, conn)
  else if negb (s2n_alerts_supported (connection conn))
  then (S2N_SUCCESS, conn)
  else
    match s2n_stuffer_write (reader_alert_out conn) out with
    | (S2N_FAILURE e, _) => (S2N_FAILURE e, conn)
    | (S2N_SUCCESS, written) => (S2N_SUCCESS, set_reader_alert_out written conn)
    end.



Definition s2n_queue_reader_no_renegotiation_alert {cache : Type}
  (conn : s2n_connection_reader cache) : s2n_result * s2n_connection_reader cache :=
  if s2n_connection_get_protocol_version (connection conn) =? S2N_SSLv3
  then
    let (r, conn') :=
      s2n_queue_reader_alert conn S2N_TLS_ALERT_LEVEL_FATAL
        S2N_TLS_ALERT_HANDSHAKE_FAILURE in
    (RESULT_GUARD_POSIX r, conn')
  else
    let (r, conn') :=
      s2n_queue_reader_alert conn S2N_TLS_ALERT_LEVEL_WARNING
        S2N_TLS_ALERT_NO_RENEGOTIATION in
    (RESULT_GUARD_POSIX r, conn').



(** A connection with an empty reader slot around [sample_conn]. *)
Definition sample_reader (version : Z) : s2n_connection_reader (list (list Z)) :=
  {| connection := sample_conn version S2N_ALERT_FAIL_ON_WARNINGS;
     reader_alert_out := [] |}.

(** A change to the writer's side of a connection. *)
Definition set_writer_side {cache : Type} (out : s2n_stuffer) (queued : bool)
  (conn : s2n_connection cache) : s2n_connection cache :=
  set_close_notify_queued queued (set_writer_alert_out out conn).

(** [base] with the fields the inbound path assigns taken from [src]: the
    two inbound buffers, the closed and close_notify_received flags and
    the session cache. *)
Definition with_inbound_fields_of {cache : Type} (src base : s2n_connection cache)
  : s2n_connection cache :=
  set_cache_delete_data (cache_delete_data (config src))
    (set_close_notify_received (close_notify_received src)
       (set_closed (closed src)
          (set_alert_in (alert_in src) (set_in (conn_in src) base)))).

(** [sample_conn] in QUIC mode. *)
Definition sample_quic_conn : s2n_connection (list (list Z)) :=
  {| config := config (sample_conn 34 S2N_ALERT_FAIL_ON_WARNINGS);
     quic_enabled := true;
     actual_protocol_version := 34;
     allowed_to_cache := true;
     conn_in := [2; 40];
     alert_in := [];
     writer_alert_out := [];
     closed := false;
     closing := false;
     close_notify_received := false;
     close_notify_queued := false;
     session_id := [7; 7; 7; 0];
     session_id_len := 3 |}.

(** * Properties *)

(** ** The loop terminates *)

Lemma process_alert_fragment_loop_eq {cache : Type} (fuel : nat)
  (conn : s2n_connection cache) :
  process_alert_fragment_loop fuel conn =
  if (s2n_stuffer_data_available (conn_in conn) =? 0)%nat
  then Some (S2N_SUCCESS, conn)
  else
    match fuel with
    | O => None
    | S fuel' =>
        let bytes_required :=
          if (s2n_stuffer_data_available (alert_in conn) =? 1)%nat then 1%nat else 2%nat in
        let bytes_to_read :=
          Nat.min bytes_required (s2n_stuffer_data_available (conn_in conn)) in
        match s2n_stuffer_copy (conn_in conn) (alert_in conn) bytes_to_read with
        | (S2N_FAILURE e, _, _) => Some (S2N_FAILURE e, conn)
        | (S2N_SUCCESS, from, to) =>
            let conn := set_alert_in to (set_in from conn) in
            if (s2n_stuffer_data_available (alert_in conn) =? 2)%nat
            then Some (process_complete_alert conn)
            else process_alert_fragment_loop fuel' conn
        end
    end.
Proof. destruct fuel; reflexivity. Qed.

Lemma process_alert_fragment_loop_total {cache : Type} (fuel : nat) :
  forall conn : s2n_connection cache,
    (s2n_stuffer_data_available (conn_in conn) <= fuel)%nat ->
    exists r, process_alert_fragment_loop fuel conn = Some r.
Proof.
  induction fuel as [|fuel IH]; intros conn Hle;
    rewrite process_alert_fragment_loop_eq;
    destruct (s2n_stuffer_data_available (conn_in conn) =? 0)%nat eqn:Hin;
    try (eexists; reflexivity).
  - apply Nat.eqb_neq in Hin. lia.
  - apply Nat.eqb_neq in Hin. cbv zeta. unfold s2n_stuffer_copy.
    set (n := Nat.min _ _).
    assert (Hn : (1 <= n <= s2n_stuffer_data_available (conn_in conn))%nat).
    { subst n. destruct (s2n_stuffer_data_available (alert_in conn) =? 1)%nat; lia. }
    destruct (s2n_stuffer_data_available (conn_in conn) <? n)%nat eqn:Hlt.
    + eexists; reflexivity.
    + destruct (s2n_stuffer_data_available
                  (alert_in (set_alert_in (alert_in conn ++ firstn n (conn_in conn))
                               (set_in (skipn n (conn_in conn)) conn))) =? 2)%nat.
      * eexists; reflexivity.
      * apply IH. cbn. unfold s2n_stuffer_data_available in *.
        rewrite length_skipn. lia.
Qed.

(** [s2n_process_alert_fragment] returns on every connection. *)
Lemma s2n_process_alert_fragment_total {cache : Type} (conn : s2n_connection cache) :
  exists r, s2n_process_alert_fragment conn = Some r.
Proof.
  unfold s2n_process_alert_fragment.
  destruct (s2n_stuffer_data_available (conn_in conn) =? 0)%nat; [eexists; reflexivity|].
  destruct (s2n_stuffer_data_available (alert_in conn) =? 2)%nat; [eexists; reflexivity|].
  destruct (negb (s2n_alerts_supported conn)); [eexists; reflexivity|].
  apply process_alert_fragment_loop_total. lia.
Qed.

(** ** Dispatch of a completed alert *)

(** When the two bytes complete an alert on a connection that supports
    alerts, the call is the dispatch on the buffered alert. *)
Lemma process_alert_fragment_completes {cache : Type} (conn : s2n_connection cache)
  (level type : Z) (rest : list Z) :
  s2n_alerts_supported conn = true ->
  completes conn level type rest ->
  s2n_process_alert_fragment conn
  = Some (process_complete_alert (buffered level type rest conn)).
Proof.
  intros Hsup [[Ha Hi] | [Ha Hi]];
    unfold s2n_process_alert_fragment, buffered;
    rewrite Hsup, Ha, Hi; cbn; rewrite Ha, Hi; reflexivity.
Qed.

Lemma alert_in_data_buffered {cache : Type} (conn : s2n_connection cache)
  (level type : Z) (rest : list Z) :
  alert_in_data (buffered level type rest conn) 0 = level
  /\ alert_in_data (buffered level type rest conn) 1 = type.
Proof. split; reflexivity. Qed.

(** Moving bytes between the buffers does not change the warning policy. *)
Lemma s2n_process_as_warning_buffered {cache : Type} (conn : s2n_connection cache)
  (level type : Z) (rest : list Z) (l t : Z) :
  s2n_process_as_warning (buffered level type rest conn) l t
  = s2n_process_as_warning conn l t.
Proof. reflexivity. Qed.

(** The three ways a completed alert is dispatched. *)
Lemma process_complete_alert_close_notify {cache : Type} (conn : s2n_connection cache)
  (level : Z) (rest : list Z) :
  process_complete_alert (buffered level S2N_TLS_ALERT_CLOSE_NOTIFY rest conn)
  = (S2N_SUCCESS,
     set_close_notify_received true
       (set_closed true (buffered level S2N_TLS_ALERT_CLOSE_NOTIFY rest conn))).
Proof. reflexivity. Qed.

Lemma process_complete_alert_warning {cache : Type} (conn : s2n_connection cache)
  (level type : Z) (rest : list Z) :
  type <> S2N_TLS_ALERT_CLOSE_NOTIFY ->
  s2n_process_as_warning conn level type = true ->
  process_complete_alert (buffered level type rest conn)
  = (S2N_SUCCESS, set_alert_in [] (buffered level type rest conn)).
Proof.
  intros Hcn Hw. unfold process_complete_alert.
  destruct (alert_in_data_buffered conn level type rest) as [-> ->].
  rewrite s2n_process_as_warning_buffered, Hw.
  apply Z.eqb_neq in Hcn. rewrite Hcn. reflexivity.
Qed.

Lemma process_complete_alert_fatal {cache : Type} (conn : s2n_connection cache)
  (level type : Z) (rest : list Z) :
  type <> S2N_TLS_ALERT_CLOSE_NOTIFY ->
  s2n_process_as_warning conn level type = false ->
  exists conn',
    process_complete_alert (buffered level type rest conn)
    = (S2N_FAILURE S2N_ERR_ALERT, conn')
    /\ closed conn' = true
    /\ close_notify_received conn' = close_notify_received conn
    /\ alert_in conn' = [level; type]
    /\ conn_in conn' = rest
    /\ cache_delete_data (config conn')
       = if s2n_allowed_to_cache_connection conn && negb (session_id_len conn =? 0)
         then snd (cache_delete (config conn) (cache_delete_data (config conn))
                     (session_id conn) (session_id_len conn))
         else cache_delete_data (config conn).
Proof.
  intros Hcn Hw. unfold process_complete_alert.
  destruct (alert_in_data_buffered conn level type rest) as [-> ->].
  rewrite s2n_process_as_warning_buffered, Hw.
  apply Z.eqb_neq in Hcn. rewrite Hcn.
  eexists; split; [reflexivity|].
  change (s2n_allowed_to_cache_connection (buffered level type rest conn))
    with (s2n_allowed_to_cache_connection conn).
  change (session_id_len (buffered level type rest conn)) with (session_id_len conn).
  destruct (s2n_allowed_to_cache_connection conn && negb (session_id_len conn =? 0)).
  - cbn. destruct (cache_delete _ _ _ _); repeat split; reflexivity.
  - repeat split; reflexivity.
Qed.

(** The warning policy, read as a proposition. *)
Lemma s2n_process_as_warning_true {cache : Type} (conn : s2n_connection cache)
  (level type : Z) :
  s2n_process_as_warning conn level type = true <->
  (s2n_connection_get_protocol_version conn < S2N_TLS13
   /\ level = S2N_TLS_ALERT_LEVEL_WARNING
   /\ alert_behavior (config conn) = S2N_ALERT_IGNORE_WARNINGS)
  \/ (S2N_TLS13 <= s2n_connection_get_protocol_version conn
      /\ type = S2N_TLS_ALERT_USER_CANCELED).
Proof.
  unfold s2n_process_as_warning.
  destruct (Z.ltb_spec (s2n_connection_get_protocol_version conn) S2N_TLS13) as [Hv | Hv].
  - rewrite andb_true_iff, Z.eqb_eq. split.
    + intros [Hl Hb]. left. repeat split; trivial.
      destruct (alert_behavior (config conn)); [discriminate | reflexivity].
    + intros [(_ & Hl & Hb) | [Hge _]]; [| lia]. rewrite Hb. split; trivial.
  - rewrite Z.eqb_eq. split.
    + intros Ht. right. split; trivial.
    + intros [(Hlt & _) | [_ Ht]]; [lia | trivial].
Qed.

Lemma not_tolerated_on_failure {cache : Type} (conn conn' : s2n_connection cache)
  (e : Z) : ~ alert_tolerated conn (Some (S2N_FAILURE e, conn')).
Proof. intros [H _]. discriminate H. Qed.

Lemma tolerated_on_wipe {cache : Type} (conn : s2n_connection cache)
  (level type : Z) (rest : list Z) :
  alert_tolerated conn
    (Some (S2N_SUCCESS, set_alert_in [] (buffered level type rest conn))).
Proof. repeat split. Qed.

(** ** Inbound alerts *)

(** C1: a completed inbound alert other than close_notify is tolerated
    (the call succeeds, the buffer is wiped, the closed flag is untouched)
    below TLS 1.3 exactly when its level is warning and the configured
    behaviour is to ignore warnings, and from TLS 1.3 on exactly when its
    description is user_canceled, whatever the level and the behaviour. *)
Theorem warning_tolerance_by_version {cache : Type} (conn : s2n_connection cache)
  (level type : Z) (rest : list Z) :
  s2n_alerts_supported conn = true ->
  completes conn level type rest ->
  type <> S2N_TLS_ALERT_CLOSE_NOTIFY ->
  (s2n_connection_get_protocol_version conn < S2N_TLS13 ->
   (alert_tolerated conn (s2n_process_alert_fragment conn) <->
    level = S2N_TLS_ALERT_LEVEL_WARNING
    /\ alert_behavior (config conn) = S2N_ALERT_IGNORE_WARNINGS))
  /\ (S2N_TLS13 <= s2n_connection_get_protocol_version conn ->
      (alert_tolerated conn (s2n_process_alert_fragment conn) <->
       type = S2N_TLS_ALERT_USER_CANCELED)).
Proof.
  intros Hsup Hc Hcn.
  rewrite (process_alert_fragment_completes conn level type rest Hsup Hc).
  pose proof (s2n_process_as_warning_true conn level type) as Hpol.
  destruct (s2n_process_as_warning conn level type) eqn:Hw.
  - rewrite (process_complete_alert_warning conn level type rest Hcn Hw).
    pose proof (tolerated_on_wipe conn level type rest) as Htol.
    destruct (proj1 Hpol eq_refl) as [(Hv & Hl & Hb) | (Hv & Ht)].
    + split; intros Hv'; [tauto | lia].
    + split; intros Hv'; [lia | tauto].
  - destruct (process_complete_alert_fatal conn level type rest Hcn Hw)
      as (conn' & -> & _).
    pose proof (not_tolerated_on_failure conn conn' S2N_ERR_ALERT) as Hno.
    split; intros Hv; split; try tauto; intros Hyes;
      assert (false = true) by (apply Hpol; tauto); discriminate.
Qed.

Lemma warning_tolerance_by_version_witness :
  alert_tolerated
    (with_input [1; 100] (sample_conn 33 S2N_ALERT_IGNORE_WARNINGS))
    (s2n_process_alert_fragment
       (with_input [1; 100] (sample_conn 33 S2N_ALERT_IGNORE_WARNINGS)))
  /\ alert_tolerated
       (with_input [2; 90] (sample_conn 34 S2N_ALERT_FAIL_ON_WARNINGS))
       (s2n_process_alert_fragment
          (with_input [2; 90] (sample_conn 34 S2N_ALERT_FAIL_ON_WARNINGS))).
Proof.
  split.
  - apply (proj1 (warning_tolerance_by_version
                    (with_input [1; 100] (sample_conn 33 S2N_ALERT_IGNORE_WARNINGS))
                    1 100 []
                    eq_refl (or_introl (conj eq_refl eq_refl))
                    ltac:(discriminate))).
    + reflexivity.
    + split; reflexivity.
  - apply (proj2 (warning_tolerance_by_version
                    (with_input [2; 90] (sample_conn 34 S2N_ALERT_FAIL_ON_WARNINGS))
                    2 90 []
                    eq_refl (or_introl (conj eq_refl eq_refl))
                    ltac:(discriminate))).
    + vm_compute. discriminate.
    + reflexivity.
Defined.

(** C4, as the code has it: completing an alert whose description is
    close_notify sets closed and close_notify_received and returns success,
    whatever the level byte, the version and the configuration; the two
    bytes of the alert stay in the reassembly buffer, which is not wiped. *)
Theorem close_notify_closes_and_keeps_buffer {cache : Type}
  (conn : s2n_connection cache) (level : Z) (rest : list Z) :
  s2n_alerts_supported conn = true ->
  completes conn level S2N_TLS_ALERT_CLOSE_NOTIFY rest ->
  s2n_process_alert_fragment conn
  = Some (S2N_SUCCESS,
          set_close_notify_received true
            (set_closed true (buffered level S2N_TLS_ALERT_CLOSE_NOTIFY rest conn)))
  /\ after closed (s2n_process_alert_fragment conn) = Some true
  /\ after close_notify_received (s2n_process_alert_fragment conn) = Some true
  /\ after alert_in (s2n_process_alert_fragment conn)
     = Some [level; S2N_TLS_ALERT_CLOSE_NOTIFY].
Proof.
  intros Hsup Hc.
  rewrite (process_alert_fragment_completes conn level _ rest Hsup Hc).
  rewrite process_complete_alert_close_notify. repeat split.
Qed.

Lemma close_notify_closes_and_keeps_buffer_witness :
  after closed
    (s2n_process_alert_fragment
       (with_input [2; 0] (sample_conn 34 S2N_ALERT_FAIL_ON_WARNINGS)))
  = Some true.
Proof.
  apply (close_notify_closes_and_keeps_buffer
           (with_input [2; 0] (sample_conn 34 S2N_ALERT_FAIL_ON_WARNINGS)) 2 []).
  - reflexivity.
  - left. split; reflexivity.
Defined.

(** C4 as stated fails: after (warning, close_notify) the reassembly
    buffer still holds the two bytes. *)
Lemma close_notify_buffer_not_cleared :
  returned
    (s2n_process_alert_fragment
       (with_input [1; 0] (sample_conn 33 S2N_ALERT_FAIL_ON_WARNINGS)))
  = Some S2N_SUCCESS
  /\ after alert_in
       (s2n_process_alert_fragment
          (with_input [1; 0] (sample_conn 33 S2N_ALERT_FAIL_ON_WARNINGS)))
     = Some [1; 0]
  /\ after (fun c => s2n_stuffer_data_available (alert_in c))
       (s2n_process_alert_fragment
          (with_input [1; 0] (sample_conn 33 S2N_ALERT_FAIL_ON_WARNINGS)))
     <> Some 0%nat.
Proof. repeat split. vm_compute. discriminate. Qed.

(** C5: a completed alert that is neither close_notify nor tolerated fails
    with [S2N_ERR_ALERT], of the ALERT category, and leaves the connection
    closed; the session cache is what the [cache_delete] callback leaves
    when the connection may be cached and has a session id, and untouched
    otherwise. The callback's return value appears nowhere in the outcome:
    this holds for every callback, failing or not. *)
Theorem fatal_alert_evicts_and_closes {cache : Type} (conn : s2n_connection cache)
  (level type : Z) (rest : list Z) :
  s2n_alerts_supported conn = true ->
  completes conn level type rest ->
  type <> S2N_TLS_ALERT_CLOSE_NOTIFY ->
  s2n_process_as_warning conn level type = false ->
  exists conn',
    s2n_process_alert_fragment conn = Some (S2N_FAILURE S2N_ERR_ALERT, conn')
    /\ s2n_error_get_type S2N_ERR_ALERT = S2N_ERR_T_ALERT
    /\ closed conn' = true
    /\ cache_delete_data (config conn')
       = if s2n_allowed_to_cache_connection conn && negb (session_id_len conn =? 0)
         then snd (cache_delete (config conn) (cache_delete_data (config conn))
                     (session_id conn) (session_id_len conn))
         else cache_delete_data (config conn).
Proof.
  intros Hsup Hc Hcn Hw.
  rewrite (process_alert_fragment_completes conn level type rest Hsup Hc).
  destruct (process_complete_alert_fatal conn level type rest Hcn Hw)
    as (conn' & -> & Hcl & _ & _ & _ & Hcache).
  exists conn'. repeat split; assumption.
Qed.

Lemma fatal_alert_evicts_and_closes_witness :
  exists conn',
    s2n_process_alert_fragment
      (with_input [2; 40] (sample_conn 33 S2N_ALERT_IGNORE_WARNINGS))
    = Some (S2N_FAILURE S2N_ERR_ALERT, conn')
    /\ s2n_error_get_type S2N_ERR_ALERT = S2N_ERR_T_ALERT
    /\ closed conn' = true
    /\ cache_delete_data (config conn') = [[7; 7; 7]].
Proof.
  apply (fatal_alert_evicts_and_closes
           (with_input [2; 40] (sample_conn 33 S2N_ALERT_IGNORE_WARNINGS)) 2 40 []).
  - reflexivity.
  - left. split; reflexivity.
  - vm_compute. discriminate.
  - reflexivity.
Defined.

(** With alerts supported and nothing buffered, a single byte is kept for
    the next call. *)
Lemma process_alert_fragment_first_byte {cache : Type} (conn : s2n_connection cache)
  (b0 : Z) :
  s2n_alerts_supported conn = true ->
  alert_in conn = [] ->
  s2n_process_alert_fragment (with_input [b0] conn)
  = Some (S2N_SUCCESS, set_alert_in [b0] (set_in [] (with_input [b0] conn))).
Proof.
  intros Hsup Ha. unfold s2n_process_alert_fragment, with_input. cbn.
  change (s2n_alerts_supported (set_in [b0] conn)) with (s2n_alerts_supported conn).
  rewrite Hsup, Ha. reflexivity.
Qed.

(** Without alert support a call with input and no complete alert buffered
    is refused and changes nothing. *)
Lemma process_alert_fragment_unsupported {cache : Type} (conn : s2n_connection cache) :
  s2n_stuffer_data_available (conn_in conn) <> 0%nat ->
  s2n_stuffer_data_available (alert_in conn) <> 2%nat ->
  s2n_alerts_supported conn = false ->
  s2n_process_alert_fragment conn = Some (S2N_FAILURE S2N_ERR_BAD_MESSAGE, conn).
Proof.
  intros Hin Ha Hsup. unfold s2n_process_alert_fragment.
  apply Nat.eqb_neq in Hin, Ha. rewrite Hin, Ha, Hsup. reflexivity.
Qed.

(** With input at hand and two bytes buffered the call is refused. *)
Lemma process_alert_fragment_alert_present {cache : Type} (conn : s2n_connection cache) :
  conn_in conn <> [] ->
  length (alert_in conn) = 2%nat ->
  s2n_process_alert_fragment conn = Some (S2N_FAILURE S2N_ERR_ALERT_PRESENT, conn).
Proof.
  intros Hin Ha. unfold s2n_process_alert_fragment, s2n_stuffer_data_available.
  rewrite Ha. destruct (conn_in conn); [contradiction | reflexivity].
Qed.

(** C6, as the code has it: on a connection whose reassembly buffer does
    not hold exactly one byte, one call with [b0; b1] available and two
    calls with [b0] and then [b1] available end alike. When alerts are
    supported and no complete alert is buffered, the first of the two calls
    succeeds, the second returns what the single call returns, and both
    ways leave the same connection. Otherwise the single call and each of
    the two calls are refused with the same error and change nothing, so
    the connections differ only in the input left unread. *)
Theorem fragmentation_equivalence {cache : Type} (conn : s2n_connection cache)
  (b0 b1 : Z) :
  length (alert_in conn) <> 1%nat ->
  exists r first conn1 conn2,
    one_call b0 b1 conn = Some (r, conn1)
    /\ two_calls b0 b1 conn = Some (first, r, conn2)
    /\ alert_in conn1 = alert_in conn2
    /\ closed conn1 = closed conn2
    /\ close_notify_received conn1 = close_notify_received conn2
    /\ cache_delete_data (config conn1) = cache_delete_data (config conn2)
    /\ set_in [] conn1 = set_in [] conn2
    /\ (s2n_alerts_supported conn = true ->
        length (alert_in conn) <> 2%nat ->
        first = S2N_SUCCESS /\ conn1 = conn2)
    /\ (s2n_alerts_supported conn = false \/ length (alert_in conn) = 2%nat ->
        first = r
        /\ (r = S2N_FAILURE S2N_ERR_BAD_MESSAGE \/ r = S2N_FAILURE S2N_ERR_ALERT_PRESENT)
        /\ conn1 = with_input [b0; b1] conn
        /\ conn2 = with_input [b1] conn).
Proof.
  intros Hone. unfold one_call, two_calls.
  assert (Hrefused :
            forall e,
              (forall bytes, bytes <> [] ->
                 s2n_process_alert_fragment (with_input bytes conn)
                 = Some (S2N_FAILURE e, with_input bytes conn)) ->
              e = S2N_ERR_BAD_MESSAGE \/ e = S2N_ERR_ALERT_PRESENT ->
              s2n_alerts_supported conn = false \/ length (alert_in conn) = 2%nat ->
              exists r first conn1 conn2,
                s2n_process_alert_fragment (with_input [b0; b1] conn) = Some (r, conn1)
                /\ match s2n_process_alert_fragment (with_input [b0] conn) with
                   | Some (first, conn1) =>
                       match s2n_process_alert_fragment (with_input [b1] conn1) with
                       | Some (second, conn2) => Some (first, second, conn2)
                       | None => None
                       end
                   | None => None
                   end = Some (first, r, conn2)
                /\ alert_in conn1 = alert_in conn2
                /\ closed conn1 = closed conn2
                /\ close_notify_received conn1 = close_notify_received conn2
                /\ cache_delete_data (config conn1) = cache_delete_data (config conn2)
                /\ set_in [] conn1 = set_in [] conn2
                /\ (s2n_alerts_supported conn = true ->
                    length (alert_in conn) <> 2%nat ->
                    first = S2N_SUCCESS /\ conn1 = conn2)
                /\ (s2n_alerts_supported conn = false \/ length (alert_in conn) = 2%nat ->
                    first = r
                    /\ (r = S2N_FAILURE S2N_ERR_BAD_MESSAGE
                        \/ r = S2N_FAILURE S2N_ERR_ALERT_PRESENT)
                    /\ conn1 = with_input [b0; b1] conn
                    /\ conn2 = with_input [b1] conn)).
  { intros e Hcall He Hwhy.
    exists (S2N_FAILURE e), (S2N_FAILURE e), (with_input [b0; b1] conn),
      (with_input [b1] conn).
    rewrite (Hcall [b0; b1]) by discriminate.
    rewrite (Hcall [b0]) by discriminate.
    change (with_input [b1] (with_input [b0] conn)) with (with_input [b1] conn).
    rewrite (Hcall [b1]) by discriminate.
    do 7 (split; [reflexivity |]). split.
    - intros Hsup Hlen. destruct Hwhy as [Hno | Htwo]; [congruence | contradiction].
    - intros _. split; [reflexivity |]. split; [| split; reflexivity].
      destruct He as [-> | ->]; tauto. }
  destruct (Nat.eq_dec (length (alert_in conn)) 2) as [Htwo | Htwo].
  { apply (Hrefused S2N_ERR_ALERT_PRESENT); [| tauto | tauto].
    intros bytes Hbytes. apply process_alert_fragment_alert_present; assumption. }
  destruct (Bool.bool_dec (s2n_alerts_supported conn) true) as [Hsup | Hsup].
  2:{ apply not_true_is_false in Hsup.
      apply (Hrefused S2N_ERR_BAD_MESSAGE); [| tauto | tauto].
      intros bytes Hbytes. apply process_alert_fragment_unsupported.
      - destruct bytes; [contradiction | discriminate].
      - exact Htwo.
      - exact Hsup. }
  clear Hrefused.
  destruct (alert_in conn) as [|x [|y [|z rest]]] eqn:Ha;
    [| contradiction | contradiction |].
  - rewrite (process_alert_fragment_first_byte conn b0 Hsup Ha).
    rewrite (process_alert_fragment_completes (with_input [b0; b1] conn) b0 b1 []
               Hsup (or_introl (conj Ha eq_refl))).
    rewrite (process_alert_fragment_completes
               (with_input [b1] (set_alert_in [b0] (set_in [] (with_input [b0] conn))))
               b0 b1 [] Hsup (or_intror (conj eq_refl eq_refl))).
    change (buffered b0 b1 []
              (with_input [b1] (set_alert_in [b0] (set_in [] (with_input [b0] conn)))))
      with (buffered b0 b1 [] (with_input [b0; b1] conn)).
    destruct (process_complete_alert (buffered b0 b1 [] (with_input [b0; b1] conn)))
      as [r c].
    exists r, S2N_SUCCESS, c, c. do 7 (split; [reflexivity |]). split.
    + intros _ _. split; reflexivity.
    + intros [Hno | Hlen]; [congruence | discriminate Hlen].
  - unfold s2n_process_alert_fragment, with_input, s2n_stuffer_data_available.
    cbn [conn_in alert_in set_in].
    change (s2n_alerts_supported (set_in [b0; b1] conn)) with (s2n_alerts_supported conn).
    change (s2n_alerts_supported (set_in [b0] conn)) with (s2n_alerts_supported conn).
    rewrite Hsup, Ha. cbn. rewrite Ha. cbn.
    change (s2n_alerts_supported
              (set_in [b1] (set_alert_in (x :: y :: z :: rest ++ [b0]) (set_in [] (set_in [b0] conn)))))
      with (s2n_alerts_supported conn).
    rewrite Hsup. cbn.
    rewrite <- app_assoc. cbn [app].
    do 4 eexists. do 7 (split; [reflexivity |]). split.
    + intros _ _. split; reflexivity.
    + intros [Hno | Hlen]; [congruence | discriminate Hlen].
Qed.

Lemma fragmentation_equivalence_witness :
  exists r first conn1 conn2,
    one_call 2 40 (sample_conn 33 S2N_ALERT_FAIL_ON_WARNINGS) = Some (r, conn1)
    /\ two_calls 2 40 (sample_conn 33 S2N_ALERT_FAIL_ON_WARNINGS) = Some (first, r, conn2)
    /\ alert_in conn1 = alert_in conn2
    /\ closed conn1 = closed conn2
    /\ close_notify_received conn1 = close_notify_received conn2
    /\ cache_delete_data (config conn1) = cache_delete_data (config conn2)
    /\ set_in [] conn1 = set_in [] conn2
    /\ (s2n_alerts_supported (sample_conn 33 S2N_ALERT_FAIL_ON_WARNINGS) = true ->
        length (alert_in (sample_conn 33 S2N_ALERT_FAIL_ON_WARNINGS)) <> 2%nat ->
        first = S2N_SUCCESS /\ conn1 = conn2)
    /\ (s2n_alerts_supported (sample_conn 33 S2N_ALERT_FAIL_ON_WARNINGS) = false
        \/ length (alert_in (sample_conn 33 S2N_ALERT_FAIL_ON_WARNINGS)) = 2%nat ->
        first = r
        /\ (r = S2N_FAILURE S2N_ERR_BAD_MESSAGE \/ r = S2N_FAILURE S2N_ERR_ALERT_PRESENT)
        /\ conn1 = with_input [2; 40] (sample_conn 33 S2N_ALERT_FAIL_ON_WARNINGS)
        /\ conn2 = with_input [40] (sample_conn 33 S2N_ALERT_FAIL_ON_WARNINGS)).
Proof.
  apply (fragmentation_equivalence (sample_conn 33 S2N_ALERT_FAIL_ON_WARNINGS) 2 40).
  cbn. discriminate.
Defined.

(** C6 as stated fails on a connection that already buffers one byte: the
    pair (90, 7) arriving at TLS 1.3 behind a buffered 1 completes the alert
    (1, 90), which is tolerated; one call then leaves 7 unread in the input
    and the buffer empty, two calls, both successful, leave 7 in the
    buffer. *)
Lemma fragmentation_differs_on_partial_buffer :
  returned (one_call 90 7 (set_alert_in [1] (sample_conn 34 S2N_ALERT_FAIL_ON_WARNINGS)))
  = Some S2N_SUCCESS
  /\ option_map fst
       (two_calls 90 7 (set_alert_in [1] (sample_conn 34 S2N_ALERT_FAIL_ON_WARNINGS)))
     = Some (S2N_SUCCESS, S2N_SUCCESS)
  /\ after alert_in
       (one_call 90 7 (set_alert_in [1] (sample_conn 34 S2N_ALERT_FAIL_ON_WARNINGS)))
     = Some []
  /\ option_map (fun calls => alert_in (snd calls))
       (two_calls 90 7 (set_alert_in [1] (sample_conn 34 S2N_ALERT_FAIL_ON_WARNINGS)))
     = Some [7].
Proof. repeat split. Qed.

(** C7, as the code has it: [s2n_alerts_close_if_fatal], which the inbound
    path does not call, leaves the connection as it is on a no_renegotiation
    alert, returning success at warning level and failing with
    [S2N_ERR_SAFETY] at any other level. On the inbound path
    no_renegotiation has no exemption: a completed (level, no_renegotiation)
    is tolerated exactly when the level is warning, the version is below
    TLS 1.3 and warnings are ignored; in every other case, the fatal level
    included, the call fails with [S2N_ERR_ALERT] and closes the connection. *)
Theorem no_renegotiation_alert {cache : Type} (conn : s2n_connection cache)
  (level : Z) (rest : list Z) :
  s2n_alerts_close_if_fatal conn
    (Some {| data := [level; S2N_TLS_ALERT_NO_RENEGOTIATION]; size := S2N_ALERT_LENGTH |})
  = ((if level =? S2N_TLS_ALERT_LEVEL_WARNING
      then S2N_RESULT_OK else S2N_RESULT_ERROR S2N_ERR_SAFETY), conn)
  /\ (s2n_alerts_supported conn = true ->
      completes conn level S2N_TLS_ALERT_NO_RENEGOTIATION rest ->
      (alert_tolerated conn (s2n_process_alert_fragment conn) <->
       level = S2N_TLS_ALERT_LEVEL_WARNING
       /\ s2n_connection_get_protocol_version conn < S2N_TLS13
       /\ alert_behavior (config conn) = S2N_ALERT_IGNORE_WARNINGS)
      /\ (~ alert_tolerated conn (s2n_process_alert_fragment conn) ->
          returned (s2n_process_alert_fragment conn) = Some (S2N_FAILURE S2N_ERR_ALERT)
          /\ after closed (s2n_process_alert_fragment conn) = Some true)).
Proof.
  split.
  - reflexivity.
  - intros Hsup Hc.
    assert (Hcn : S2N_TLS_ALERT_NO_RENEGOTIATION <> S2N_TLS_ALERT_CLOSE_NOTIFY)
      by discriminate.
    assert (Huc : S2N_TLS_ALERT_NO_RENEGOTIATION <> S2N_TLS_ALERT_USER_CANCELED)
      by discriminate.
    rewrite (process_alert_fragment_completes conn level _ rest Hsup Hc).
    pose proof (s2n_process_as_warning_true conn level
                  S2N_TLS_ALERT_NO_RENEGOTIATION) as Hpol.
    destruct (s2n_process_as_warning conn level S2N_TLS_ALERT_NO_RENEGOTIATION) eqn:Hw.
    + rewrite (process_complete_alert_warning conn level _ rest Hcn Hw).
      pose proof (tolerated_on_wipe conn level S2N_TLS_ALERT_NO_RENEGOTIATION rest).
      destruct (proj1 Hpol eq_refl) as [(Hv & Hl & Hb) | (Hv & Ht)];
        [| contradiction].
      split; tauto.
    + destruct (process_complete_alert_fatal conn level _ rest Hcn Hw)
        as (conn' & -> & Hcl & _).
      pose proof (not_tolerated_on_failure conn conn' S2N_ERR_ALERT) as Hno.
      split.
      * split; [tauto|]. intros (Hl & Hv & Hb).
        assert (false = true) by (apply Hpol; tauto). discriminate.
      * intros _. split; [reflexivity|]. cbn. rewrite Hcl. reflexivity.
Qed.

Lemma no_renegotiation_alert_witness :
  alert_tolerated
    (with_input [1; 100] (sample_conn 33 S2N_ALERT_IGNORE_WARNINGS))
    (s2n_process_alert_fragment
       (with_input [1; 100] (sample_conn 33 S2N_ALERT_IGNORE_WARNINGS))).
Proof.
  apply (proj1 (proj2 (no_renegotiation_alert
                         (with_input [1; 100] (sample_conn 33 S2N_ALERT_IGNORE_WARNINGS))
                         1 [])
                  eq_refl (or_introl (conj eq_refl eq_refl)))).
  repeat split.
Defined.

(** C7 as stated fails: a received (fatal, no_renegotiation) fails with
    [S2N_ERR_ALERT], not with a size or format error, and closes the
    connection; a received (warning, no_renegotiation) closes it too at
    TLS 1.3, and below TLS 1.3 when warnings are not ignored. *)
Lemma no_renegotiation_closes_on_receive :
  returned
    (s2n_process_alert_fragment
       (with_input [2; 100] (sample_conn 33 S2N_ALERT_IGNORE_WARNINGS)))
  = Some (S2N_FAILURE S2N_ERR_ALERT)
  /\ after closed
       (s2n_process_alert_fragment
          (with_input [2; 100] (sample_conn 33 S2N_ALERT_IGNORE_WARNINGS)))
     = Some true
  /\ after closed
       (s2n_process_alert_fragment
          (with_input [1; 100] (sample_conn 34 S2N_ALERT_IGNORE_WARNINGS)))
     = Some true
  /\ after closed
       (s2n_process_alert_fragment
          (with_input [1; 100] (sample_conn 33 S2N_ALERT_FAIL_ON_WARNINGS)))
     = Some true
  /\ S2N_ERR_ALERT <> S2N_ERR_SAFETY
  /\ S2N_ERR_ALERT <> S2N_ERR_SIZE_MISMATCH.
Proof. repeat split; vm_compute; discriminate. Qed.

(** C8, as the code has it: the call is refused, leaving the connection as
    it was, (1) with [S2N_ERR_BAD_MESSAGE] when no input is available,
    (2) with [S2N_ERR_ALERT_PRESENT] when input is available and the
    reassembly buffer holds two bytes, and (3) with [S2N_ERR_BAD_MESSAGE]
    when neither is the case and alerts are not supported. *)
Theorem process_alert_fragment_refusals {cache : Type} (conn : s2n_connection cache) :
  (s2n_stuffer_data_available (conn_in conn) = 0%nat ->
   s2n_process_alert_fragment conn = Some (S2N_FAILURE S2N_ERR_BAD_MESSAGE, conn))
  /\ (s2n_stuffer_data_available (conn_in conn) <> 0%nat ->
      s2n_stuffer_data_available (alert_in conn) = 2%nat ->
      s2n_process_alert_fragment conn = Some (S2N_FAILURE S2N_ERR_ALERT_PRESENT, conn))
  /\ (s2n_stuffer_data_available (conn_in conn) <> 0%nat ->
      s2n_stuffer_data_available (alert_in conn) <> 2%nat ->
      s2n_alerts_supported conn = false ->
      s2n_process_alert_fragment conn = Some (S2N_FAILURE S2N_ERR_BAD_MESSAGE, conn)).
Proof.
  split; [| split].
  - intros Hin. unfold s2n_process_alert_fragment. rewrite Hin. reflexivity.
  - intros Hin Ha. unfold s2n_process_alert_fragment.
    apply Nat.eqb_neq in Hin. rewrite Hin, Ha. reflexivity.
  - apply process_alert_fragment_unsupported.
Qed.

Lemma process_alert_fragment_refusals_witness :
  s2n_process_alert_fragment (sample_conn 33 S2N_ALERT_FAIL_ON_WARNINGS)
  = Some (S2N_FAILURE S2N_ERR_BAD_MESSAGE, sample_conn 33 S2N_ALERT_FAIL_ON_WARNINGS)
  /\ s2n_process_alert_fragment
       (with_input [5] (set_alert_in [1; 0] (sample_conn 33 S2N_ALERT_FAIL_ON_WARNINGS)))
     = Some (S2N_FAILURE S2N_ERR_ALERT_PRESENT,
             with_input [5] (set_alert_in [1; 0] (sample_conn 33 S2N_ALERT_FAIL_ON_WARNINGS))).
Proof.
  split.
  - apply (proj1 (process_alert_fragment_refusals
                    (sample_conn 33 S2N_ALERT_FAIL_ON_WARNINGS))).
    reflexivity.
  - apply (proj1 (proj2 (process_alert_fragment_refusals
                           (with_input [5]
                              (set_alert_in [1; 0]
                                 (sample_conn 33 S2N_ALERT_FAIL_ON_WARNINGS)))))).
    + vm_compute. discriminate.
    + reflexivity.
Defined.

(** C8 as stated fails in its second case: with input available and two
    bytes already buffered the error is [S2N_ERR_ALERT_PRESENT], an
    INTERNAL error, not [S2N_ERR_BAD_MESSAGE]. *)
Lemma alert_present_is_not_bad_message :
  returned
    (s2n_process_alert_fragment
       (with_input [5] (set_alert_in [1; 0] (sample_conn 33 S2N_ALERT_FAIL_ON_WARNINGS))))
  = Some (S2N_FAILURE S2N_ERR_ALERT_PRESENT)
  /\ S2N_ERR_ALERT_PRESENT <> S2N_ERR_BAD_MESSAGE
  /\ s2n_error_get_type S2N_ERR_ALERT_PRESENT = S2N_ERR_T_INTERNAL.
Proof. repeat split. vm_compute. discriminate. Qed.

(** ** Outbound close_notify *)

(** C9: queueing the writer's close alert always returns success. When
    the writer slot is empty, no close_notify was queued and alerts are
    supported, the slot then holds the two bytes (warning, close_notify)
    and close_notify_queued is set; otherwise the connection is as it was.
    No other field is touched, and a second call in a row changes nothing,
    so after two calls the slot holds that one message. *)
Theorem queue_writer_close_alert_once {cache : Type} (conn : s2n_connection cache) :
  fst (s2n_queue_writer_close_alert_warning conn) = S2N_SUCCESS
  /\ (writer_close_alert_due conn = true ->
      writer_alert_out (snd (s2n_queue_writer_close_alert_warning conn))
      = [S2N_TLS_ALERT_LEVEL_WARNING; S2N_TLS_ALERT_CLOSE_NOTIFY]
      /\ close_notify_queued (snd (s2n_queue_writer_close_alert_warning conn)) = true
      /\ writer_alert_out
           (snd (s2n_queue_writer_close_alert_warning
                   (snd (s2n_queue_writer_close_alert_warning conn))))
         = [S2N_TLS_ALERT_LEVEL_WARNING; S2N_TLS_ALERT_CLOSE_NOTIFY])
  /\ (writer_close_alert_due conn = false ->
      snd (s2n_queue_writer_close_alert_warning conn) = conn)
  /\ (config (snd (s2n_queue_writer_close_alert_warning conn)) = config conn
      /\ quic_enabled (snd (s2n_queue_writer_close_alert_warning conn)) = quic_enabled conn
      /\ actual_protocol_version (snd (s2n_queue_writer_close_alert_warning conn))
         = actual_protocol_version conn
      /\ allowed_to_cache (snd (s2n_queue_writer_close_alert_warning conn))
         = allowed_to_cache conn
      /\ conn_in (snd (s2n_queue_writer_close_alert_warning conn)) = conn_in conn
      /\ alert_in (snd (s2n_queue_writer_close_alert_warning conn)) = alert_in conn
      /\ closed (snd (s2n_queue_writer_close_alert_warning conn)) = closed conn
      /\ closing (snd (s2n_queue_writer_close_alert_warning conn)) = closing conn
      /\ close_notify_received (snd (s2n_queue_writer_close_alert_warning conn))
         = close_notify_received conn
      /\ session_id (snd (s2n_queue_writer_close_alert_warning conn)) = session_id conn
      /\ session_id_len (snd (s2n_queue_writer_close_alert_warning conn))
         = session_id_len conn)
  /\ snd (s2n_queue_writer_close_alert_warning conn)
     = (if writer_close_alert_due conn
        then set_close_notify_queued true
               (set_writer_alert_out
                  [S2N_TLS_ALERT_LEVEL_WARNING; S2N_TLS_ALERT_CLOSE_NOTIFY] conn)
        else conn)
  /\ s2n_queue_writer_close_alert_warning (snd (s2n_queue_writer_close_alert_warning conn))
     = (S2N_SUCCESS, snd (s2n_queue_writer_close_alert_warning conn)).
Proof.
  destruct conn as [cfg quic v ac cin ain wout cl clg cnr cnq sid sl].
  unfold s2n_queue_writer_close_alert_warning, writer_close_alert_due,
    s2n_alerts_supported, s2n_connection_is_quic_enabled,
    s2n_stuffer_write, s2n_stuffer_data_available.
  cbn [writer_alert_out close_notify_queued quic_enabled].
  destruct wout as [|b out]; destruct cnq; destruct quic;
    cbn; (split; [reflexivity |]);
    (split; [intros Hdue; try discriminate Hdue; repeat split |]);
    (split; [intros Hdue; try discriminate Hdue; reflexivity |]);
    (split; [repeat split |]); split; reflexivity.
Qed.

Lemma queue_writer_close_alert_once_witness :
  writer_alert_out
    (snd (s2n_queue_writer_close_alert_warning (sample_conn 33 S2N_ALERT_FAIL_ON_WARNINGS)))
  = [S2N_TLS_ALERT_LEVEL_WARNING; S2N_TLS_ALERT_CLOSE_NOTIFY]
  /\ close_notify_queued
       (snd (s2n_queue_writer_close_alert_warning
               (sample_conn 33 S2N_ALERT_FAIL_ON_WARNINGS))) = true
  /\ writer_alert_out
       (snd (s2n_queue_writer_close_alert_warning
               (snd (s2n_queue_writer_close_alert_warning
                       (sample_conn 33 S2N_ALERT_FAIL_ON_WARNINGS)))))
     = [S2N_TLS_ALERT_LEVEL_WARNING; S2N_TLS_ALERT_CLOSE_NOTIFY].
Proof.
  apply (proj1 (proj2 (queue_writer_close_alert_once
                         (sample_conn 33 S2N_ALERT_FAIL_ON_WARNINGS)))).
  reflexivity.
Defined.

(** ** Error-to-alert translation *)

Lemma distinct_NoDup (l : list Z) : distinct l = true -> NoDup l.
Proof.
  induction l as [|x rest IH]; cbn [distinct]; intros H; constructor.
  - apply andb_true_iff in H. destruct H as [H _].
    intros Hin. apply negb_true_iff in H.
    assert (existsb (Z.eqb x) rest = true) as Hex
        by (apply existsb_exists; exists x; split; [exact Hin | apply Z.eqb_refl]).
    congruence.
  - apply IH. apply andb_true_iff in H. tauto.
Qed.

(** The case labels of the switch are pairwise different, as C requires. *)
Lemma protocol_error_arms_distinct : NoDup (map arm_label protocol_error_arms).
Proof. apply distinct_NoDup. vm_compute. reflexivity. Qed.

Section Switch.
Variable arms : list switch_arm.
Variables error_code alert : Z.

(** A value that labels no arm falls through to the bail after the switch. *)
Lemma run_switch_no_arm :
  ~ In error_code (map arm_label arms) ->
  run_switch arms error_code alert = (S2N_RESULT_ERROR S2N_ERR_UNIMPLEMENTED, alert).
Proof.
  induction arms as [|[e c | e] rest IH]; cbn [run_switch map arm_label In];
    intros Hno; trivial;
    (destruct (Z.eqb_spec error_code e) as [-> | _]; [exfalso; tauto | apply IH; tauto]).
Qed.

Lemma run_switch_alert_case (alert_code : Z) :
  NoDup (map arm_label arms) ->
  In (S2N_ALERT_CASE error_code alert_code) arms ->
  run_switch arms error_code alert = (S2N_RESULT_OK, alert_code).
Proof.
  induction arms as [|arm rest IH]; cbn [map In]; intros Hnd Hin;
    [contradiction|].
  inversion_clear Hnd as [|? ? Hnotin Hrest]. destruct Hin as [-> | Htl].
  - cbn [run_switch]. rewrite Z.eqb_refl. reflexivity.
  - assert (Hne : error_code <> arm_label arm).
    { intros ->. apply Hnotin. apply (in_map arm_label _ _ Htl). }
    apply Z.eqb_neq in Hne.
    destruct arm; cbn [run_switch arm_label] in *; rewrite Hne; apply IH; assumption.
Qed.

Lemma run_switch_no_alert :
  NoDup (map arm_label arms) ->
  In (S2N_NO_ALERT error_code) arms ->
  run_switch arms error_code alert = (S2N_RESULT_ERROR S2N_ERR_NO_ALERT, alert).
Proof.
  induction arms as [|arm rest IH]; cbn [map In]; intros Hnd Hin;
    [contradiction|].
  inversion_clear Hnd as [|? ? Hnotin Hrest]. destruct Hin as [-> | Htl].
  - cbn [run_switch]. rewrite Z.eqb_refl. reflexivity.
  - assert (Hne : error_code <> arm_label arm).
    { intros ->. apply Hnotin. apply (in_map arm_label _ _ Htl). }
    apply Z.eqb_neq in Hne.
    destruct arm; cbn [run_switch arm_label] in *; rewrite Hne; apply IH; assumption.
Qed.
End Switch.

(** C3, as the code has it: the translation maps missing_extension to
    the alert 109, bad_message to 10 and no_renegotiation to 40; an error
    code with an [S2N_NO_ALERT] arm in the switch fails with
    [S2N_ERR_NO_ALERT], leaving the output alone; and only a code with no
    arm at all fails with [S2N_ERR_UNIMPLEMENTED]. This holds for every
    integer, the PROTOCOL category included. *)
Theorem protocol_error_translation (error_code a : Z) :
  s2n_translate_protocol_error_to_alert S2N_ERR_MISSING_EXTENSION (Some a)
  = (S2N_RESULT_OK, Some 109)
  /\ s2n_translate_protocol_error_to_alert S2N_ERR_BAD_MESSAGE (Some a)
     = (S2N_RESULT_OK, Some 10)
  /\ s2n_translate_protocol_error_to_alert S2N_ERR_NO_RENEGOTIATION (Some a)
     = (S2N_RESULT_OK, Some 40)
  /\ (In (S2N_NO_ALERT error_code) protocol_error_arms ->
      s2n_translate_protocol_error_to_alert error_code (Some a)
      = (S2N_RESULT_ERROR S2N_ERR_NO_ALERT, Some a))
  /\ (~ In error_code (map arm_label protocol_error_arms) ->
      s2n_translate_protocol_error_to_alert error_code (Some a)
      = (S2N_RESULT_ERROR S2N_ERR_UNIMPLEMENTED, Some a)).
Proof.
  unfold s2n_translate_protocol_error_to_alert.
  split; [| split; [| split; [| split]]].
  - rewrite (run_switch_alert_case protocol_error_arms _ a
               S2N_TLS_ALERT_MISSING_EXTENSION protocol_error_arms_distinct);
      [reflexivity | cbn; tauto].
  - rewrite (run_switch_alert_case protocol_error_arms _ a
               S2N_TLS_ALERT_UNEXPECTED_MESSAGE protocol_error_arms_distinct);
      [reflexivity | cbn; tauto].
  - rewrite (run_switch_alert_case protocol_error_arms _ a
               S2N_TLS_ALERT_HANDSHAKE_FAILURE protocol_error_arms_distinct);
      [reflexivity | cbn; tauto].
  - intros Hin.
    rewrite (run_switch_no_alert protocol_error_arms error_code a
               protocol_error_arms_distinct Hin).
    reflexivity.
  - intros Hno.
    rewrite (run_switch_no_arm protocol_error_arms error_code a Hno).
    reflexivity.
Qed.

Lemma protocol_error_translation_witness :
  s2n_translate_protocol_error_to_alert S2N_ERR_CERT_UNTRUSTED (Some 0)
  = (S2N_RESULT_ERROR S2N_ERR_NO_ALERT, Some 0)
  /\ s2n_translate_protocol_error_to_alert S2N_ERR_KTLS_KEYUPDATE (Some 0)
     = (S2N_RESULT_ERROR S2N_ERR_UNIMPLEMENTED, Some 0).
Proof.
  split.
  - apply (proj1 (proj2 (proj2 (proj2
             (protocol_error_translation S2N_ERR_CERT_UNTRUSTED 0))))).
    unfold protocol_error_arms. simpl. tauto.
  - apply (proj2 (proj2 (proj2 (proj2
             (protocol_error_translation S2N_ERR_KTLS_KEYUPDATE 0))))).
    vm_compute. intuition discriminate.
Defined.

(** C3 as stated fails: [S2N_ERR_ENCRYPT] is a PROTOCOL error outside the
    three mapped ones, and it fails with [S2N_ERR_NO_ALERT], not with
    [S2N_ERR_UNIMPLEMENTED]. *)
Lemma unmapped_protocol_error_has_no_alert :
  s2n_error_get_type S2N_ERR_ENCRYPT = S2N_ERR_T_PROTO
  /\ ~ In S2N_ERR_ENCRYPT
         [S2N_ERR_MISSING_EXTENSION; S2N_ERR_BAD_MESSAGE; S2N_ERR_NO_RENEGOTIATION]
  /\ s2n_translate_protocol_error_to_alert S2N_ERR_ENCRYPT (Some 0)
     = (S2N_RESULT_ERROR S2N_ERR_NO_ALERT, Some 0)
  /\ S2N_ERR_NO_ALERT <> S2N_ERR_UNIMPLEMENTED.
Proof.
  repeat split.
  - vm_compute. intuition discriminate.
  - vm_compute. discriminate.
Qed.

(** The switch covers the PROTOCOL category except for nine of its
    enumerators, which fall through to [S2N_ERR_UNIMPLEMENTED]. *)
Example protocol_errors_without_arm :
  forallb
    (fun e =>
       (s2n_error_get_type e =? S2N_ERR_T_PROTO)
       && negb (existsb (Z.eqb e) (map arm_label protocol_error_arms)))
    [S2N_ERR_UNEXPECTED_CERT_REQUEST; S2N_ERR_NO_VALID_SIGNATURE_SCHEME;
     S2N_ERR_CERT_NOT_YET_VALID; S2N_ERR_CERT_REJECTED;
     S2N_ERR_CRL_INVALID_THIS_UPDATE; S2N_ERR_CRL_INVALID_NEXT_UPDATE;
     S2N_ERR_CRL_NOT_YET_VALID; S2N_ERR_CRL_EXPIRED; S2N_ERR_KTLS_KEYUPDATE]
  = true
  /\ forallb (fun e => s2n_error_get_type e =? S2N_ERR_T_PROTO)
       (map arm_label protocol_error_arms) = true
  /\ (length protocol_error_arms + 9 = Z.to_nat (S2N_ERR_T_PROTO_END - S2N_ERR_T_PROTO_START))%nat.
Proof. repeat split. Qed.

(** C2, as the code has it: with an output alert to write to, an error of
    type OK, CLOSED, BLOCKED, USAGE or ALERT fails with [S2N_ERR_NO_ALERT]
    and leaves the output as it was; an error of type IO or INTERNAL
    succeeds and writes internal_error, whose value is 80; an error of type
    PROTO gets the result of the protocol translation. *)
Theorem error_get_alert_by_type (error a : Z) :
  (In (s2n_error_get_type error)
      [S2N_ERR_T_OK; S2N_ERR_T_CLOSED; S2N_ERR_T_BLOCKED; S2N_ERR_T_USAGE;
       S2N_ERR_T_ALERT] ->
   s2n_error_get_alert error (Some a) = (S2N_FAILURE S2N_ERR_NO_ALERT, Some a))
  /\ (In (s2n_error_get_type error) [S2N_ERR_T_IO; S2N_ERR_T_INTERNAL] ->
      s2n_error_get_alert error (Some a) = (S2N_SUCCESS, Some 80))
  /\ (s2n_error_get_type error = S2N_ERR_T_PROTO ->
      s2n_error_get_alert error (Some a)
      = (POSIX_GUARD_RESULT (fst (s2n_translate_protocol_error_to_alert error (Some a))),
         snd (s2n_translate_protocol_error_to_alert error (Some a)))).
Proof.
  unfold s2n_error_get_alert. split; [| split].
  - cbn [In]. intros [H | [H | [H | [H | [H | []]]]]]; rewrite <- H; reflexivity.
  - cbn [In]. intros [H | [H | []]]; rewrite <- H; reflexivity.
  - intros ->.
    destruct (s2n_translate_protocol_error_to_alert error (Some a)) as [[|e] a'];
      reflexivity.
Qed.

Lemma error_get_alert_by_type_witness :
  s2n_error_get_alert S2N_ERR_CLOSED (Some 7) = (S2N_FAILURE S2N_ERR_NO_ALERT, Some 7)
  /\ s2n_error_get_alert S2N_ERR_ALLOC (Some 7) = (S2N_SUCCESS, Some 80)
  /\ s2n_error_get_alert S2N_ERR_BAD_MESSAGE (Some 7)
     = (POSIX_GUARD_RESULT
          (fst (s2n_translate_protocol_error_to_alert S2N_ERR_BAD_MESSAGE (Some 7))),
        snd (s2n_translate_protocol_error_to_alert S2N_ERR_BAD_MESSAGE (Some 7))).
Proof.
  split; [| split].
  - apply (proj1 (error_get_alert_by_type S2N_ERR_CLOSED 7)).
    vm_compute. tauto.
  - apply (proj1 (proj2 (error_get_alert_by_type S2N_ERR_ALLOC 7))).
    vm_compute. tauto.
  - apply (proj2 (proj2 (error_get_alert_by_type S2N_ERR_BAD_MESSAGE 7))).
    reflexivity.
Defined.

(** C2 as stated fails on the value of the alert: an IO error is
    translated to internal_error, which is 80 and not 60. *)
Lemma internal_error_alert_is_not_60 :
  s2n_error_get_type S2N_ERR_IO = S2N_ERR_T_IO
  /\ s2n_error_get_alert S2N_ERR_IO (Some 0) = (S2N_SUCCESS, Some 80)
  /\ s2n_error_get_alert S2N_ERR_IO (Some 0) <> (S2N_SUCCESS, Some 60).
Proof. repeat split. vm_compute. discriminate. Qed.

(** C10: an error whose type is none of the eight error types makes
    [s2n_error_get_alert] return success and leave the output alert as it
    was, no case of the switch being taken. *)
Theorem error_get_alert_unknown_type (error a : Z) :
  ~ In (s2n_error_get_type error) error_types ->
  s2n_error_get_alert error (Some a) = (S2N_SUCCESS, Some a).
Proof.
  unfold error_types, s2n_error_get_alert. cbn [In]. intros Hno.
  repeat match goal with
         | |- context [s2n_error_get_type error =? ?t] =>
             destruct (Z.eqb_spec (s2n_error_get_type error) t) as [Heq | _];
             [symmetry in Heq; exfalso; tauto |]
         end.
  reflexivity.
Qed.

Lemma error_get_alert_unknown_type_witness :
  s2n_error_get_alert (S2N_ERR_T_USAGE_START + 67108864) (Some 42)
  = (S2N_SUCCESS, Some 42).
Proof.
  apply (error_get_alert_unknown_type (S2N_ERR_T_USAGE_START + 67108864) 42).
  vm_compute. intuition discriminate.
Defined.

(** * Further properties *)

(** ** Error types *)

(** The type of an error is the multiple of 2^26 below it. *)
Lemma s2n_error_get_type_bounds (error t : Z) :
  s2n_error_get_type error = t <->
  Z.shiftl t S2N_ERR_NUM_VALUE_BITS <= error < Z.shiftl (t + 1) S2N_ERR_NUM_VALUE_BITS.
Proof.
  unfold s2n_error_get_type, S2N_ERR_NUM_VALUE_BITS.
  rewrite Z.shiftr_div_pow2, !Z.shiftl_mul_pow2 by lia.
  change (2 ^ 26) with 67108864.
  split; intros H; Z.div_mod_to_equations; lia.
Qed.

Lemma type_of_range (t first last error : Z) :
  Z.shiftl t S2N_ERR_NUM_VALUE_BITS = first ->
  (last <? Z.shiftl (t + 1) S2N_ERR_NUM_VALUE_BITS) = true ->
  first <= error <= last ->
  s2n_error_get_type error = t.
Proof.
  intros <- Hlast Hrange. apply Z.ltb_lt in Hlast.
  apply s2n_error_get_type_bounds. lia.
Qed.

(** X1: every value from the first enumerator of an error type up to
    the sentinel that closes it has that type: no category of the
    enumeration runs over into the next. *)
Theorem enumerators_keep_their_type (t first last error : Z) :
  In (t, first, last) error_type_ranges ->
  first <= error <= last ->
  s2n_error_get_type error = t.
Proof.
  intros Hin Hrange. cbn [In error_type_ranges] in Hin.
  repeat (destruct Hin as [Hin | Hin];
          [injection Hin as <- <- <-;
           eapply type_of_range; [| | exact Hrange]; reflexivity |]).
  contradiction.
Qed.

Lemma enumerators_keep_their_type_witness :
  s2n_error_get_type S2N_ERR_ALERT_PRESENT = S2N_ERR_T_INTERNAL.
Proof.
  apply (enumerators_keep_their_type S2N_ERR_T_INTERNAL S2N_ERR_T_INTERNAL_START
           S2N_ERR_T_INTERNAL_END S2N_ERR_ALERT_PRESENT).
  - cbn [In error_type_ranges]. tauto.
  - vm_compute. split; discriminate.
Defined.

(** X2: [S2N_ERROR_IS_BLOCKING] holds exactly from the first BLOCKED
    value up to, not including, the first ALERT value. *)
Theorem blocking_errors_are_the_blocked_range (x : Z) :
  S2N_ERROR_IS_BLOCKING x = true <->
  S2N_ERR_T_BLOCKED_START <= x < S2N_ERR_T_ALERT_START.
Proof.
  unfold S2N_ERROR_IS_BLOCKING. rewrite Z.eqb_eq, s2n_error_get_type_bounds.
  reflexivity.
Qed.

Lemma blocking_errors_are_the_blocked_range_witness :
  S2N_ERROR_IS_BLOCKING S2N_ERR_APP_DATA_BLOCKED = true.
Proof.
  apply (proj2 (blocking_errors_are_the_blocked_range S2N_ERR_APP_DATA_BLOCKED)).
  vm_compute. split; [discriminate | reflexivity].
Defined.

(** ** What the translation can return *)

Section SwitchOutcomes.
Variable arms : list switch_arm.
Variables error_code alert : Z.

(** A switch that succeeds ran an [S2N_ALERT_CASE] arm of that label. *)
Lemma run_switch_ok_inv (alert' : Z) :
  run_switch arms error_code alert = (S2N_RESULT_OK, alert') ->
  In (S2N_ALERT_CASE error_code alert') arms.
Proof.
  induction arms as [|[e c | e] rest IH]; cbn [run_switch In]; intros H.
  - discriminate.
  - destruct (Z.eqb_spec error_code e) as [-> | _].
    + injection H as <-. left. reflexivity.
    + right. apply IH, H.
  - destruct (Z.eqb_spec error_code e) as [-> | _]; [discriminate |].
    right. apply IH, H.
Qed.

(** A switch that fails has written nothing. *)
Lemma run_switch_error_inv (e alert' : Z) :
  run_switch arms error_code alert = (S2N_RESULT_ERROR e, alert') ->
  alert' = alert /\ (e = S2N_ERR_NO_ALERT \/ e = S2N_ERR_UNIMPLEMENTED).
Proof.
  induction arms as [|[l c | l] rest IH]; cbn [run_switch]; intros H.
  - injection H as <- <-. tauto.
  - destruct (error_code =? l); [discriminate | apply IH, H].
  - destruct (error_code =? l); [injection H as <- <-; tauto | apply IH, H].
Qed.
End SwitchOutcomes.

(** X3: when [s2n_error_get_alert] fails, the output alert is as it was,
    and the error it raises is [S2N_ERR_NULL] (no output to write to),
    [S2N_ERR_NO_ALERT] or [S2N_ERR_UNIMPLEMENTED]. *)
Theorem error_get_alert_failure_writes_nothing (error e : Z) (alert alert' : option Z) :
  s2n_error_get_alert error alert = (S2N_FAILURE e, alert') ->
  alert' = alert
  /\ In e [S2N_ERR_NULL; S2N_ERR_NO_ALERT; S2N_ERR_UNIMPLEMENTED].
Proof.
  unfold s2n_error_get_alert, s2n_translate_protocol_error_to_alert.
  destruct alert as [a|]; cbn [RESULT_ENSURE_REF POSIX_GUARD_RESULT In].
  - destruct (_ || _).
    { intros H; injection H as <- <-. tauto. }
    destruct (_ =? S2N_ERR_T_PROTO).
    + destruct (run_switch protocol_error_arms error a) as [[|e'] a'] eqn:Hsw;
        intros H; [discriminate H |]. injection H as <- <-.
      apply run_switch_error_inv in Hsw. destruct Hsw as [-> [-> | ->]]; tauto.
    + destruct (_ || _); intros H; discriminate H.
  - intros H; injection H as <- <-. tauto.
Qed.

Lemma error_get_alert_failure_writes_nothing_witness :
  Some 7 = Some 7
  /\ In S2N_ERR_UNIMPLEMENTED [S2N_ERR_NULL; S2N_ERR_NO_ALERT; S2N_ERR_UNIMPLEMENTED].
Proof.
  apply (error_get_alert_failure_writes_nothing S2N_ERR_CERT_REJECTED
           S2N_ERR_UNIMPLEMENTED (Some 7) (Some 7)).
  vm_compute. reflexivity.
Defined.


(** X4: when [s2n_error_get_alert] succeeds on an error of one of the
    eight types, the alert it has written is unexpected_message (10),
    handshake_failure (40), internal_error (80) or missing_extension (109). *)
Theorem error_get_alert_success_alerts (error : Z) (alert alert' : option Z) :
  In (s2n_error_get_type error) error_types ->
  s2n_error_get_alert error alert = (S2N_SUCCESS, alert') ->
  exists a, alert' = Some a /\ In a [10; 40; 80; 109].
Proof.
  intros Htype. unfold s2n_error_get_alert, s2n_translate_protocol_error_to_alert.
  destruct alert as [a0|]; cbn [RESULT_ENSURE_REF POSIX_GUARD_RESULT];
    [| intros H; discriminate H].
  destruct (_ || _) eqn:Hnone; [intros H; discriminate H |].
  destruct (Z.eqb_spec (s2n_error_get_type error) S2N_ERR_T_PROTO) as [Hp | Hp].
  - destruct (run_switch protocol_error_arms error a0) as [[|e'] a'] eqn:Hsw;
      cbv beta iota; intros H; [| discriminate H]. injection H as <-.
    apply run_switch_ok_inv in Hsw. exists a'. split; [reflexivity |].
    assert (Hmapped : forall arm, In arm protocol_error_arms ->
              match arm with
              | S2N_ALERT_CASE _ c => In c [10; 40; 80; 109]
              | S2N_NO_ALERT _ => True
              end).
    { apply Forall_forall. unfold protocol_error_arms.
      repeat (constructor; [first [exact I | vm_compute; tauto] |]). constructor. }
    apply (Hmapped _ Hsw).
  - destruct ((s2n_error_get_type error =? S2N_ERR_T_IO) || _) eqn:Hio;
      intros H; injection H as <-.
    + exists S2N_TLS_ALERT_INTERNAL_ERROR. split; [reflexivity |]. vm_compute. tauto.
    + exfalso. unfold error_types in Htype. cbn [In] in Htype.
      repeat (apply orb_false_iff in Hnone; destruct Hnone as [Hnone ?]).
      apply orb_false_iff in Hio. destruct Hio as [Hio Hint].
      repeat match goal with
             | H : (_ =? _) = false |- _ => apply Z.eqb_neq in H
             end.
      intuition congruence.
Qed.

Lemma error_get_alert_success_alerts_witness :
  exists a, Some 40 = Some a /\ In a [10; 40; 80; 109].
Proof.
  apply (error_get_alert_success_alerts S2N_ERR_NO_RENEGOTIATION (Some 0) (Some 40)).
  - vm_compute. tauto.
  - vm_compute. reflexivity.
Defined.

(** X5: among the errors of type PROTO, [s2n_error_get_alert] succeeds
    on exactly three: missing_extension, bad_message and no_renegotiation. *)
Theorem exactly_three_protocol_errors_translate (error a : Z) :
  s2n_error_get_type error = S2N_ERR_T_PROTO ->
  fst (s2n_error_get_alert error (Some a)) = S2N_SUCCESS <->
  In error [S2N_ERR_MISSING_EXTENSION; S2N_ERR_BAD_MESSAGE; S2N_ERR_NO_RENEGOTIATION].
Proof.
  intros Hp. unfold s2n_error_get_alert, s2n_translate_protocol_error_to_alert.
  rewrite Hp. cbn [RESULT_ENSURE_REF POSIX_GUARD_RESULT].
  change ((S2N_ERR_T_PROTO =? S2N_ERR_T_OK) || (S2N_ERR_T_PROTO =? S2N_ERR_T_CLOSED)
          || (S2N_ERR_T_PROTO =? S2N_ERR_T_BLOCKED) || (S2N_ERR_T_PROTO =? S2N_ERR_T_USAGE)
          || (S2N_ERR_T_PROTO =? S2N_ERR_T_ALERT)) with false.
  change (S2N_ERR_T_PROTO =? S2N_ERR_T_PROTO) with true. cbv iota.
  destruct (run_switch protocol_error_arms error a) as [[|e'] a'] eqn:Hsw; cbn [fst].
  - apply run_switch_ok_inv in Hsw. split; [intros _ | reflexivity].
    assert (Hmapped : forall arm, In arm protocol_error_arms ->
              match arm with
              | S2N_ALERT_CASE e _ =>
                  In e [S2N_ERR_MISSING_EXTENSION; S2N_ERR_BAD_MESSAGE;
                        S2N_ERR_NO_RENEGOTIATION]
              | S2N_NO_ALERT _ => True
              end).
    { apply Forall_forall. unfold protocol_error_arms.
      repeat (constructor; [first [exact I | cbn [In]; tauto] |]). constructor. }
    apply (Hmapped _ Hsw).
  - split; [intros H; discriminate H |]. cbn [In].
    intros [<- | [<- | [<- | []]]]; vm_compute in Hsw; discriminate Hsw.
Qed.

Lemma exactly_three_protocol_errors_translate_witness :
  fst (s2n_error_get_alert S2N_ERR_MISSING_EXTENSION (Some 0)) = S2N_SUCCESS.
Proof.
  apply (proj2 (exactly_three_protocol_errors_translate S2N_ERR_MISSING_EXTENSION 0
                  eq_refl)).
  cbn [In]. tauto.
Defined.

(** ** Alerts this endpoint sends *)

(** X6: [s2n_alerts_close_if_fatal] changes at most the closing flag and
    never clears it; when it fails the connection is as it was; when it
    succeeds on an alert other than no_renegotiation the connection is
    closing. *)
Theorem close_if_fatal_touches_only_closing {cache : Type}
  (conn conn' : s2n_connection cache) (alert : option s2n_blob) (r : s2n_result) :
  s2n_alerts_close_if_fatal conn alert = (r, conn') ->
  conn' = set_closing (closing conn') conn
  /\ (closing conn = true -> closing conn' = true)
  /\ (r <> S2N_RESULT_OK -> conn' = conn)
  /\ (r = S2N_RESULT_OK ->
      forall blob, alert = Some blob ->
      nth 1 (data blob) 0 <> S2N_TLS_ALERT_NO_RENEGOTIATION ->
      closing conn' = true).
Proof.
  assert (Heta : conn = set_closing (closing conn) conn) by (destruct conn; reflexivity).
  unfold s2n_alerts_close_if_fatal.
  destruct alert as [blob|]; cbn [RESULT_ENSURE_REF].
  - destruct (RESULT_ENSURE_EQ (size blob) S2N_ALERT_LENGTH).
    + destruct (Z.eqb_spec (nth 1 (data blob) 0) S2N_TLS_ALERT_NO_RENEGOTIATION)
        as [Hnr | Hnr]; intros H; injection H as <- <-.
      * repeat split; trivial. intros _ b Hb. injection Hb as <-. contradiction.
      * repeat split; trivial. intros Hr. exfalso. apply Hr. reflexivity.
    + intros H; injection H as <- <-. repeat split; trivial. discriminate.
  - intros H; injection H as <- <-. repeat split; trivial. discriminate.
Qed.

Lemma close_if_fatal_touches_only_closing_witness :
  closing
    (set_closing true (sample_conn 33 S2N_ALERT_FAIL_ON_WARNINGS)) = true.
Proof.
  apply (proj2 (proj2 (proj2
           (close_if_fatal_touches_only_closing
              (sample_conn 33 S2N_ALERT_FAIL_ON_WARNINGS)
              (set_closing true (sample_conn 33 S2N_ALERT_FAIL_ON_WARNINGS))
              (Some {| data := [2; 40]; size := 2 |}) S2N_RESULT_OK eq_refl)))
           eq_refl {| data := [2; 40]; size := 2 |} eq_refl).
  vm_compute. discriminate.
Defined.

(** X7: queueing a reader alert always returns success and never touches
    anything but the reader slot; a pending alert is kept as it is, so of
    two alerts queued in a row only the first is in the slot. *)
Theorem queue_reader_alert_single_slot {cache : Type}
  (conn : s2n_connection_reader cache) (level error_code level' error_code' : Z) :
  let first := s2n_queue_reader_alert conn level error_code in
  fst first = S2N_SUCCESS
  /\ connection (snd first) = connection conn
  /\ (reader_alert_out conn <> [] -> snd first = conn)
  /\ (reader_alert_out conn = [] ->
      s2n_alerts_supported (connection conn) = true ->
      reader_alert_out (snd first) = [level; error_code])
  /\ s2n_queue_reader_alert (snd first) level' error_code' = (S2N_SUCCESS, snd first).
Proof.
  unfold s2n_queue_reader_alert, s2n_stuffer_write, s2n_stuffer_data_available.
  destruct conn as [c slot]. cbn [reader_alert_out connection].
  destruct slot as [|b slot]; cbn [length Nat.eqb negb].
  - destruct (s2n_alerts_supported c) eqn:Hsup; cbn [negb fst snd].
    + cbn. repeat split; trivial. contradiction.
    + cbn. rewrite Hsup. repeat split; trivial; try contradiction. discriminate.
  - cbn. repeat split; trivial; discriminate.
Qed.

Lemma queue_reader_alert_single_slot_witness :
  reader_alert_out (snd (s2n_queue_reader_alert (sample_reader 33) 2 70)) = [2; 70].
Proof.
  apply (proj1 (proj2 (proj2 (proj2
           (queue_reader_alert_single_slot (sample_reader 33) 2 70 2 40))))).
  - reflexivity.
  - reflexivity.
Defined.

(** What [s2n_queue_reader_no_renegotiation_alert] queues on an empty slot. *)
Lemma queue_reader_no_renegotiation_eq {cache : Type}
  (conn : s2n_connection_reader cache) :
  reader_alert_out conn = [] ->
  s2n_alerts_supported (connection conn) = true ->
  s2n_queue_reader_no_renegotiation_alert conn
  = (S2N_RESULT_OK,
     set_reader_alert_out
       (if s2n_connection_get_protocol_version (connection conn) =? S2N_SSLv3
        then [S2N_TLS_ALERT_LEVEL_FATAL; S2N_TLS_ALERT_HANDSHAKE_FAILURE]
        else [S2N_TLS_ALERT_LEVEL_WARNING; S2N_TLS_ALERT_NO_RENEGOTIATION])
       conn).
Proof.
  intros Hslot Hsup.
  unfold s2n_queue_reader_no_renegotiation_alert, s2n_queue_reader_alert,
    s2n_stuffer_write, s2n_stuffer_data_available.
  rewrite Hslot, Hsup.
  destruct (_ =? S2N_SSLv3); reflexivity.
Qed.


(** X8: on a connection with an empty reader slot that supports alerts,
    [s2n_queue_reader_no_renegotiation_alert] queues (fatal,
    handshake_failure) when the version is SSLv3 and (warning,
    no_renegotiation) for every other version, and returns success. *)
Theorem no_renegotiation_alert_by_version {cache : Type}
  (conn : s2n_connection_reader cache) :
  reader_alert_out conn = [] ->
  s2n_alerts_supported (connection conn) = true ->
  s2n_queue_reader_no_renegotiation_alert conn
  = (S2N_RESULT_OK,
     set_reader_alert_out
       (if s2n_connection_get_protocol_version (connection conn) =? S2N_SSLv3
        then [S2N_TLS_ALERT_LEVEL_FATAL; S2N_TLS_ALERT_HANDSHAKE_FAILURE]
        else [S2N_TLS_ALERT_LEVEL_WARNING; S2N_TLS_ALERT_NO_RENEGOTIATION])
       conn).
Proof.
  intros Hslot Hsup.
  unfold s2n_queue_reader_no_renegotiation_alert, s2n_queue_reader_alert,
    s2n_stuffer_write, s2n_stuffer_data_available.
  rewrite Hslot, Hsup.
  destruct (_ =? S2N_SSLv3); reflexivity.
Qed.

Lemma no_renegotiation_alert_by_version_witness :
  s2n_queue_reader_no_renegotiation_alert (sample_reader 30)
  = (S2N_RESULT_OK, set_reader_alert_out [2; 40] (sample_reader 30)).
Proof.
  apply (no_renegotiation_alert_by_version (sample_reader 30)); reflexivity.
Defined.



(** ** What a call of the inbound path does to the connection *)

Lemma with_inbound_fields_of_self {cache : Type} (conn : s2n_connection cache) :
  conn = with_inbound_fields_of conn conn.
Proof. destruct conn as [[? ? ?] ? ? ? ? ? ? ? ? ? ? ? ?]. reflexivity. Qed.

(** The loop returns either when the input is used up, or from the
    dispatch of the first alert that gets complete. [consumed] are the
    bytes moved from [conn->in] to [conn->alert_in] on the way. *)
Lemma process_alert_fragment_loop_shape {cache : Type} (fuel : nat) :
  forall (conn conn' : s2n_connection cache) (r : posix_return),
    process_alert_fragment_loop fuel conn = Some (r, conn') ->
    exists consumed rest,
      conn_in conn = consumed ++ rest
      /\ (((r, conn')
           = (S2N_SUCCESS, set_alert_in (alert_in conn ++ consumed) (set_in rest conn))
           /\ rest = [])
          \/ (consumed <> []
              /\ length (alert_in conn ++ consumed) = 2%nat
              /\ (r, conn')
                 = process_complete_alert
                     (set_alert_in (alert_in conn ++ consumed) (set_in rest conn)))).
Proof.
  induction fuel as [|fuel IH]; intros conn conn' r H;
    rewrite process_alert_fragment_loop_eq in H;
    destruct (s2n_stuffer_data_available (conn_in conn) =? 0)%nat eqn:Hin.
  - apply Nat.eqb_eq in Hin. injection H as <- <-.
    exists [], (conn_in conn). split; [reflexivity |]. left.
    split; [| destruct (conn_in conn); [reflexivity | discriminate Hin]].
    rewrite app_nil_r. destruct conn; reflexivity.
  - discriminate H.
  - apply Nat.eqb_eq in Hin. injection H as <- <-.
    exists [], (conn_in conn). split; [reflexivity |]. left.
    split; [| destruct (conn_in conn); [reflexivity | discriminate Hin]].
    rewrite app_nil_r. destruct conn; reflexivity.
  - apply Nat.eqb_neq in Hin. cbv zeta in H. unfold s2n_stuffer_copy in H.
    set (n := Nat.min _ _) in H.
    assert (Hn : (1 <= n <= s2n_stuffer_data_available (conn_in conn))%nat).
    { subst n. destruct (s2n_stuffer_data_available (alert_in conn) =? 1)%nat; lia. }
    destruct (s2n_stuffer_data_available (conn_in conn) <? n)%nat eqn:Hlt;
      [apply Nat.ltb_lt in Hlt; lia |].
    unfold s2n_stuffer_data_available in *.
    cbn [alert_in set_alert_in] in H.
    destruct (length (alert_in conn ++ firstn n (conn_in conn)) =? 2)%nat eqn:Htwo.
    + apply Nat.eqb_eq in Htwo. injection H as H.
      exists (firstn n (conn_in conn)), (skipn n (conn_in conn)).
      split; [symmetry; apply firstn_skipn |]. right.
      split; [| split; [exact Htwo | symmetry; exact H]].
      destruct (conn_in conn); [cbn in Hn; lia |].
      destruct n; [lia | discriminate].
    + apply IH in H. destruct H as (consumed & rest & Hsplit & Hcases).
      cbn [conn_in alert_in set_alert_in set_in] in Hsplit, Hcases.
      exists (firstn n (conn_in conn) ++ consumed), rest.
      split.
      { rewrite <- app_assoc, <- Hsplit. symmetry. apply firstn_skipn. }
      rewrite app_assoc.
      destruct Hcases as [[Hres Hrest] | (Hne & Hlen & Hres)].
      * left. split; [exact Hres | exact Hrest].
      * right. split; [| split; [exact Hlen | exact Hres]].
        intros Hnil. apply app_eq_nil in Hnil. tauto.
Qed.

(** The dispatch of a completed alert: what it returns and what it
    leaves of the connection it is given. *)
Lemma process_complete_alert_effect {cache : Type} (conn : s2n_connection cache) :
  let r := fst (process_complete_alert conn) in
  let conn' := snd (process_complete_alert conn) in
  conn' = with_inbound_fields_of conn' conn
  /\ conn_in conn' = conn_in conn
  /\ (closed conn = true -> closed conn' = true)
  /\ (close_notify_received conn = true -> close_notify_received conn' = true)
  /\ ((r = S2N_SUCCESS /\ alert_in conn' = alert_in conn
       /\ closed conn' = true /\ close_notify_received conn' = true
       /\ alert_in_data conn 1 = S2N_TLS_ALERT_CLOSE_NOTIFY
       /\ cache_delete_data (config conn') = cache_delete_data (config conn))
      \/ (r = S2N_SUCCESS /\ alert_in conn' = []
          /\ closed conn' = closed conn
          /\ close_notify_received conn' = close_notify_received conn
          /\ alert_in_data conn 1 <> S2N_TLS_ALERT_CLOSE_NOTIFY
          /\ cache_delete_data (config conn') = cache_delete_data (config conn))
      \/ (r = S2N_FAILURE S2N_ERR_ALERT /\ alert_in conn' = alert_in conn
          /\ closed conn' = true
          /\ close_notify_received conn' = close_notify_received conn
          /\ alert_in_data conn 1 <> S2N_TLS_ALERT_CLOSE_NOTIFY)).
Proof.
  unfold process_complete_alert, s2n_stuffer_wipe.
  destruct conn as [[bh cd cdd] q v ac cin ain wout cl clg cnr cnq sid sl].
  destruct (Z.eqb_spec
              (alert_in_data
                 {| config := {| alert_behavior := bh; cache_delete := cd;
                                 cache_delete_data := cdd |};
                    quic_enabled := q; actual_protocol_version := v;
                    allowed_to_cache := ac; conn_in := cin; alert_in := ain;
                    writer_alert_out := wout; closed := cl; closing := clg;
                    close_notify_received := cnr; close_notify_queued := cnq;
                    session_id := sid; session_id_len := sl |} 1)
              S2N_TLS_ALERT_CLOSE_NOTIFY) as [Hcn | Hcn].
  - cbn. repeat split; trivial. left. repeat split; trivial.
  - destruct (s2n_process_as_warning _ _ _).
    + cbn. repeat split; trivial. right. left. repeat split; trivial.
    + cbv zeta.
      destruct (s2n_allowed_to_cache_connection _ && negb (session_id_len _ =? 0)).
      * cbn [config cache_delete cache_delete_data session_id session_id_len].
        destruct (cd cdd sid sl) as [ret cdd'].
        cbn. repeat split; trivial. right. right. repeat split; trivial.
      * cbn. repeat split; trivial. right. right. repeat split; trivial.
Qed.

(** A call is either refused by one of the three guards, or it is the loop
    on a connection that supports alerts, has input and no complete alert
    buffered. *)
Lemma process_alert_fragment_shape {cache : Type}
  (conn conn' : s2n_connection cache) (r : posix_return) :
  s2n_process_alert_fragment conn = Some (r, conn') ->
  (conn' = conn
   /\ (r = S2N_FAILURE S2N_ERR_BAD_MESSAGE \/ r = S2N_FAILURE S2N_ERR_ALERT_PRESENT))
  \/ (s2n_alerts_supported conn = true
      /\ conn_in conn <> []
      /\ length (alert_in conn) <> 2%nat
      /\ exists consumed rest,
          conn_in conn = consumed ++ rest
          /\ (((r, conn')
               = (S2N_SUCCESS,
                  set_alert_in (alert_in conn ++ consumed) (set_in rest conn))
               /\ rest = [])
              \/ (consumed <> []
                  /\ length (alert_in conn ++ consumed) = 2%nat
                  /\ (r, conn')
                     = process_complete_alert
                         (set_alert_in (alert_in conn ++ consumed) (set_in rest conn))))).
Proof.
  unfold s2n_process_alert_fragment, s2n_stuffer_data_available.
  destruct (length (conn_in conn) =? 0)%nat eqn:Hin;
    [intros H; injection H as <- <-; left; tauto |].
  destruct (length (alert_in conn) =? 2)%nat eqn:Ha;
    [intros H; injection H as <- <-; left; tauto |].
  destruct (s2n_alerts_supported conn) eqn:Hsup; cbn [negb];
    [| intros H; injection H as <- <-; left; tauto].
  intros H. right. apply Nat.eqb_neq in Hin, Ha.
  split; [reflexivity |]. split; [intros Hnil; rewrite Hnil in Hin; apply Hin; reflexivity |].
  split; [exact Ha |].
  apply (process_alert_fragment_loop_shape _ _ _ _ H).
Qed.

Lemma error_codes_of_the_inbound_path :
  S2N_ERR_ALERT <> S2N_ERR_BAD_MESSAGE /\ S2N_ERR_ALERT <> S2N_ERR_ALERT_PRESENT.
Proof. split; vm_compute; discriminate. Qed.

(** A call leaves the writer's side and the QUIC mode as they were, so
    whether a close_notify is due does not change. *)
Lemma inbound_keeps_writer_due {cache : Type}
  (conn conn' : s2n_connection cache) (r : posix_return) :
  s2n_process_alert_fragment conn = Some (r, conn') ->
  writer_close_alert_due conn' = writer_close_alert_due conn.
Proof.
  intros H. apply process_alert_fragment_shape in H.
  destruct H as [[-> _] | (_ & _ & _ & consumed & rest & _ & [[H _] | (_ & _ & H)])].
  - reflexivity.
  - injection H as -> ->. reflexivity.
  - pose proof (process_complete_alert_effect
                  (set_alert_in (alert_in conn ++ consumed) (set_in rest conn))) as E.
    rewrite <- H in E. cbn [fst snd] in E. destruct E as (-> & _). reflexivity.
Qed.

(** X10: whatever a call of [s2n_process_alert_fragment] returns, the
    connection it leaves differs from the one it got at most in the two
    inbound buffers, the closed and close_notify_received flags and the
    session cache; the writer's slot, close_notify_queued, closing, the
    configuration and the session id are as they were, and a flag that was
    set stays set. *)
Theorem process_alert_fragment_frame {cache : Type}
  (conn conn' : s2n_connection cache) (r : posix_return) :
  s2n_process_alert_fragment conn = Some (r, conn') ->
  conn' = with_inbound_fields_of conn' conn
  /\ (closed conn = true -> closed conn' = true)
  /\ (close_notify_received conn = true -> close_notify_received conn' = true).
Proof.
  intros H. apply process_alert_fragment_shape in H.
  destruct H as [[-> _] | (_ & _ & _ & consumed & rest & _ & [[H _] | (_ & _ & H)])].
  - split; [apply with_inbound_fields_of_self | tauto].
  - injection H as -> ->. split; [| tauto].
    destruct conn as [[? ? ?] ? ? ? ? ? ? ? ? ? ? ? ?]. reflexivity.
  - pose proof (process_complete_alert_effect
                  (set_alert_in (alert_in conn ++ consumed) (set_in rest conn))) as E.
    rewrite <- H in E. cbn [fst snd] in E.
    destruct E as (Hframe & _ & Hcl & Hcnr & _).
    split; [| split; [exact Hcl | exact Hcnr]].
    rewrite Hframe at 1. reflexivity.
Qed.

Lemma process_alert_fragment_frame_witness :
  writer_alert_out
    (set_cache_delete_data [[7; 7; 7]]
       (set_closed true
          (set_alert_in [2; 40]
             (set_in [] (sample_conn 33 S2N_ALERT_FAIL_ON_WARNINGS)))))
  = writer_alert_out
      (with_inbound_fields_of
         (set_cache_delete_data [[7; 7; 7]]
            (set_closed true
               (set_alert_in [2; 40]
                  (set_in [] (sample_conn 33 S2N_ALERT_FAIL_ON_WARNINGS)))))
         (with_input [2; 40] (sample_conn 33 S2N_ALERT_FAIL_ON_WARNINGS))).
Proof.
  apply (f_equal writer_alert_out).
  apply (process_alert_fragment_frame
           (with_input [2; 40] (sample_conn 33 S2N_ALERT_FAIL_ON_WARNINGS))
           _ (S2N_FAILURE S2N_ERR_ALERT)).
  reflexivity.
Defined.

(** The dispatch empties a buffer only by tolerating the alert in it. *)
Lemma process_complete_alert_wiped {cache : Type} (conn : s2n_connection cache) :
  alert_in conn <> [] ->
  alert_in (snd (process_complete_alert conn)) = [] ->
  fst (process_complete_alert conn) = S2N_SUCCESS
  /\ alert_in_data conn 1 <> S2N_TLS_ALERT_CLOSE_NOTIFY
  /\ s2n_process_as_warning conn (alert_in_data conn 0) (alert_in_data conn 1) = true.
Proof.
  unfold process_complete_alert, s2n_stuffer_wipe. intros Hne.
  destruct (Z.eqb_spec (alert_in_data conn 1) S2N_TLS_ALERT_CLOSE_NOTIFY) as [Hcn | Hcn].
  - cbn. intros H. contradiction.
  - destruct (s2n_process_as_warning conn _ _).
    + intros _. repeat split. exact Hcn.
    + cbv zeta.
      destruct (s2n_allowed_to_cache_connection conn && negb (session_id_len conn =? 0)).
      * destruct (cache_delete _ _ _ _). cbn. intros H. contradiction.
      * cbn. intros H. contradiction.
Qed.

(** X11: no byte is lost or made up: the bytes a call takes from
    [conn->in] are a prefix of it, in order, and the reassembly buffer it
    leaves is the old one followed by exactly those bytes. The one
    exception is a call that succeeds and leaves the buffer empty: then
    the old buffer and those bytes together were the two bytes of an alert
    other than close_notify that the warning policy tolerates. *)
Theorem process_alert_fragment_moves_a_prefix {cache : Type}
  (conn conn' : s2n_connection cache) (r : posix_return) :
  s2n_process_alert_fragment conn = Some (r, conn') ->
  exists consumed,
    conn_in conn = consumed ++ conn_in conn'
    /\ (alert_in conn' = alert_in conn ++ consumed
        \/ (alert_in conn' = [] /\ r = S2N_SUCCESS
            /\ exists level type,
                alert_in conn ++ consumed = [level; type]
                /\ type <> S2N_TLS_ALERT_CLOSE_NOTIFY
                /\ s2n_process_as_warning conn level type = true)).
Proof.
  intros H. apply process_alert_fragment_shape in H.
  destruct H as [[-> _] | (_ & _ & _ & consumed & rest & Hsplit
                           & [[H _] | (_ & Hlen & H)])].
  - exists []. split; [reflexivity |]. left. symmetry. apply app_nil_r.
  - injection H as -> ->. exists consumed. split; [exact Hsplit |]. left. reflexivity.
  - pose proof (process_complete_alert_effect
                  (set_alert_in (alert_in conn ++ consumed) (set_in rest conn))) as E.
    pose proof (process_complete_alert_wiped
                  (set_alert_in (alert_in conn ++ consumed) (set_in rest conn))) as W.
    rewrite <- H in E, W. cbn [fst snd] in E, W.
    destruct E as (_ & Hin & _ & _ & Hcases).
    exists consumed. split; [rewrite Hin; exact Hsplit |].
    destruct Hcases as [(_ & Ha & _) | [(Hr & Ha & _) | (_ & Ha & _)]];
      [left; exact Ha | | left; exact Ha].
    right. split; [exact Ha |]. split; [exact Hr |].
    cbn [alert_in set_alert_in] in W.
    unfold alert_in_data in W. cbn [alert_in set_alert_in] in W.
    change (s2n_process_as_warning
              (set_alert_in (alert_in conn ++ consumed) (set_in rest conn)))
      with (s2n_process_as_warning conn) in W.
    destruct (alert_in conn ++ consumed) as [|level [|type [|? ?]]];
      try discriminate Hlen.
    destruct (W ltac:(discriminate) Ha) as (_ & Hcn & Hw).
    exists level, type. repeat split; assumption.
Qed.

Lemma process_alert_fragment_moves_a_prefix_witness :
  exists consumed,
    conn_in (with_input [1; 90; 3] (sample_conn 34 S2N_ALERT_FAIL_ON_WARNINGS))
    = consumed
      ++ conn_in (set_alert_in [] (set_in [3] (sample_conn 34 S2N_ALERT_FAIL_ON_WARNINGS)))
    /\ (alert_in (set_alert_in [] (set_in [3] (sample_conn 34 S2N_ALERT_FAIL_ON_WARNINGS)))
        = alert_in (with_input [1; 90; 3] (sample_conn 34 S2N_ALERT_FAIL_ON_WARNINGS))
          ++ consumed
        \/ (alert_in (set_alert_in [] (set_in [3] (sample_conn 34 S2N_ALERT_FAIL_ON_WARNINGS)))
            = []
            /\ S2N_SUCCESS = S2N_SUCCESS
            /\ exists level type,
                alert_in (with_input [1; 90; 3] (sample_conn 34 S2N_ALERT_FAIL_ON_WARNINGS))
                ++ consumed = [level; type]
                /\ type <> S2N_TLS_ALERT_CLOSE_NOTIFY
                /\ s2n_process_as_warning
                     (with_input [1; 90; 3] (sample_conn 34 S2N_ALERT_FAIL_ON_WARNINGS))
                     level type = true)).
Proof.
  apply (process_alert_fragment_moves_a_prefix
           (with_input [1; 90; 3] (sample_conn 34 S2N_ALERT_FAIL_ON_WARNINGS))
           (set_alert_in [] (set_in [3] (sample_conn 34 S2N_ALERT_FAIL_ON_WARNINGS)))
           S2N_SUCCESS).
  reflexivity.
Defined.

(** X13: a call fails only with [S2N_ERR_BAD_MESSAGE],
    [S2N_ERR_ALERT_PRESENT] or [S2N_ERR_ALERT], never with an error of the
    stuffer; the first two leave the connection as it was, and the last
    leaves it closed with the two bytes of the alert in the buffer. *)
Theorem process_alert_fragment_failures {cache : Type}
  (conn conn' : s2n_connection cache) (e : Z) :
  s2n_process_alert_fragment conn = Some (S2N_FAILURE e, conn') ->
  ((e = S2N_ERR_BAD_MESSAGE \/ e = S2N_ERR_ALERT_PRESENT) /\ conn' = conn)
  \/ (e = S2N_ERR_ALERT
      /\ closed conn' = true
      /\ length (alert_in conn') = 2%nat
      /\ alert_in_data conn' 1 <> S2N_TLS_ALERT_CLOSE_NOTIFY).
Proof.
  intros H. apply process_alert_fragment_shape in H.
  destruct H as [[-> [H | H]] | (_ & _ & _ & consumed & rest & _
                                 & [[H _] | (_ & Hlen & H)])].
  - injection H as ->. left. tauto.
  - injection H as ->. left. tauto.
  - discriminate H.
  - pose proof (process_complete_alert_effect
                  (set_alert_in (alert_in conn ++ consumed) (set_in rest conn))) as E.
    rewrite <- H in E. cbn [fst snd] in E.
    destruct E as (_ & _ & _ & _ & [(Hr & _) | [(Hr & _) | (Hr & Ha & Hcl & _ & Hcn)]]);
      try discriminate Hr.
    injection Hr as ->. right. unfold alert_in_data in *. rewrite Ha.
    repeat split; trivial.
Qed.

Lemma process_alert_fragment_failures_witness :
  ((S2N_ERR_ALERT_PRESENT = S2N_ERR_BAD_MESSAGE
    \/ S2N_ERR_ALERT_PRESENT = S2N_ERR_ALERT_PRESENT)
   /\ with_input [5] (set_alert_in [1; 0] (sample_conn 33 S2N_ALERT_FAIL_ON_WARNINGS))
      = with_input [5] (set_alert_in [1; 0] (sample_conn 33 S2N_ALERT_FAIL_ON_WARNINGS)))
  \/ (S2N_ERR_ALERT_PRESENT = S2N_ERR_ALERT
      /\ closed
           (with_input [5]
              (set_alert_in [1; 0] (sample_conn 33 S2N_ALERT_FAIL_ON_WARNINGS))) = true
      /\ length
           (alert_in
              (with_input [5]
                 (set_alert_in [1; 0] (sample_conn 33 S2N_ALERT_FAIL_ON_WARNINGS))))
         = 2%nat
      /\ alert_in_data
           (with_input [5]
              (set_alert_in [1; 0] (sample_conn 33 S2N_ALERT_FAIL_ON_WARNINGS))) 1
         <> S2N_TLS_ALERT_CLOSE_NOTIFY).
Proof.
  apply (process_alert_fragment_failures
           (with_input [5] (set_alert_in [1; 0] (sample_conn 33 S2N_ALERT_FAIL_ON_WARNINGS)))
           _ S2N_ERR_ALERT_PRESENT).
  reflexivity.
Defined.

(** X14: the session cache changes only in a call that fails with
    [S2N_ERR_ALERT]: after any other outcome it is as it was. *)
Theorem session_cache_changes_only_on_alert_error {cache : Type}
  (conn conn' : s2n_connection cache) (r : posix_return) :
  s2n_process_alert_fragment conn = Some (r, conn') ->
  r <> S2N_FAILURE S2N_ERR_ALERT ->
  cache_delete_data (config conn') = cache_delete_data (config conn).
Proof.
  intros H Hr. apply process_alert_fragment_shape in H.
  destruct H as [[-> _] | (_ & _ & _ & consumed & rest & _
                           & [[H _] | (_ & _ & H)])].
  - reflexivity.
  - injection H as -> ->. reflexivity.
  - pose proof (process_complete_alert_effect
                  (set_alert_in (alert_in conn ++ consumed) (set_in rest conn))) as E.
    rewrite <- H in E. cbn [fst snd] in E.
    destruct E as (_ & _ & _ & _ & [(_ & _ & _ & _ & _ & Hc)
                                   | [(_ & _ & _ & _ & _ & Hc) | (Hf & _)]]);
      [exact Hc | exact Hc | contradiction].
Qed.

Lemma session_cache_changes_only_on_alert_error_witness :
  cache_delete_data
    (config
       (set_close_notify_received true
          (set_closed true
             (set_alert_in [1; 0]
                (set_in [] (sample_conn 33 S2N_ALERT_FAIL_ON_WARNINGS))))))
  = cache_delete_data
      (config (with_input [1; 0] (sample_conn 33 S2N_ALERT_FAIL_ON_WARNINGS))).
Proof.
  apply (session_cache_changes_only_on_alert_error
           (with_input [1; 0] (sample_conn 33 S2N_ALERT_FAIL_ON_WARNINGS))
           _ S2N_SUCCESS).
  - reflexivity.
  - discriminate.
Defined.

(** ** Well-formed reassembly buffers *)

(** With at most one byte buffered and input at hand, the input either is
    a lone first byte or completes an alert. *)
Lemma inbound_cases {cache : Type} (conn : s2n_connection cache) :
  (length (alert_in conn) <= 1)%nat ->
  conn_in conn <> [] ->
  (exists b, alert_in conn = [] /\ conn_in conn = [b])
  \/ (exists level type rest, completes conn level type rest).
Proof.
  unfold completes. intros Ha Hin.
  destruct (alert_in conn) as [|l [|? ?]]; [| | cbn in Ha; lia];
    destruct (conn_in conn) as [|b [|b' rest]]; try contradiction.
  - left. exists b. tauto.
  - right. exists b, b', rest. tauto.
  - right. exists l, b, []. tauto.
  - right. exists l, b, (b' :: rest). tauto.
Qed.

Lemma process_alert_fragment_lone_byte {cache : Type} (conn : s2n_connection cache)
  (b : Z) :
  s2n_alerts_supported conn = true ->
  alert_in conn = [] ->
  conn_in conn = [b] ->
  s2n_process_alert_fragment conn
  = Some (S2N_SUCCESS, set_alert_in [b] (set_in [] conn)).
Proof.
  intros Hsup Ha Hi. unfold s2n_process_alert_fragment.
  rewrite Hsup, Ha, Hi. cbn. rewrite Ha, Hi. reflexivity.
Qed.

(** X12: the reassembly buffer never outgrows an alert: a call on a buffer
    of at most two bytes leaves at most two bytes in it, and takes from
    [conn->in] no more bytes than the buffered alert still lacks. *)
Theorem process_alert_fragment_keeps_buffer_bounded {cache : Type}
  (conn conn' : s2n_connection cache) (r : posix_return) :
  (length (alert_in conn) <= 2)%nat ->
  s2n_process_alert_fragment conn = Some (r, conn') ->
  (length (alert_in conn') <= 2)%nat
  /\ (length (conn_in conn') <= length (conn_in conn))%nat
  /\ (length (conn_in conn) + length (alert_in conn) <= length (conn_in conn') + 2)%nat.
Proof.
  intros Hwf H. pose proof H as Hshape. apply process_alert_fragment_shape in Hshape.
  destruct Hshape as [[-> _] | (Hsup & Hin & Hne & _)]; [lia |].
  destruct (inbound_cases conn ltac:(lia) Hin)
    as [(b & Ha & Hi) | (level & type & rest & Hc)].
  - rewrite (process_alert_fragment_lone_byte conn b Hsup Ha Hi) in H.
    injection H as _ <-. rewrite Ha, Hi. cbn. lia.
  - rewrite (process_alert_fragment_completes conn level type rest Hsup Hc) in H.
    injection H as H.
    pose proof (process_complete_alert_effect (buffered level type rest conn)) as E.
    rewrite H in E. cbn [fst snd] in E.
    destruct E as (_ & Hi & _ & _ & Hcases).
    change (conn_in (buffered level type rest conn)) with rest in Hi.
    change (alert_in (buffered level type rest conn)) with [level; type] in Hcases.
    rewrite Hi.
    assert (Hlen : (length (alert_in conn') <= 2)%nat).
    { destruct Hcases as [(_ & -> & _) | [(_ & -> & _) | (_ & -> & _)]]; cbn; lia. }
    destruct Hc as [[-> ->] | [-> ->]]; cbn; lia.
Qed.

Lemma process_alert_fragment_keeps_buffer_bounded_witness :
  Nat.le
    (length (alert_in (set_alert_in [] (set_in [3] (sample_conn 34 S2N_ALERT_FAIL_ON_WARNINGS)))))
    2.
Proof.
  apply (process_alert_fragment_keeps_buffer_bounded
           (with_input [90; 3] (set_alert_in [1] (sample_conn 34 S2N_ALERT_FAIL_ON_WARNINGS)))
           _ S2N_SUCCESS).
  - cbn. lia.
  - reflexivity.
Defined.

(** X15: a successful call on a buffer of at most two bytes means one of
    three things. The input was a lone first byte: it is now the only byte
    buffered, the input is used up and the flags are as they were. Or the
    input completed a close_notify: closed and close_notify_received are
    set and the alert is still buffered. Or the input completed an alert
    other than close_notify that the warning policy tolerates: the buffer
    is empty and the flags are as they were. In the last two cases the
    input left is what followed the alert. *)
Theorem process_alert_fragment_success_means {cache : Type}
  (conn conn' : s2n_connection cache) :
  (length (alert_in conn) <= 2)%nat ->
  s2n_process_alert_fragment conn = Some (S2N_SUCCESS, conn') ->
  (exists b,
      alert_in conn = [] /\ conn_in conn = [b]
      /\ alert_in conn' = [b] /\ conn_in conn' = []
      /\ closed conn' = closed conn
      /\ close_notify_received conn' = close_notify_received conn)
  \/ (exists level rest,
         completes conn level S2N_TLS_ALERT_CLOSE_NOTIFY rest
         /\ alert_in conn' = [level; S2N_TLS_ALERT_CLOSE_NOTIFY]
         /\ conn_in conn' = rest
         /\ closed conn' = true /\ close_notify_received conn' = true)
  \/ (exists level type rest,
         completes conn level type rest
         /\ type <> S2N_TLS_ALERT_CLOSE_NOTIFY
         /\ s2n_process_as_warning conn level type = true
         /\ alert_in conn' = [] /\ conn_in conn' = rest
         /\ closed conn' = closed conn
         /\ close_notify_received conn' = close_notify_received conn).
Proof.
  intros Hwf H. pose proof H as Hshape. apply process_alert_fragment_shape in Hshape.
  destruct Hshape as [[_ [Hr | Hr]] | (Hsup & Hin & Hne & _)];
    [discriminate Hr | discriminate Hr |].
  destruct (inbound_cases conn ltac:(lia) Hin)
    as [(b & Ha & Hi) | (level & type & rest & Hc)].
  - rewrite (process_alert_fragment_lone_byte conn b Hsup Ha Hi) in H.
    injection H as <-. left. exists b. repeat split; assumption.
  - rewrite (process_alert_fragment_completes conn level type rest Hsup Hc) in H.
    destruct (Z.eq_dec type S2N_TLS_ALERT_CLOSE_NOTIFY) as [-> | Hcn].
    + rewrite process_complete_alert_close_notify in H. injection H as <-.
      right. left. exists level, rest. repeat split. exact Hc.
    + destruct (s2n_process_as_warning conn level type) eqn:Hw.
      * rewrite (process_complete_alert_warning conn level type rest Hcn Hw) in H.
        injection H as <-. right. right. exists level, type, rest.
        repeat split; assumption.
      * destruct (process_complete_alert_fatal conn level type rest Hcn Hw)
          as (c & Hfail & _).
        rewrite Hfail in H. discriminate H.
Qed.

Lemma process_alert_fragment_success_means_witness :
  (exists b,
      alert_in (with_input [1] (sample_conn 33 S2N_ALERT_FAIL_ON_WARNINGS)) = []
      /\ conn_in (with_input [1] (sample_conn 33 S2N_ALERT_FAIL_ON_WARNINGS)) = [b]
      /\ alert_in (set_alert_in [1] (set_in [] (sample_conn 33 S2N_ALERT_FAIL_ON_WARNINGS)))
         = [b]
      /\ conn_in (set_alert_in [1] (set_in [] (sample_conn 33 S2N_ALERT_FAIL_ON_WARNINGS)))
         = []
      /\ closed (set_alert_in [1] (set_in [] (sample_conn 33 S2N_ALERT_FAIL_ON_WARNINGS)))
         = closed (with_input [1] (sample_conn 33 S2N_ALERT_FAIL_ON_WARNINGS))
      /\ close_notify_received
           (set_alert_in [1] (set_in [] (sample_conn 33 S2N_ALERT_FAIL_ON_WARNINGS)))
         = close_notify_received (with_input [1] (sample_conn 33 S2N_ALERT_FAIL_ON_WARNINGS)))
  \/ (exists level rest,
         completes (with_input [1] (sample_conn 33 S2N_ALERT_FAIL_ON_WARNINGS))
           level S2N_TLS_ALERT_CLOSE_NOTIFY rest
         /\ alert_in (set_alert_in [1] (set_in [] (sample_conn 33 S2N_ALERT_FAIL_ON_WARNINGS)))
            = [level; S2N_TLS_ALERT_CLOSE_NOTIFY]
         /\ conn_in (set_alert_in [1] (set_in [] (sample_conn 33 S2N_ALERT_FAIL_ON_WARNINGS)))
            = rest
         /\ closed (set_alert_in [1] (set_in [] (sample_conn 33 S2N_ALERT_FAIL_ON_WARNINGS)))
            = true
         /\ close_notify_received
              (set_alert_in [1] (set_in [] (sample_conn 33 S2N_ALERT_FAIL_ON_WARNINGS)))
            = true)
  \/ (exists level type rest,
         completes (with_input [1] (sample_conn 33 S2N_ALERT_FAIL_ON_WARNINGS))
           level type rest
         /\ type <> S2N_TLS_ALERT_CLOSE_NOTIFY
         /\ s2n_process_as_warning
              (with_input [1] (sample_conn 33 S2N_ALERT_FAIL_ON_WARNINGS)) level type
            = true
         /\ alert_in (set_alert_in [1] (set_in [] (sample_conn 33 S2N_ALERT_FAIL_ON_WARNINGS)))
            = []
         /\ conn_in (set_alert_in [1] (set_in [] (sample_conn 33 S2N_ALERT_FAIL_ON_WARNINGS)))
            = rest
         /\ closed (set_alert_in [1] (set_in [] (sample_conn 33 S2N_ALERT_FAIL_ON_WARNINGS)))
            = closed (with_input [1] (sample_conn 33 S2N_ALERT_FAIL_ON_WARNINGS))
         /\ close_notify_received
              (set_alert_in [1] (set_in [] (sample_conn 33 S2N_ALERT_FAIL_ON_WARNINGS)))
            = close_notify_received
                (with_input [1] (sample_conn 33 S2N_ALERT_FAIL_ON_WARNINGS))).
Proof.
  apply (process_alert_fragment_success_means
           (with_input [1] (sample_conn 33 S2N_ALERT_FAIL_ON_WARNINGS))
           (set_alert_in [1] (set_in [] (sample_conn 33 S2N_ALERT_FAIL_ON_WARNINGS)))).
  - cbn. lia.
  - reflexivity.
Defined.

(** ** After the last alert, and without alerts *)

(** A call that failed with [S2N_ERR_ALERT], or that set
    close_notify_received, left a complete alert in the buffer. *)
Lemma final_alert_stays_buffered {cache : Type}
  (conn conn' : s2n_connection cache) (r : posix_return) :
  s2n_process_alert_fragment conn = Some (r, conn') ->
  r = S2N_FAILURE S2N_ERR_ALERT
  \/ (close_notify_received conn = false /\ close_notify_received conn' = true) ->
  length (alert_in conn') = 2%nat.
Proof.
  intros H Hfinal. apply process_alert_fragment_shape in H.
  pose proof error_codes_of_the_inbound_path as [Hbm Hap].
  destruct H as [[-> [Hr | Hr]] | (_ & _ & _ & consumed & rest & _
                                   & [[H _] | (_ & Hlen & H)])].
  - destruct Hfinal as [-> | [Hf Ht]]; congruence.
  - destruct Hfinal as [-> | [Hf Ht]]; congruence.
  - injection H as -> ->.
    destruct Hfinal as [Hr | [Hf Ht]]; [discriminate Hr |].
    cbn in Ht. congruence.
  - pose proof (process_complete_alert_effect
                  (set_alert_in (alert_in conn ++ consumed) (set_in rest conn))) as E.
    rewrite <- H in E. cbn [fst snd] in E.
    destruct E as (_ & _ & _ & _ & [(_ & Ha & _) | [(Hr & _ & _ & Hcnr & _) | (_ & Ha & _)]]).
    + rewrite Ha. exact Hlen.
    + destruct Hfinal as [-> | [Hf Ht]]; [discriminate Hr |].
      cbn in Hcnr. congruence.
    + rewrite Ha. exact Hlen.
Qed.

(** X16: the alert that ended the connection is final: after a call that
    failed with [S2N_ERR_ALERT] or received a close_notify, every later
    call with input is refused with [S2N_ERR_ALERT_PRESENT] and changes
    nothing. *)
Theorem no_alert_is_processed_after_the_last {cache : Type}
  (conn conn' : s2n_connection cache) (r : posix_return) (bytes : list Z) :
  s2n_process_alert_fragment conn = Some (r, conn') ->
  r = S2N_FAILURE S2N_ERR_ALERT
  \/ (close_notify_received conn = false /\ close_notify_received conn' = true) ->
  bytes <> [] ->
  s2n_process_alert_fragment (with_input bytes conn')
  = Some (S2N_FAILURE S2N_ERR_ALERT_PRESENT, with_input bytes conn').
Proof.
  intros H Hfinal Hbytes.
  pose proof (final_alert_stays_buffered conn conn' r H Hfinal) as Hlen.
  unfold s2n_process_alert_fragment, s2n_stuffer_data_available.
  change (conn_in (with_input bytes conn')) with bytes.
  change (alert_in (with_input bytes conn')) with (alert_in conn').
  rewrite Hlen. destruct bytes; [contradiction | reflexivity].
Qed.

Lemma no_alert_is_processed_after_the_last_witness :
  s2n_process_alert_fragment
    (with_input [1; 0]
       (set_close_notify_received true
          (set_closed true
             (set_alert_in [1; 0]
                (set_in [] (sample_conn 33 S2N_ALERT_FAIL_ON_WARNINGS))))))
  = Some (S2N_FAILURE S2N_ERR_ALERT_PRESENT,
          with_input [1; 0]
            (set_close_notify_received true
               (set_closed true
                  (set_alert_in [1; 0]
                     (set_in [] (sample_conn 33 S2N_ALERT_FAIL_ON_WARNINGS)))))).
Proof.
  apply (no_alert_is_processed_after_the_last
           (with_input [1; 0] (sample_conn 33 S2N_ALERT_FAIL_ON_WARNINGS))
           _ S2N_SUCCESS [1; 0]).
  - reflexivity.
  - right. split; reflexivity.
  - discriminate.
Defined.

(** X17: in QUIC mode s2n neither receives nor sends alerts: the inbound
    call fails and both ways of queueing an alert return success, each
    leaving the connection exactly as it was. *)
Theorem quic_connections_exchange_no_alerts {cache : Type}
  (conn : s2n_connection_reader cache) (level error_code : Z) :
  s2n_connection_is_quic_enabled (connection conn) = true ->
  (exists e, s2n_process_alert_fragment (connection conn)
             = Some (S2N_FAILURE e, connection conn)
             /\ (e = S2N_ERR_BAD_MESSAGE \/ e = S2N_ERR_ALERT_PRESENT))
  /\ s2n_queue_writer_close_alert_warning (connection conn)
     = (S2N_SUCCESS, connection conn)
  /\ s2n_queue_reader_alert conn level error_code = (S2N_SUCCESS, conn).
Proof.
  intros Hquic.
  assert (Hsup : s2n_alerts_supported (connection conn) = false)
    by (unfold s2n_alerts_supported; rewrite Hquic; reflexivity).
  split; [| split].
  - unfold s2n_process_alert_fragment. rewrite Hsup. cbn [negb].
    destruct (_ =? 0)%nat; [eexists; split; [reflexivity | tauto] |].
    destruct (_ =? 2)%nat; eexists; (split; [reflexivity | tauto]).
  - unfold s2n_queue_writer_close_alert_warning. rewrite Hsup. cbn [negb].
    destruct (_ || _); reflexivity.
  - unfold s2n_queue_reader_alert. rewrite Hsup. cbn [negb].
    destruct (negb _); reflexivity.
Qed.

Lemma quic_connections_exchange_no_alerts_witness :
  s2n_queue_reader_alert
    {| connection := sample_quic_conn; reader_alert_out := [] |} 2 40
  = (S2N_SUCCESS, {| connection := sample_quic_conn; reader_alert_out := [] |}).
Proof.
  apply (quic_connections_exchange_no_alerts
           {| connection := sample_quic_conn; reader_alert_out := [] |} 2 40).
  reflexivity.
Defined.

(** ** The two directions are independent *)

Lemma process_complete_alert_writer_side {cache : Type} (conn : s2n_connection cache)
  (out : s2n_stuffer) (queued : bool) :
  process_complete_alert (set_writer_side out queued conn)
  = (fst (process_complete_alert conn),
     set_writer_side out queued (snd (process_complete_alert conn))).
Proof.
  unfold process_complete_alert, s2n_stuffer_wipe.
  change (alert_in_data (set_writer_side out queued conn)) with (alert_in_data conn).
  change (s2n_process_as_warning (set_writer_side out queued conn))
    with (s2n_process_as_warning conn).
  change (s2n_allowed_to_cache_connection (set_writer_side out queued conn))
    with (s2n_allowed_to_cache_connection conn).
  change (session_id_len (set_writer_side out queued conn)) with (session_id_len conn).
  change (session_id (set_writer_side out queued conn)) with (session_id conn).
  change (config (set_writer_side out queued conn)) with (config conn).
  destruct (alert_in_data conn 1 =? S2N_TLS_ALERT_CLOSE_NOTIFY); [reflexivity |].
  destruct (s2n_process_as_warning conn _ _); [reflexivity |].
  destruct (_ && _); [| reflexivity].
  destruct (cache_delete _ _ _ _). reflexivity.
Qed.

Lemma process_alert_fragment_loop_writer_side {cache : Type} (fuel : nat)
  (out : s2n_stuffer) (queued : bool) :
  forall conn : s2n_connection cache,
    process_alert_fragment_loop fuel (set_writer_side out queued conn)
    = option_map (fun rc => (fst rc, set_writer_side out queued (snd rc)))
        (process_alert_fragment_loop fuel conn).
Proof.
  induction fuel as [|fuel IH]; intros conn;
    rewrite (process_alert_fragment_loop_eq _ conn),
      (process_alert_fragment_loop_eq _ (set_writer_side out queued conn));
    change (conn_in (set_writer_side out queued conn)) with (conn_in conn);
    change (alert_in (set_writer_side out queued conn)) with (alert_in conn);
    destruct (s2n_stuffer_data_available (conn_in conn) =? 0)%nat;
    try reflexivity.
  cbv zeta. unfold s2n_stuffer_copy.
  destruct (_ <? _)%nat; [reflexivity |].
  cbn [alert_in set_alert_in].
  destruct (_ =? 2)%nat.
  - cbn [option_map]. f_equal.
    apply (process_complete_alert_writer_side
             (set_alert_in _ (set_in _ conn)) out queued).
  - apply (IH (set_alert_in _ (set_in _ conn))).
Qed.

(** Changing the writer's side of a connection changes nothing in what
    the inbound path does. *)
Lemma process_alert_fragment_writer_side {cache : Type} (conn : s2n_connection cache)
  (out : s2n_stuffer) (queued : bool) :
  s2n_process_alert_fragment (set_writer_side out queued conn)
  = option_map (fun rc => (fst rc, set_writer_side out queued (snd rc)))
      (s2n_process_alert_fragment conn).
Proof.
  unfold s2n_process_alert_fragment.
  change (conn_in (set_writer_side out queued conn)) with (conn_in conn).
  change (alert_in (set_writer_side out queued conn)) with (alert_in conn).
  change (s2n_alerts_supported (set_writer_side out queued conn))
    with (s2n_alerts_supported conn).
  destruct (_ =? 0)%nat; [reflexivity |].
  destruct (_ =? 2)%nat; [reflexivity |].
  destruct (negb _); [reflexivity |].
  apply process_alert_fragment_loop_writer_side.
Qed.

Lemma queue_writer_close_alert_warning_eq {cache : Type} (conn : s2n_connection cache) :
  s2n_queue_writer_close_alert_warning conn
  = (S2N_SUCCESS,
     if writer_close_alert_due conn
     then set_writer_side [S2N_TLS_ALERT_LEVEL_WARNING; S2N_TLS_ALERT_CLOSE_NOTIFY] true conn
     else conn).
Proof.
  unfold s2n_queue_writer_close_alert_warning, writer_close_alert_due,
    s2n_stuffer_write, s2n_stuffer_data_available.
  destruct (writer_alert_out conn) as [|b out] eqn:Hout; cbn [length Nat.eqb negb orb andb].
  - destruct (close_notify_queued conn); cbn [negb orb andb]; [reflexivity |].
    destruct (s2n_alerts_supported conn); reflexivity.
  - reflexivity.
Qed.

(** X18: receiving alerts and queueing the writer's close_notify do not
    interfere: queueing first and then processing the input gives the same
    return value and the same connection as processing first and queueing
    on what that leaves. *)
Theorem inbound_and_writer_close_commute {cache : Type} (conn : s2n_connection cache) :
  s2n_process_alert_fragment (snd (s2n_queue_writer_close_alert_warning conn))
  = option_map
      (fun rc => (fst rc, snd (s2n_queue_writer_close_alert_warning (snd rc))))
      (s2n_process_alert_fragment conn).
Proof.
  rewrite queue_writer_close_alert_warning_eq. cbn [snd].
  destruct (s2n_process_alert_fragment conn) as [[r conn'] |] eqn:H.
  - assert (Hdue : writer_close_alert_due conn' = writer_close_alert_due conn).
    { apply (inbound_keeps_writer_due conn conn' r H). }
    cbn [option_map fst snd].
    rewrite queue_writer_close_alert_warning_eq, Hdue. cbn [snd].
    destruct (writer_close_alert_due conn); [| exact H].
    rewrite process_alert_fragment_writer_side, H. reflexivity.
  - destruct (s2n_process_alert_fragment_total conn) as [rc Hrc]. congruence.
Qed.

(** ** The debug line of an error *)

Module DebugLineFacts.
Import Ascii String DebugLine.
#[local] Open Scope char_scope.

Lemma strrchr_none (s : list ascii) (c : ascii) :
  strrchr s c = None -> ~ In c s.
Proof.
  induction s as [|x rest IH]; cbn [strrchr In]; intros H; [tauto |].
  destruct (strrchr rest c); [discriminate H |].
  destruct (Ascii.eqb_spec x c) as [-> | Hne]; [discriminate H |].
  intros [Hx | Hin]; [contradiction | apply IH; trivial].
Qed.

Lemma strrchr_some (s found : list ascii) (c : ascii) :
  strrchr s c = Some found ->
  exists before after, s = before ++ c :: after /\ found = c :: after /\ ~ In c after.
Proof.
  revert found. induction s as [|x rest IH]; cbn [strrchr]; intros found H;
    [discriminate H |].
  destruct (strrchr rest c) as [found'|] eqn:Hrest.
  - injection H as <-. destruct (IH found' eq_refl) as (before & after & -> & -> & Hno).
    exists (x :: before), after. repeat split; trivial.
  - destruct (Ascii.eqb_spec x c) as [-> | Hne]; [| discriminate H].
    injection H as <-. exists [], rest. repeat split.
    apply strrchr_none, Hrest.
Qed.

Lemma strrchr_last (before after : list ascii) (c : ascii) :
  ~ In c after -> strrchr (before ++ c :: after) c = Some (c :: after).
Proof.
  intros Hno. induction before as [|x before IH]; cbn [app strrchr].
  - destruct (strrchr after c) as [found|] eqn:Hafter.
    + exfalso. destruct (strrchr_some _ _ _ Hafter) as (b & a & -> & _).
      apply Hno. apply in_or_app. right. left. reflexivity.
    + rewrite Ascii.eqb_refl. reflexivity.
  - rewrite IH. reflexivity.
Qed.

Lemma skip_prefix (rest : list ascii) :
  skipn (List.length _S2N_DEBUG_LINE_PREFIX) (_S2N_DEBUG_LINE_PREFIX ++ rest) = rest.
Proof. reflexivity. Qed.

(** X19: the base name [_S2N_EXTRACT_BASENAME] takes from a path holds
    no '/' and is the end of the path: a pointer into the same string. *)
Theorem basename_is_a_suffix_without_slash (path : list ascii) :
  ~ In "/" (_S2N_EXTRACT_BASENAME path)
  /\ exists before, path = before ++ _S2N_EXTRACT_BASENAME path.
Proof.
  unfold _S2N_EXTRACT_BASENAME, _S2N_RSPLIT.
  set (n := List.length _S2N_DEBUG_LINE_PREFIX).
  destruct (strrchr (skipn n path) "/") as [found|] eqn:H.
  - destruct (strrchr_some _ _ _ H) as (before & after & Hs & -> & Hno).
    cbn [tl]. split; [exact Hno |].
    exists (firstn n path ++ before ++ ["/"]).
    rewrite <- (firstn_skipn n path) at 1. rewrite Hs, <- !app_assoc. reflexivity.
  - split; [apply strrchr_none, H |].
    exists (firstn n path). symmetry. apply firstn_skipn.
Qed.

(** X20: the source recorded for an error raised in a file at a line is
    the file name without its directories, a colon and the line: whether
    the file name has directories in front or not. *)
Theorem debug_line_source_is_file_and_line (dir name line : list ascii) :
  ~ In "/" name ->
  ~ In "/" line ->
  _S2N_EXTRACT_BASENAME (_S2N_DEBUG_LINE (dir ++ "/" :: name) line) = name ++ ":" :: line
  /\ _S2N_EXTRACT_BASENAME (_S2N_DEBUG_LINE name line) = name ++ ":" :: line.
Proof.
  intros Hname Hline.
  assert (Hno : ~ In "/" (name ++ ":" :: line)).
  { intros Hin. apply in_app_or in Hin. destruct Hin as [Hin | [Hc | Hin]];
      [tauto | discriminate Hc | tauto]. }
  unfold _S2N_EXTRACT_BASENAME, _S2N_DEBUG_LINE, _S2N_RSPLIT.
  rewrite !skip_prefix. split.
  - rewrite <- app_assoc. cbn [app].
    rewrite (strrchr_last dir (name ++ ":" :: line) "/" Hno). reflexivity.
  - destruct (strrchr (name ++ ":" :: line) "/") as [found|] eqn:H; [| reflexivity].
    exfalso. destruct (strrchr_some _ _ _ H) as (b & a & Hs & _).
    apply Hno. rewrite Hs. apply in_or_app. right. left. reflexivity.
Qed.

Lemma debug_line_source_is_file_and_line_witness :
  _S2N_EXTRACT_BASENAME
    (_S2N_DEBUG_LINE (list_ascii_of_string "/path/to/my/file.c")
       (list_ascii_of_string "215"))
  = list_ascii_of_string "file.c:215".
Proof.
  apply (proj1 (debug_line_source_is_file_and_line
                  (list_ascii_of_string "/path/to/my")
                  (list_ascii_of_string "file.c")
                  (list_ascii_of_string "215")
                  ltac:(vm_compute; intuition discriminate)
                  ltac:(vm_compute; intuition discriminate))).
Defined.

(** The example of the header: the base name of
    "Error encountered in /path/to/my/file.c" is "file.c". *)
Example extract_basename_example :
  _S2N_EXTRACT_BASENAME
    (list_ascii_of_string "Error encountered in /path/to/my/file.c")
  = list_ascii_of_string "file.c".
Proof. reflexivity. Qed.

End DebugLineFacts.
